(** * Weekly meal planner: plan generator, plan normalizer, nutrition analyzer

    A shallow embedding of [meal_ai.py] (make_plan, export_plan,
    analyze_menu_plan) and of the menu-board import handler of [app.py].

    Conventions of the embedding.
    - Python [str] is [string]: the bytes of the UTF-8 encoding.  Comparing
      UTF-8 strings byte by byte is comparing them code point by code point,
      which is how Python (and so pandas) orders [str] values.
    - A pandas cell is [option string]: a text, or [None] for NaN (a missing
      cell).  The column labels of a frame are taken to be distinct; a label
      is looked up at its first position.
    - A sheet holds texts.  What the spreadsheet does to a text on the way
      (a text that spells a missing value, a formula, a link or a number) is
      spelled out where a property depends on it.
    - The [menus] table is the list of its rows in storage order.  A
      nutrient value is an integer (the classification prompt asks for
      integers): the columns calories and sodium are INTEGER and hold it as
      a 64-bit integer, the columns protein, fat and carbs are REAL and hold
      the double nearest to it.  Copying a value keeps it; sums are taken as
      the column type takes them, with wrap-around for the 64-bit integers
      and with rounding for the doubles.
    - An exception is a value of [exn]; a computation that may raise returns
      a [result].
    - The two random sources (DataFrame.sample and random.random) are an
      explicit argument: the draws made on each weekday.
    - The classification service and the success of an insertion into the
      table are parameters of the analyzer; the table and the log of the
      classification calls are threaded through it as the [World]. *)

From Stdlib Require Import ZArith String List Lia.
From Stdlib Require Import Sorting.Sorted Sorting.Permutation.
From Stdlib Require Floats.
From stdpp Require Import base decidable option list gmap strings sets.

Local Open Scope string_scope.
Local Open Scope Z_scope.

(* The solvers of stdpp clear hypotheses that are already gone. *)
Set Warnings "-clear-no-such-hyp".

(** ** Exceptions *)

Inductive exn : Type :=
| ValueError        (* DataFrame.sample on an empty frame; classify_menu *)
| KeyError          (* a column that the frame does not have *)
| ServiceError      (* the classification endpoint failed *)
| DatabaseError.    (* sqlite3 failed while inserting *)

Inductive result (A : Type) : Type :=
| Ok (a : A)
| Raise (e : exn).
Arguments Ok {A} a.
Arguments Raise {A} e.

Global Instance result_ret : MRet result := @Ok.
Global Instance result_bind : MBind result := λ A B f r,
  match r with
  | Ok a => f a
  | Raise e => Raise e
  end.
Global Instance result_fmap : FMap result := λ A B f r,
  match r with
  | Ok a => Ok (f a)
  | Raise e => Raise e
  end.

(** ** Python strings *)

Module Str.

Definition utf8 (bytes : list nat) : string :=
  foldr (λ b s, String (Ascii.ascii_of_nat b) s) EmptyString bytes.

(** The characters that [str.isspace] accepts, UTF-8 encoded: U+0009..U+000D,
    U+001C..U+0020, U+0085, U+00A0, U+1680, U+2000..U+200A, U+2028, U+2029,
    U+202F, U+205F, U+3000. *)
Definition whitespace : list string :=
  map utf8
    ([[9]; [10]; [11]; [12]; [13]; [28]; [29]; [30]; [31]; [32];
      [194; 133]; [194; 160]; [225; 154; 128]]
     ++ map (λ b, [226; 128; b]) (seq 128 11)
     ++ [[226; 128; 168]; [226; 128; 169]; [226; 128; 175];
         [226; 129; 159]; [227; 128; 128]])%nat%list.

(** [drop_prefix p s] is [Some r] when [s = p ++ r]. *)
Fixpoint drop_prefix (p s : string) : option string :=
  match p, s with
  | EmptyString, _ => Some s
  | String a p', String b s' =>
      if Ascii.eqb a b then drop_prefix p' s' else None
  | String _ _, EmptyString => None
  end.

(** Removes one leading character of [chars], if there is one. *)
Definition drop_one (chars : list string) (s : string) : option string :=
  foldr (λ c r, match drop_prefix c s with Some s' => Some s' | None => r end)
        None chars.

Fixpoint lstrip_chars (fuel : nat) (chars : list string) (s : string)
    : string :=
  match fuel with
  | O => s
  | S fuel' =>
      match drop_one chars s with
      | Some s' => lstrip_chars fuel' chars s'
      | None => s
      end
  end.

(** [s.lstrip()]: at most [String.length s] characters can be dropped. *)
Definition lstrip (s : string) : string :=
  lstrip_chars (String.length s) whitespace s.

(** [s.rstrip()]: a valid UTF-8 string ends with a whitespace character
    exactly when its reversal starts with the reversed encoding of one. *)
Definition rstrip (s : string) : string :=
  String.rev
    (lstrip_chars (String.length s) (map String.rev whitespace) (String.rev s)).

(** [s.strip()] *)
Definition strip (s : string) : string := rstrip (lstrip s).

(** [sub in s] *)
Definition contains (sub s : string) : bool :=
  match String.index 0 sub s with
  | Some _ => true
  | None => false
  end.

End Str.

(** ** Numbers *)

(** A sum of 64-bit integers, as numpy takes it for an int64 column: the
    result modulo 2^64, in two's complement. *)
Definition wrap64 (z : Z) : Z := (z + 2 ^ 63) mod 2 ^ 64 - 2 ^ 63.


(** The double nearest to an integer (ties to even): what a REAL column
    holds for it, and what Python's [float + int] makes of the integer. *)
Definition to_float (z : Z) : PrimFloat.float :=
  FloatOps.SF2Prim
    (SpecFloat.binary_normalize FloatOps.prec FloatOps.emax z 0 false).

(** One step of the compensated (Kahan) summation by which the [sum] of a
    pandas groupby adds a float64 value to the running sum of its group:
    [y = val - compensation; t = sumx + y;
     compensation = t - sumx - y; sumx = t], the compensation being reset
    when it is NaN. *)
Definition kahan_step (acc : PrimFloat.float * PrimFloat.float)
    (val : PrimFloat.float) : PrimFloat.float * PrimFloat.float :=
  let y := PrimFloat.sub val acc.2 in
  let t := PrimFloat.add acc.1 y in
  let c := PrimFloat.sub (PrimFloat.sub t acc.1) y in
  (t, if PrimFloat.is_nan c then PrimFloat.zero else c).


(** ** The menu catalog *)

(** One row of the [menus] table, as [get_all_menus] returns it.  The five
    nutrients are the integers that the row stands for: [calories] and
    [sodium] are held as 64-bit integers, [protein], [fat] and [carbs] as
    the doubles [to_float] of them. *)
Record Menu : Type := mkMenu {
  name : string;
  category : string;
  calories : Z;
  protein : Z;
  fat : Z;
  carbs : Z;
  sodium : Z
}.

Global Instance Menu_eq_dec : EqDecision Menu.
Proof. solve_decision. Defined.

Definition days : list string := ["월"; "화"; "수"; "목"; "금"].

(** The slot labels, in the order of [row_order] (export_plan, app.py):
    rice, soup, main, side 1, side 2, other. *)
Definition row_order : list string :=
  ["잡곡밥"; "국/수프"; "메인"; "사이드1"; "사이드2"; "기타"].

(** The three categories with a mandatory slot: soup, main, side. *)
Definition slot_categories : list string := ["수프"; "메인"; "사이드"].

(** ** Plan generator (make_plan) *)

Module Generator.

(** The dictionary built for one weekday.  Keys of the source:
    요일, 잡곡밥, 국/수프, 메인, 사이드1, 사이드2, 기타. *)
Record DayPlan : Type := mkDayPlan {
  weekday : string;
  rice : string;
  soup : string;
  main : string;
  side1 : string;
  side2 : string;
  etc : string
}.

(** What the random sources answer during one iteration of the loop: the
    four rows drawn by [sample(1)], the outcome of [random.random() < 0.2]
    and the row drawn for the optional slot. *)
Record Draws : Type := mkDraws {
  pick_soup : nat;
  pick_main : nat;
  pick_side1 : nat;
  pick_side2 : nat;
  coin : bool;
  pick_etc : nat
}.

(** [df.sample(1)]: one row of [df]; pandas raises ValueError on an empty
    frame.  The draw [k] selects the row. *)
Definition sample (k : nat) (df : list Menu) : result Menu :=
  match df with
  | [] => Raise ValueError
  | m :: _ => Ok (nth (k mod length df)%nat df m)
  end.

(** [menus[menus["category"] == c]] *)
Definition of_category (c : string) (menus : list Menu) : list Menu :=
  filter (λ m, category m = c) menus.

(** [menus[(menus["category"] == c) & (~menus["name"].isin(used_menus))]] *)
Definition available (c : string) (used_menus : gset string)
    (menus : list Menu) : list Menu :=
  filter (λ m, (category m = c) ∧ (name m ∉ used_menus)) menus.

(** [menus[~menus["category"].isin(["수프", "메인", "사이드"])]] *)
Definition of_other (menus : list Menu) : list Menu :=
  filter (λ m, category m ∉ slot_categories) menus.

Definition available_other (used_menus : gset string)
    (menus : list Menu) : list Menu :=
  filter (λ m, (category m ∉ slot_categories) ∧ (name m ∉ used_menus)) menus.

(** [if available.empty: available = fallback] *)
Definition or_reuse (avail fallback : list Menu) : list Menu :=
  match avail with
  | [] => fallback
  | _ => avail
  end.

(** The body of the loop over the weekdays: the day's dictionary and the
    updated [used_menus].  The frame [rice_menu] of the source is computed
    and never read; the rice slot is the literal 잡곡밥. *)
Definition plan_day (menus : list Menu) (rnd : Draws) (day : string)
    (used_menus : gset string) : result (DayPlan * gset string) :=
  let available_soup :=
    or_reuse (available "수프" used_menus menus) (of_category "수프" menus) in
  let available_main :=
    or_reuse (available "메인" used_menus menus) (of_category "메인" menus) in
  let available_side :=
    or_reuse (available "사이드" used_menus menus) (of_category "사이드" menus) in
  let available_etc :=
    or_reuse (available_other used_menus menus) (of_other menus) in
  soup_menu ← sample (pick_soup rnd) available_soup;
  main_menu ← sample (pick_main rnd) available_main;
  side_menu1 ← sample (pick_side1 rnd) available_side;
  side_menu2 ← sample (pick_side2 rnd)
                  (filter (λ m, name m ≠ name side_menu1) available_side);
  '(etc_menu_name, used_etc) ←
    (match available_etc with
     | [] => Ok ("", used_menus)
     | _ => if coin rnd
            then etc_menu ← sample (pick_etc rnd) available_etc;
                 Ok (name etc_menu, used_menus ∪ {[ name etc_menu ]})
            else Ok ("", used_menus)
     end);
  let used' :=
    used_etc ∪ {[ name soup_menu ]} ∪ {[ name main_menu ]}
             ∪ {[ name side_menu1 ]} ∪ {[ name side_menu2 ]} ∪ {[ "잡곡밥" ]} in
  Ok ({| weekday := day;
         rice := "잡곡밥";
         soup := name soup_menu;
         main := name main_menu;
         side1 := name side_menu1;
         side2 := name side_menu2;
         etc := etc_menu_name |}, used').

(** The loop [for day in ["월", "화", "수", "목", "금"]]. *)
Fixpoint plan_days (menus : list Menu) (rnd : string → Draws)
    (ds : list string) (used_menus : gset string) : result (list DayPlan) :=
  match ds with
  | [] => Ok []
  | day :: ds' =>
      '(day_plan, used') ← plan_day menus (rnd day) day used_menus;
      plan ← plan_days menus rnd ds' used';
      Ok (day_plan :: plan)
  end.

(** [make_plan], up to the final [pd.DataFrame(plan)]: [menus] is what
    [get_all_menus()] returned. *)
Definition make_plan (rnd : string → Draws) (menus : list Menu)
    : result (list DayPlan) :=
  plan_days menus rnd days ∅.

End Generator.

(** ** Data frames *)

(** A cell of a frame: a text, or NaN. *)
Definition cell : Type := option string.

(** A frame with the default integer index: the canonical plan has one row
    per weekday and the columns 요일, 잡곡밥, 국/수프, 메인, 사이드1, 사이드2,
    기타.  A row holds one cell per column, in the order of [columns]. *)
Record PlanFrame : Type := mkPlanFrame {
  columns : list string;
  rows : list (list cell)
}.

(** A frame indexed by labels: the transposed plan of the spreadsheet has the
    slot labels as index and the weekday labels as columns.
    [sheet_values] holds one list of cells per index label. *)
Record Sheet : Type := mkSheet {
  sheet_index : list string;
  sheet_columns : list string;
  sheet_values : list (list cell)
}.

(** The sheets of a workbook, by name, in the order of the file. *)
Definition Workbook : Type := list (string * Sheet).

(** Position of the column labelled [c]. *)
Definition column_position (c : string) (cols : list string) : option nat :=
  fst <$> list_find (λ c', c' = c) cols.

(** [row[c]] for a row of the frame [df]; KeyError without such a column.
    A cell that the row does not hold is NaN.  (For a label that the frame
    has more than once pandas gives the cells of all its columns; here the
    first is taken.) *)
Definition row_get (df : PlanFrame) (row : list cell) (c : string)
    : result cell :=
  match column_position c (columns df) with
  | Some i => Ok (mjoin (row !! i))
  | None => Raise KeyError
  end.

(** [pd.DataFrame(plan)] for the list of dictionaries of make_plan. *)
Definition DataFrame (plan : list Generator.DayPlan) : PlanFrame :=
  {| columns := "요일" :: row_order;
     rows := map (λ d, map Some
                   [Generator.weekday d; Generator.rice d; Generator.soup d;
                    Generator.main d; Generator.side1 d; Generator.side2 d;
                    Generator.etc d]) plan |}.

(** ** Plan normalizer *)

Module Normalizer.

(** One entry of [plan_dict[row_name]] in export_plan:
    [plan_df.loc[plan_df["요일"] == day, row_name]], then
    [val.values[0] if not val.empty else ""]. *)
Definition plan_value (plan_df : PlanFrame) (row_name day : string)
    : result cell :=
  if decide (row_name ∈ columns plan_df) then
    match column_position "요일" (columns plan_df) with
    | None => Raise KeyError
    | Some i =>
        match filter (λ row, mjoin (row !! i) = Some day) (rows plan_df) with
        | [] => Ok (Some "")
        | row :: _ => row_get plan_df row row_name
        end
    end
  else Ok (Some "").

Fixpoint collect {A B} (f : A → result B) (l : list A) : result (list B) :=
  match l with
  | [] => Ok []
  | x :: l' => y ← f x; ys ← collect f l'; Ok (y :: ys)
  end.

(** The frame [plan_out_df] of export_plan: slot labels as index, weekday
    labels as columns. *)
Definition transposed (plan_df : PlanFrame) : result Sheet :=
  vals ← collect (λ row_name,
            collect (λ day, plan_value plan_df row_name day) days) row_order;
  Ok {| sheet_index := row_order; sheet_columns := days;
        sheet_values := vals |}.

(** The plan sheets that export_plan writes for [filename], in order. *)
Definition plan_sheets (plan_df : PlanFrame) (filename : string)
    : result Workbook :=
  lunch ←
    (if Str.contains "점심" filename
        || (negb (Str.contains "저녁" filename)
            && negb (Str.contains "점심" filename))
     then sh ← transposed plan_df; Ok [("점심", sh)]
     else Ok []);
  dinner ←
    (if Str.contains "저녁" filename
     then sh ← transposed plan_df; Ok [("저녁", sh)]
     else Ok []);
  Ok (lunch ++ dinner)%list.

(** The texts that [ExcelFile.parse] reads as a missing value: the default
    [na_values] of pandas, the empty text of a blank cell among them. *)
Definition na_values : list string :=
  ["-1.#IND"; "1.#QNAN"; "1.#IND"; "-1.#QNAN"; "#N/A N/A"; "#N/A"; "N/A";
   "n/a"; "NA"; "<NA>"; "#NA"; "NULL"; "null"; "NaN"; "-NaN"; "nan"; "-nan";
   "None"; ""].

(** What [ExcelFile.parse(sheet, index_col=0)] reads from a cell that
    [to_excel] wrote as a text: NaN for a blank cell and for a text of
    [na_values], the text itself otherwise.  (A text that the writer stores
    as a formula or a link, and a column whose texts all spell numbers or
    truth values, are read differently: see [stored_as_text] and
    [text_column].) *)
Definition read_cell (c : cell) : cell :=
  match c with
  | Some s => if decide (s ∈ na_values) then None else Some s
  | None => None
  end.

(** The sheet as it is read back; the labels that export_plan writes are
    read as written. *)
Definition read_back (sh : Sheet) : Sheet :=
  {| sheet_index := sheet_index sh;
     sheet_columns := sheet_columns sh;
     sheet_values := map (map read_cell) (sheet_values sh) |}.

(** A text that a cell keeps from [to_excel] to [ExcelFile.parse].  The
    writer stores a text that starts with [=] or [{=] as a formula and a
    text with a scheme such as [http://], [mailto:] or [internal:] as a link
    (no text with a colon is taken here), and it cuts a text after 32767
    characters; the reader takes a text of [na_values] for a missing
    value. *)
Definition stored_as_text (s : string) : Prop :=
  (s ∉ na_values) ∧
  Str.drop_prefix "=" s = None ∧
  Str.drop_prefix "{=" s = None ∧
  Str.contains ":" s = false ∧
  Z.of_nat (String.length s) ≤ 32767.

(** The text has a character outside ASCII: a byte of 128 or more in its
    encoding. *)
Definition non_ascii (s : string) : Prop :=
  existsb (λ a, 128 <=? Ascii.nat_of_ascii a)%nat (list_ascii_of_string s)
  = true.

(** A column that the reader leaves as texts.  pandas turns a column into
    numbers or truth values when each of its texts spells one; a text with
    a character outside ASCII spells none. *)
Definition text_column (cells : list string) : Prop :=
  Exists non_ascii cells.

Global Instance stored_as_text_dec s : Decision (stored_as_text s).
Proof. unfold stored_as_text. apply _. Defined.

Global Instance non_ascii_dec s : Decision (non_ascii s).
Proof. unfold non_ascii. apply _. Defined.

Global Instance text_column_dec cells : Decision (text_column cells).
Proof. unfold text_column. apply _. Defined.

(** The first sheet whose trimmed name is 점심 or 저녁. *)
Definition find_sheet (xl : Workbook) : option Sheet :=
  (λ p, snd (snd p)) <$> list_find (λ s, Str.strip (fst s) ∈ ["점심"; "저녁"]) xl.

(** The frame [df_t] of the import handler of app.py, from the parsed sheet:
    labels trimmed, rows restricted to [row_order] ([df.loc[exist_rows]]
    takes every row that carries the label), transposed with the column
    labels as column 요일, and restricted to the weekday rows. *)
Definition normalize (df : Sheet) : PlanFrame :=
  let index := map Str.strip (sheet_index df) in
  let cols := map Str.strip (sheet_columns df) in
  let exist_rows := filter (λ r, r ∈ index) row_order in
  let labelled := zip index (sheet_values df) in
  let selected :=
    flat_map (λ r, filter (λ lr, fst lr = r) labelled) exist_rows in
  let df_t :=
    imap (λ j c, Some c :: map (λ lr, mjoin (snd lr !! j)) selected) cols in
  {| columns := "요일" :: map fst selected;
     rows := filter (λ row, mjoin (row !! 0%nat) ∈ Some <$> days) df_t |}.

(** Outcome of the import handler, up to the data preview. *)
Inductive ImportResult : Type :=
| NoSheet                        (* st.error: no 점심 or 저녁 sheet *)
| Preview (df_t : PlanFrame).    (* st.dataframe(df_t) *)

Definition import_plan (xl : Workbook) : ImportResult :=
  match find_sheet xl with
  | None => NoSheet
  | Some df => Preview (normalize df)
  end.

(** The import block under [__main__] of meal_ai.py keeps every row of the
    sheet and guards the transposed frame with
    [if "요일" not in df_t.columns: st.error(...)].  These are the columns
    of its [df.T.reset_index().rename(columns={"index": "요일"})]:
    [reset_index] names the new column "index", or "level_0" when a column
    "index" exists, and raises ValueError when that name is taken too. *)
Definition main_columns (df : Sheet) : result (list string) :=
  let index := map Str.strip (sheet_index df) in
  let new := if decide ("index" ∈ index) then "level_0" else "index" in
  if decide (new ∈ index) then Raise ValueError
  else Ok (map (λ c, if decide (c = "index") then "요일" else c)
               (new :: index)).

(** A plan as the generator builds it: one entry per weekday, in order. *)
Definition WeeklyPlan (plan : list Generator.DayPlan) : Prop :=
  map Generator.weekday plan = days.

(** The six texts of a day, which make one column of the sheet. *)
Definition day_texts (d : Generator.DayPlan) : list string :=
  [Generator.rice d; Generator.soup d; Generator.main d; Generator.side1 d;
   Generator.side2 d; Generator.etc d].

(** A plan that the spreadsheet keeps: every text of a day is empty or
    stored as a text, and every day has a text with a character outside
    ASCII, as the fixed rice of make_plan is. *)
Definition kept_by_excel (plan : list Generator.DayPlan) : Prop :=
  Forall (λ d, Forall (λ s, s = "" ∨ stored_as_text s) (day_texts d) ∧
               text_column (day_texts d)) plan.

Global Instance kept_by_excel_dec plan : Decision (kept_by_excel plan).
Proof. unfold kept_by_excel. apply _. Defined.



End Normalizer.

(** ** Nutrition analyzer *)

Module Analyzer.

(** One dictionary of [nutrition_data]: 요일, 구분, 메뉴 and the five
    nutrients, copied from the catalog row.  요일 is the cell [row["요일"]]
    of the plan. *)
Record NutritionRecord : Type := mkRecord {
  r_day : cell;
  r_slot : string;
  r_menu : string;
  r_calories : Z;
  r_protein : Z;
  r_fat : Z;
  r_carbs : Z;
  r_sodium : Z
}.

(** One row of the daily totals sheet: the columns 칼로리 and 나트륨 are
    int64, the columns 단백질, 지방 and 탄수화물 float64. *)
Record DailyTotals : Type := mkTotals {
  t_day : string;
  t_calories : Z;
  t_protein : PrimFloat.float;
  t_fat : PrimFloat.float;
  t_carbs : PrimFloat.float;
  t_sodium : Z
}.

(** What lies outside the function: the rows of the [menus] table and the
    names sent to the classification service so far, oldest first. *)
Record World : Type := mkWorld {
  db : list Menu;
  classify_calls : list string
}.

(** A computation that reads and writes the world and may raise. *)
Definition M (A : Type) : Type := World → result A * World.

Definition ret {A} (a : A) : M A := λ w, (Ok a, w).

Definition raise {A} (e : exn) : M A := λ w, (Raise e, w).

Definition bind {A B} (m : M A) (f : A → M B) : M B := λ w,
  match m w with
  | (Ok a, w') => f a w'
  | (Raise e, w') => (Raise e, w')
  end.

(** [try: m except Exception: h] *)
Definition try_except {A} (m : M A) (h : exn → M A) : M A := λ w,
  match m w with
  | (Ok a, w') => (Ok a, w')
  | (Raise e, w') => h e w'
  end.

Definition lift {A} (r : result A) : M A := λ w, (r, w).

Notation "'let*' x ':=' m 'in' k" := (bind m (λ x, k))
  (at level 10, x pattern, m at level 100, k at level 200).

(** [for x in l: l' = body x l'] with the locals threaded through. *)
Fixpoint for_each {A S} (l : list A) (body : A → S → M S) (s : S) : M S :=
  match l with
  | [] => ret s
  | x :: l' => let* s' := body x s in for_each l' body s'
  end.

(** The slots that carry nutrition, in the order of [meal_types]. *)
Definition meal_types : list string :=
  ["국/수프"; "메인"; "사이드1"; "사이드2"; "기타"].

(** The local variables of analyze_menu_plan that the loop updates. *)
Record Locals : Type := mkLocals {
  menus : list Menu;
  existing_menus : gset string;
  nutrition_data : list NutritionRecord
}.

(** [day_order]: the rank of a weekday label; anything else maps to NaN. *)
Definition day_order (d : cell) : option nat :=
  match d with
  | Some s => column_position s days
  | None => None
  end.

(** Ascending order of the column 요일_순서, NaN last. *)
Definition rank_lt (a b : option nat) : bool :=
  match a, b with
  | Some x, Some y => (x <? y)%nat
  | Some _, None => true
  | None, _ => false
  end.

(** The order of [sort_values(["요일_순서", "구분"])]: by rank, then by the
    text of 구분. *)
Definition record_le (r1 r2 : NutritionRecord) : bool :=
  let k1 := day_order (r_day r1) in
  let k2 := day_order (r_day r2) in
  if rank_lt k1 k2 then true
  else if rank_lt k2 k1 then false
  else String.leb (r_slot r1) (r_slot r2).

Fixpoint insert_sorted {A} (le : A → A → bool) (x : A) (l : list A) : list A :=
  match l with
  | [] => [x]
  | y :: l' => if le x y then x :: l else y :: insert_sorted le x l'
  end.

(** A stable sort: rows with equal keys keep their order, as in the
    lexicographic sort of pandas on several keys. *)
Definition stable_sort {A} (le : A → A → bool) (l : list A) : list A :=
  foldr (insert_sorted le) [] l.

(** The end of analyze_menu_plan: the frame of [nutrition_data] sorted.  The
    frame of an empty list has no column, so [nutrition_df["요일"]] raises
    KeyError. *)
Definition sort_records (nutrition_data : list NutritionRecord)
    : result (list NutritionRecord) :=
  match nutrition_data with
  | [] => Raise KeyError
  | _ => Ok (stable_sort record_le nutrition_data)
  end.

(** The running sums of one group of [groupby("요일")]: a 64-bit integer
    for each int64 column, the sum and its compensation for each float64
    column. *)
Record Sums : Type := mkSums {
  s_calories : Z;
  s_protein : PrimFloat.float * PrimFloat.float;
  s_fat : PrimFloat.float * PrimFloat.float;
  s_carbs : PrimFloat.float * PrimFloat.float;
  s_sodium : Z
}.

Definition no_sum : PrimFloat.float * PrimFloat.float :=
  (PrimFloat.zero, PrimFloat.zero).

Definition no_sums : Sums := mkSums 0 no_sum no_sum no_sum 0.

(** A row is added to the sums of its group: with wrap-around in the int64
    columns (there the compensation is always zero), by a compensated step
    in the float64 columns. *)
Definition add_to (a : Sums) (r : NutritionRecord) : Sums :=
  {| s_calories := wrap64 (s_calories a + r_calories r);
     s_protein := kahan_step (s_protein a) (to_float (r_protein r));
     s_fat := kahan_step (s_fat a) (to_float (r_fat r));
     s_carbs := kahan_step (s_carbs a) (to_float (r_carbs r));
     s_sodium := wrap64 (s_sodium a + r_sodium r) |}.

(** One row enters the group of its 요일; a row whose key is NaN enters no
    group. *)
Definition add_row (groups : gmap string Sums) (r : NutritionRecord)
    : gmap string Sums :=
  match r_day r with
  | Some d => <[ d := add_to (default no_sums (groups !! d)) r ]> groups
  | None => groups
  end.

(** The groups and their sums, the rows taken in order. *)
Definition groupby_sum (rs : list NutritionRecord) : gmap string Sums :=
  foldl add_row ∅ rs.

Definition key_le (g1 g2 : string * Sums) : bool := String.leb g1.1 g2.1.

(** [nutrition_df.groupby("요일").agg({...: "sum"}).reset_index()]: one row
    per group, the groups in ascending order of their key. *)
Definition daily_totals (rs : list NutritionRecord) : list DailyTotals :=
  map (λ g, {| t_day := g.1;
               t_calories := s_calories g.2;
               t_protein := (s_protein g.2).1;
               t_fat := (s_fat g.2).1;
               t_carbs := (s_carbs g.2).1;
               t_sodium := s_sodium g.2 |})
      (stable_sort key_le (map_to_list (groupby_sum rs))).

(** The daily totals sheet of export_plan: written only
    [if not nutrition_df.empty]. *)
Definition totals_sheet (nutrition_df : list NutritionRecord)
    : option (list DailyTotals) :=
  match nutrition_df with
  | [] => None
  | _ => Some (daily_totals nutrition_df)
  end.

(** What export_plan writes. *)
Record Export : Type := mkExport {
  plan_sheets : Workbook;
  nutrition_sheet : list NutritionRecord;
  daily_totals_sheet : option (list DailyTotals)
}.

Section Collaborators.

(** The answer of the classification service for a menu name, as
    classify_menu returns it (category and the five nutrients), or the
    exception it raises. *)
Variable classify : string → result (string * (Z * Z * Z * Z * Z)).

(** Whether the insertion of a row into [menus] succeeds. *)
Variable insert_ok : Menu → bool.

(** [classify_menu(menu_name)] *)
Definition classify_menu (menu_name : string)
    : M (string * (Z * Z * Z * Z * Z)) := λ w,
  (classify menu_name,
   {| db := db w; classify_calls := classify_calls w ++ [menu_name] |}).

(** [add_menu(menu_info)] with [menu_info["name"] = menu_name]. *)
Definition add_menu (menu_name : string)
    (menu_info : string * (Z * Z * Z * Z * Z)) : M unit := λ w,
  let '(cat, (cal, pro, fa, car, sod)) := menu_info in
  let row := mkMenu menu_name cat cal pro fa car sod in
  if insert_ok row
  then (Ok (), {| db := db w ++ [row]; classify_calls := classify_calls w |})
  else (Raise DatabaseError, w).

(** [get_all_menus()] *)
Definition get_all_menus : M (list Menu) := λ w, (Ok (db w), w).

(** The body of the inner loop for one cell; [None] stands for [continue]
    after a failed classification or insertion. *)
Definition resolve (menu_name : string) (l : Locals) : M (option Locals) :=
  if decide (menu_name ∈ existing_menus l) then ret (Some l)
  else
    try_except
      (let* menu_info := classify_menu menu_name in
       let* _ := add_menu menu_name menu_info in
       let* menus' := get_all_menus in
       ret (Some {| menus := menus';
                    existing_menus := existing_menus l ∪ {[ menu_name ]};
                    nutrition_data := nutrition_data l |}))
      (λ _, ret None).

Definition analyze_cell (plan_df : PlanFrame) (row : list cell)
    (meal_type : string) (l : Locals) : M Locals :=
  if decide (meal_type ∈ columns plan_df) then
    let* c := lift (row_get plan_df row meal_type) in
    match c with
    | None => ret l
    | Some text =>
        let menu_name := Str.strip text in
        if decide (menu_name = "") then ret l
        else
          let* resolved := resolve menu_name l in
          match resolved with
          | None => ret l
          | Some l' =>
              match filter (λ m, name m = menu_name) (menus l') with
              | [] => ret l'
              | menu_info :: _ =>
                  let* day := lift (row_get plan_df row "요일") in
                  ret {| menus := menus l';
                         existing_menus := existing_menus l';
                         nutrition_data :=
                           nutrition_data l' ++
                           [ {| r_day := day;
                                r_slot := meal_type;
                                r_menu := menu_name;
                                r_calories := calories menu_info;
                                r_protein := protein menu_info;
                                r_fat := fat menu_info;
                                r_carbs := carbs menu_info;
                                r_sodium := sodium menu_info |} ] |}
              end
          end
    end
  else ret l.

Definition analyze_row (plan_df : PlanFrame) (row : list cell) (l : Locals)
    : M Locals :=
  for_each meal_types (analyze_cell plan_df row) l.

(** [analyze_menu_plan(plan_df)] *)
Definition analyze_menu_plan (plan_df : PlanFrame)
    : M (list NutritionRecord) :=
  let* menus0 := get_all_menus in
  let l0 := {| menus := menus0;
               existing_menus := list_to_set (map name menus0);
               nutrition_data := [] |} in
  let* l := for_each (rows plan_df) (analyze_row plan_df) l0 in
  lift (sort_records (nutrition_data l)).

(** [export_plan(plan_df, filename)] for a file that opens: the sheets that
    the call writes when it returns, the exception of its body otherwise.
    The file layer is left out: [os.makedirs] and [pd.ExcelWriter] may raise
    for a file name before anything is written, and when the body raises
    the closing writer still saves the sheets written so far. *)
Definition export_plan (plan_df : PlanFrame) (filename : string) : M Export :=
  let* sheets := lift (Normalizer.plan_sheets plan_df filename) in
  let* nutrition_df := analyze_menu_plan plan_df in
  ret {| plan_sheets := sheets;
         nutrition_sheet := nutrition_df;
         daily_totals_sheet := totals_sheet nutrition_df |}.

End Collaborators.

(** *** Notions used to state the properties *)

(** The cell of the slot [meal_type] that the loop works on: the trimmed,
    non-empty text of a cell that is present. *)
Definition menu_of_cell (plan_df : PlanFrame) (row : list cell)
    (meal_type : string) : option string :=
  if decide (meal_type ∈ columns plan_df) then
    match row_get plan_df row meal_type with
    | Ok (Some text) =>
        if decide (Str.strip text = "") then None else Some (Str.strip text)
    | _ => None
    end
  else None.

(** The menus that the plan refers to, cell by cell: the rows in order, the
    slots of a row in the order of [meal_types].  The rice column is not
    among them. *)
Definition menu_cells (plan_df : PlanFrame) : list string :=
  flat_map (λ row, omap (menu_of_cell plan_df row) meal_types) (rows plan_df).

(** The locals as long as nothing had to be classified in the world [w]. *)
Definition untouched (w : World) (l : Locals) : Prop :=
  menus l = db w ∧ existing_menus l = list_to_set (map name (db w)).

(** The five nutrients of a catalog row and of a record. *)
Definition menu_nutrients (m : Menu) : Z * Z * Z * Z * Z :=
  (calories m, protein m, fat m, carbs m, sodium m).

Definition record_nutrients (r : NutritionRecord) : Z * Z * Z * Z * Z :=
  (r_calories r, r_protein r, r_fat r, r_carbs r, r_sodium r).

(** [menus[menus["name"] == n]] and [.iloc[0]]: the first row named [n]. *)
Definition first_named (n : string) (db : list Menu) : option Menu :=
  head (filter (λ m, name m = n) db).

(** The row that add_menu inserts for the answer of the classification
    service to [n], if the service answers. *)
Definition classified_row
    (classify : string → result (string * (Z * Z * Z * Z * Z)))
    (n : string) : option Menu :=
  match classify n with
  | Ok (cat, (cal, pro, fa, car, sod)) => Some (mkMenu n cat cal pro fa car sod)
  | Raise _ => None
  end.

(** The service answers for [n] and the row is inserted. *)
Definition accepted
    (classify : string → result (string * (Z * Z * Z * Z * Z)))
    (insert_ok : Menu → bool) (n : string) : bool :=
  match classified_row classify n with
  | Some row => insert_ok row
  | None => false
  end.

(** A record of the slot of a menu cell, with the nutrients of the first
    catalog row of that name. *)
Definition record_ok (db : list Menu) (r : NutritionRecord) : Prop :=
  r_slot r ∈ meal_types ∧ r_menu r ≠ "" ∧
  ∃ m, first_named (r_menu r) db = Some m ∧
       record_nutrients r = menu_nutrients m.

(** What holds of the locals and the world all along a run that started in
    the world [w0]: [new] are the names sent to the service so far. *)
Definition run_inv
    (classify : string → result (string * (Z * Z * Z * Z * Z)))
    (insert_ok : Menu → bool) (w0 : World)
    (l : Locals) (w : World) : Prop :=
  menus l = db w ∧
  existing_menus l = list_to_set (map name (db w)) ∧
  Forall (record_ok (db w)) (nutrition_data l) ∧
  ∃ new,
    classify_calls w = (classify_calls w0 ++ new)%list ∧
    Forall (λ n, n ∉ map name (db w0)) new ∧
    NoDup (filter (λ n, accepted classify insert_ok n = true) new) ∧
    db w = (db w0 ++ omap (classified_row classify)
              (filter (λ n, accepted classify insert_ok n = true) new))%list.

(** The record of a menu cell when its menu is looked up in the catalog
    [db]: none for a cell without a menu, for a name that [db] does not
    have and for a row without the 요일 cell. *)
Definition lookup_record (db : list Menu) (plan_df : PlanFrame)
    (row : list cell) (meal_type : string) : option NutritionRecord :=
  match menu_of_cell plan_df row meal_type, row_get plan_df row "요일" with
  | Some n, Ok day =>
      match first_named n db with
      | Some info =>
          Some {| r_day := day; r_slot := meal_type; r_menu := n;
                  r_calories := calories info; r_protein := protein info;
                  r_fat := fat info; r_carbs := carbs info;
                  r_sodium := sodium info |}
      | None => None
      end
  | _, _ => None
  end.

(** The records of all menu cells, the rows in order, the slots of a row in
    the order of [meal_types]. *)
Definition lookup_records (db : list Menu) (plan_df : PlanFrame)
    : list NutritionRecord :=
  flat_map (λ row, omap (lookup_record db plan_df row) meal_types)
           (rows plan_df).

(** The weekday labels in ascending order of their text. *)
Definition days_by_text : list string := ["금"; "목"; "수"; "월"; "화"].



(** The records of a weekday. *)
Definition on_day (d : string) (rs : list NutritionRecord)
    : list NutritionRecord :=
  filter (λ r, r_day r = Some d) rs.


(** The rank of the weekday of a record, a record without a weekday label
    (NaN rank) coming after the five weekdays. *)
Definition day_rank (r : NutritionRecord) : nat :=
  default 5%nat (day_order (r_day r)).

(** The position of a label in an enumeration ([length] when absent). *)
Definition position (s : string) (labels : list string) : nat :=
  default (length labels) (column_position s labels).

(** The slot labels in ascending order of their text. *)
Definition slots_by_text : list string :=
  ["국/수프"; "기타"; "메인"; "사이드1"; "사이드2"].

(** Sorted by weekday, then by the position of the slot in [slots]. *)
Definition sorted_by_day_then (slots : list string)
    (rs : list NutritionRecord) : Prop :=
  Sorted (λ a b, (day_rank a < day_rank b)%nat ∨
                 (day_rank a = day_rank b ∧
                  (position (r_slot a) slots ≤ position (r_slot b) slots)%nat))
         rs.

End Analyzer.

(** ** Catalog maintenance *)

Module Catalog.
Import Analyzer.

Section Collaborators.

Variable classify : string → result (string * (Z * Z * Z * Z * Z)).
Variable insert_ok : Menu → bool.

(** [bulk_add(menu_names)]: nothing is caught, so the first exception of
    classify_menu or add_menu ends the loop. *)
Definition bulk_add (menu_names : list string) : M unit :=
  for_each menu_names
    (λ name _, let* menu_info := classify_menu classify name in
               add_menu insert_ok name menu_info) ().

End Collaborators.

(** [delete_menu(menu_name)]: [DELETE FROM menus WHERE name = ?]. *)
Definition delete_menu (menu_name : string) : M unit := λ w,
  (Ok (), {| db := filter (λ m, name m ≠ menu_name) (db w);
             classify_calls := classify_calls w |}).

(** [delete_menus(menu_names)] *)
Definition delete_menus (menu_names : list string) : M unit :=
  for_each menu_names (λ name _, delete_menu name) ().

(** [nutrition.get(key, 0)] *)
Definition get_or_zero (nutrition : gmap string Z) (key : string) : Z :=
  default 0 (nutrition !! key).

(** [update_menu_nutrition(menu_name, nutrition)]: the five nutrients of
    every row named [menu_name] are overwritten. *)
Definition update_menu_nutrition (menu_name : string)
    (nutrition : gmap string Z) : M unit := λ w,
  (Ok (),
   {| db := map (λ m, if decide (name m = menu_name)
                      then {| name := name m;
                              category := category m;
                              calories := get_or_zero nutrition "칼로리";
                              protein := get_or_zero nutrition "단백질";
                              fat := get_or_zero nutrition "지방";
                              carbs := get_or_zero nutrition "탄수화물";
                              sodium := get_or_zero nutrition "나트륨" |}
                      else m) (db w);
      classify_calls := classify_calls w |}).

(** [update_menu_category(menu_name, category)] *)
Definition update_menu_category (menu_name : string) (new_category : string)
    : M unit := λ w,
  (Ok (),
   {| db := map (λ m, if decide (name m = menu_name)
                      then {| name := name m;
                              category := new_category;
                              calories := calories m;
                              protein := protein m;
                              fat := fat m;
                              carbs := carbs m;
                              sodium := sodium m |}
                      else m) (db w);
      classify_calls := classify_calls w |}).





(** One turn of the loop of the save button of the menu table (app.py):
    [edit] is a row of the edited table with its index label, [menus] the
    table as it was read before the edit; [menus.loc[idx]] raises KeyError
    for a label that [menus] does not have. *)
Definition save_edit (menus : list Menu) (edit : nat * Menu) (_ : unit)
    : M unit :=
  match menus !! edit.1 with
  | None => raise KeyError
  | Some orig_row =>
      let row := edit.2 in
      let menu_name := name orig_row in
      let nutrition : gmap string Z :=
        <[ "칼로리" := calories row ]>
        (<[ "단백질" := protein row ]>
        (<[ "지방" := fat row ]>
        (<[ "탄수화물" := carbs row ]>
        (<[ "나트륨" := sodium row ]> ∅)))) in
      let* _ := (if decide (category row ≠ category orig_row)
                 then update_menu_category menu_name (category row)
                 else ret ()) in
      update_menu_nutrition menu_name nutrition
  end.

(** The save button, pressed: the table is shown, and can be saved, only
    [if not menus.empty]. *)
Definition save_edits (edited : list (nat * Menu)) : M unit :=
  let* menus := get_all_menus in
  match menus with
  | [] => ret ()
  | _ => for_each edited (save_edit menus) ()
  end.

End Catalog.

Import Generator Normalizer Analyzer Catalog.

(** ** Notions used to state properties of the generator *)

(** The names that a day of the plan puts into [used_menus] in any case. *)
Definition fixed_picks (d : DayPlan) : list string :=
  [rice d; soup d; main d; side1 d; side2 d].

(** Every text of a day of the plan. *)
Definition picks (d : DayPlan) : list string :=
  (fixed_picks d ++ [etc d])%list.

(** The slots of a day that are drawn from the category [c]. *)
Definition slots_of_category (c : string) (d : DayPlan) : list string :=
  if decide (c = "수프") then [soup d]
  else if decide (c = "메인") then [main d]
  else if decide (c = "사이드") then [side1 d; side2 d]
  else [].

(** The menus of a day of the plan that carry nutrition: soup, main, the two
    sides and the optional menu when there is one. *)
Definition day_cells (d : DayPlan) : list string :=
  ([soup d; main d; side1 d; side2 d]
     ++ (if decide (etc d = "") then [] else [etc d]))%list.

(** A catalog whose names are not empty and carry no surrounding
    whitespace. *)
Definition trimmed_names (menus : list Menu) : Prop :=
  Forall (λ m, Str.strip (name m) = name m ∧ name m ≠ "") menus.

(** Two rows with the same name and category; the nutrients may differ. *)
Definition same_menu (m m' : Menu) : Prop :=
  name m = name m' ∧ category m = category m'.



(** The five values that update_menu_nutrition writes. *)
Definition updated_nutrients (nut : gmap string Z) : Z * Z * Z * Z * Z :=
  (get_or_zero nut "칼로리", get_or_zero nut "단백질", get_or_zero nut "지방",
   get_or_zero nut "탄수화물", get_or_zero nut "나트륨").

(** The row of the catalog with the category and the nutrients of the row of
    the edited table. *)
Definition edited_menu (m r : Menu) : Menu :=
  {| name := name m; category := category r; calories := calories r;
     protein := protein r; fat := fat r; carbs := carbs r;
     sodium := sodium r |}.

(** What one turn of the loop of the save button does to the catalog, for
    the catalog row [m] and the edited row [r]. *)
Definition saved (m r : Menu) (d : list Menu) : list Menu :=
  map (λ x, if decide (name x = name m)
            then {| name := name x;
                    category := if decide (category r ≠ category m)
                                then category r else category x;
                    calories := calories r; protein := protein r;
                    fat := fat r; carbs := carbs r; sodium := sodium r |}
            else x) d.

(** * Example data *)

(** A catalog with one row in each mandatory category. *)
Definition catalog_one_side : list Menu :=
  [ mkMenu "미역국" "수프" 50 3 1 5 600;
    mkMenu "불고기" "메인" 400 30 20 10 800;
    mkMenu "김치" "사이드" 20 1 0 3 500 ].

(** A catalog with two sides and a dessert. *)
Definition catalog_two_sides : list Menu :=
  [ mkMenu "미역국" "수프" 50 3 1 5 600;
    mkMenu "불고기" "메인" 400 30 20 10 800;
    mkMenu "김치" "사이드" 20 1 0 3 500;
    mkMenu "시금치나물" "사이드" 30 2 1 4 200;
    mkMenu "과일" "디저트" 60 0 0 15 0 ].

(** A catalog with three sides and nothing outside the three categories. *)
Definition catalog_three_sides : list Menu :=
  [ mkMenu "미역국" "수프" 50 3 1 5 600;
    mkMenu "불고기" "메인" 400 30 20 10 800;
    mkMenu "김치" "사이드" 20 1 0 3 500;
    mkMenu "시금치나물" "사이드" 30 2 1 4 200;
    mkMenu "멸치볶음" "사이드" 90 8 4 6 700 ].

(** A catalog with two soups. *)
Definition catalog_two_soups : list Menu :=
  [ mkMenu "미역국" "수프" 50 3 1 5 600;
    mkMenu "된장국" "수프" 60 4 2 6 900;
    mkMenu "불고기" "메인" 400 30 20 10 800;
    mkMenu "김치" "사이드" 20 1 0 3 500;
    mkMenu "시금치나물" "사이드" 30 2 1 4 200 ].

(** Draws: always the first row; the optional slot on Wednesday only. *)
Definition first_row (day : string) : Draws :=
  {| pick_soup := 0; pick_main := 0; pick_side1 := 0; pick_side2 := 0;
     coin := bool_decide (day = "수"); pick_etc := 0 |}.

(** The plan that make_plan returns for [catalog_two_sides] when every draw
    takes the first row. *)
Definition plan_two_sides : list DayPlan :=
  Eval vm_compute in
    match make_plan first_row catalog_two_sides with
    | Ok plan => plan
    | Raise _ => []
    end.


(** A workbook whose sheet 점심 has the slot rows but English column labels. *)
Definition workbook_english : Workbook :=
  [ ("점심",
     {| sheet_index := ["잡곡밥"; "국/수프"; "메인"];
        sheet_columns := ["Mon"; " Tue "];
        sheet_values := [ [Some "잡곡밥"; Some "잡곡밥"];
                          [Some "미역국"; Some "된장국"];
                          [Some "불고기"; Some "닭갈비"] ] |}) ].

(** The catalog of [catalog_two_sides], nothing classified yet. *)
Definition world_two_sides : World :=
  {| db := catalog_two_sides; classify_calls := [] |}.

(** A classification service that is down. *)
Definition service_down (menu_name : string)
    : result (string * (Z * Z * Z * Z * Z)) :=
  Raise ServiceError.

(** A classification service that answers. *)
Definition service_up (menu_name : string)
    : result (string * (Z * Z * Z * Z * Z)) :=
  Ok ("메인", (300, 20, 10, 30, 700)).

(** A classification service that answers for every name but one. *)
Definition service_without_pizza (menu_name : string)
    : result (string * (Z * Z * Z * Z * Z)) :=
  if decide (menu_name = "피자") then Raise ServiceError
  else Ok ("메인", (300, 20, 10, 30, 700)).

(** Monday with a main and a dessert, both in the catalog. *)
Definition plan_main_and_other : PlanFrame :=
  {| columns := ["요일"; "잡곡밥"; "메인"; "기타"];
     rows := [ [Some "월"; Some "잡곡밥"; Some "불고기"; Some "과일"] ] |}.

(** Monday with a main that the catalog does not know. *)
Definition plan_unknown_main : PlanFrame :=
  {| columns := ["요일"; "잡곡밥"; "메인"];
     rows := [ [Some "월"; Some "잡곡밥"; Some "닭갈비"] ] |}.

(** Monday and Tuesday with the same main, which the catalog does not
    know. *)
Definition plan_unknown_twice : PlanFrame :=
  {| columns := ["요일"; "메인"];
     rows := [ [Some "월"; Some "닭갈비"]; [Some "화"; Some " 닭갈비 "] ] |}.

(** Monday with rice only: the other cells are blank or missing. *)
Definition plan_rice_only : PlanFrame :=
  {| columns := ["요일"; "잡곡밥"; "국/수프"; "메인"];
     rows := [ [Some "월"; Some "잡곡밥"; Some "  "; None] ] |}.

(** Two records for Monday, with 300 and 450 calories, and one for Friday. *)
Definition records_two_days : list NutritionRecord :=
  [ mkRecord (Some "월") "메인" "불고기" 300 30 20 10 800;
    mkRecord (Some "금") "국/수프" "미역국" 50 3 1 5 600;
    mkRecord (Some "월") "사이드1" "김치" 450 1 0 3 500 ].


(** * Properties *)

(** Decides a closed decidable proposition by evaluation. *)
Ltac by_computation :=
  apply (bool_decide_unpack _); vm_compute; exact I.

(** Evaluates the closed list [l] of a hypothesis [H : x ∈ l]. *)
Ltac eval_list_in H :=
  match type of H with
  | _ ∈ ?l =>
      let l' := eval vm_compute in l in
      let E := fresh "E" in
      assert (E : l = l') by (vm_compute; reflexivity);
      rewrite E in H; clear E
  end.

(** ** Plan generator *)

Lemma sample_Ok k df m : sample k df = Ok m → m ∈ df.
Proof.
  assert (E : ∀ (l : list Menu) d, l ≠ [] → In (nth (k mod length l) l d) l).
  { intros l d Hl. apply nth_In, Nat.mod_upper_bound. by destruct l. }
  destruct df as [|m0 df]; [discriminate|].
  intros H. apply list_elem_of_In.
  injection H as <-. exact (E (m0 :: df) m0 ltac:(done)).
Qed.

Lemma sample_Raise k df e : sample k df = Raise e → df = [] ∧ e = ValueError.
Proof. destruct df; simpl; [intros [= <-]; done | discriminate]. Qed.

Lemma sample_singleton k m : sample k [m] = Ok m.
Proof. unfold sample. change (length [m]) with 1%nat. by rewrite Nat.mod_1_r. Qed.

Lemma available_nil c used menus :
  of_category c menus = [] → available c used menus = [].
Proof.
  unfold of_category, available.
  induction menus as [|m l IH]; [done|].
  rewrite !filter_cons.
  destruct (decide (category m = c)) as [Hc|Hc]; [discriminate|].
  intros H. rewrite decide_False by tauto. auto.
Qed.

Lemma available_unused c menus : available c ∅ menus = of_category c menus.
Proof.
  unfold available, of_category. apply list_filter_iff.
  intros m. split; [tauto|]. intros Hc. split; [done|]. set_solver.
Qed.

Lemma or_reuse_same l : or_reuse l l = l.
Proof. by destruct l. Qed.

(** The candidates of a category on a day: the unused rows, or all rows of
    the category when every one has been used. *)
Lemma candidates_subset c used menus m :
  m ∈ or_reuse (available c used menus) (of_category c menus) →
  m ∈ of_category c menus.
Proof.
  unfold or_reuse. destruct (available c used menus) as [|m0 l] eqn:E; [done|].
  rewrite <- E. unfold available, of_category.
  rewrite !list_elem_of_filter. tauto.
Qed.

(** What a day that was planned looks like. *)
Lemma plan_day_Ok menus rnd day used dp used' :
  plan_day menus rnd day used = Ok (dp, used') →
  ∃ soup_menu main_menu side_menu1 side_menu2,
    let side := or_reuse (available "사이드" used menus)
                         (of_category "사이드" menus) in
    soup_menu ∈ of_category "수프" menus ∧
    main_menu ∈ of_category "메인" menus ∧
    side_menu1 ∈ side ∧
    side_menu2 ∈ filter (λ m, name m ≠ name side_menu1) side ∧
    weekday dp = day ∧ rice dp = "잡곡밥" ∧
    soup dp = name soup_menu ∧ main dp = name main_menu ∧
    side1 dp = name side_menu1 ∧ side2 dp = name side_menu2.
Proof.
  unfold plan_day.
  destruct (sample (pick_soup rnd) _) as [so|] eqn:Hso; [|discriminate].
  destruct (sample (pick_main rnd) _) as [ma|] eqn:Hma; [|discriminate].
  destruct (sample (pick_side1 rnd) _) as [s1|] eqn:Hs1; [|discriminate].
  cbn.
  destruct (sample (pick_side2 rnd) _) as [s2|] eqn:Hs2; [|discriminate].
  cbn.
  match goal with |- (?x ≫= _) = _ → _ =>
    destruct x as [[e u]|] eqn:He end; [|discriminate].
  cbn. intros [= <- <-]. exists so, ma, s1, s2. cbn.
  apply sample_Ok in Hso, Hma, Hs1, Hs2.
  apply candidates_subset in Hso, Hma. done.
Qed.

Lemma plan_day_Raise menus rnd day used e :
  plan_day menus rnd day used = Raise e → e = ValueError.
Proof.
  unfold plan_day.
  destruct (sample (pick_soup rnd) _) as [so|] eqn:Hso;
    [|intros [= <-]; by apply sample_Raise in Hso as [_ ->]].
  destruct (sample (pick_main rnd) _) as [ma|] eqn:Hma;
    [|intros [= <-]; by apply sample_Raise in Hma as [_ ->]].
  destruct (sample (pick_side1 rnd) _) as [s1|] eqn:Hs1;
    [|intros [= <-]; by apply sample_Raise in Hs1 as [_ ->]].
  cbn.
  destruct (sample (pick_side2 rnd) _) as [s2|] eqn:Hs2;
    [|intros [= <-]; by apply sample_Raise in Hs2 as [_ ->]].
  cbn.
  destruct (or_reuse (available_other used menus) (of_other menus));
    [discriminate|].
  destruct (coin rnd); [|discriminate].
  destruct (sample (pick_etc rnd) _) as [et|] eqn:Het;
    [discriminate|intros [= <-]; by apply sample_Raise in Het as [_ ->]].
Qed.

(** The only exception of the generator is the ValueError of [sample]. *)
Lemma plan_days_Raise menus rnd ds used e :
  plan_days menus rnd ds used = Raise e → e = ValueError.
Proof.
  revert used. induction ds as [|d ds IH]; intros used; simpl; [discriminate|].
  destruct (plan_day menus (rnd d) d used) as [[dp u]|e'] eqn:Hd; cbn.
  - destruct (plan_days menus rnd ds u) as [p|e'] eqn:Hp; cbn.
    + discriminate.
    + intros [= <-]. by eapply IH.
  - intros [= <-]. by eapply plan_day_Raise.
Qed.

(** A plan that was generated starts with a Monday that was planned against
    an empty set of used menus. *)
Lemma make_plan_Ok_monday rnd menus plan :
  make_plan rnd menus = Ok plan →
  ∃ dp used', plan_day menus (rnd "월") "월" ∅ = Ok (dp, used').
Proof.
  unfold make_plan, days. simpl.
  destruct (plan_day menus (rnd "월") "월" ∅) as [[dp u]|] eqn:Hd;
    [eauto|discriminate].
Qed.

Lemma make_plan_not_Ok rnd menus :
  (∀ plan, make_plan rnd menus ≠ Ok plan) →
  make_plan rnd menus = Raise ValueError.
Proof.
  intros H. destruct (make_plan rnd menus) as [p|e] eqn:E.
  - by destruct (H p).
  - f_equal. by eapply plan_days_Raise.
Qed.

(** With exactly one row in the side category the second side cannot be
    drawn on Monday. *)
Lemma single_side_raises rnd menus m :
  of_category "사이드" menus = [m] → make_plan rnd menus = Raise ValueError.
Proof.
  intros Hside. apply make_plan_not_Ok. intros plan Hplan.
  apply make_plan_Ok_monday in Hplan as (dp & u & Hd).
  apply plan_day_Ok in Hd as (so & ma & s1 & s2 & _ & _ & H1 & H2 & _).
  rewrite available_unused, or_reuse_same, Hside in H1, H2.
  apply list_elem_of_singleton in H1 as ->.
  apply list_elem_of_filter in H2 as [Hne Hin].
  apply list_elem_of_singleton in Hin as ->. done.
Qed.

(** C1: if one of the categories soup, main, side has no row in the catalog,
    make_plan raises, whatever the random draws: [sample] is called on an
    empty frame on Monday.  The exception is the ValueError of pandas, which
    is the failure that the specification names EmptyCatalogError. *)
Theorem make_plan_empty_category (rnd : string → Draws) (menus : list Menu)
    (c : string) :
  c ∈ slot_categories →
  of_category c menus = [] →
  make_plan rnd menus = Raise ValueError.
Proof.
  intros Hc Hnil. apply make_plan_not_Ok. intros plan Hplan.
  apply make_plan_Ok_monday in Hplan as (dp & u & Hd).
  apply plan_day_Ok in Hd as (so & ma & s1 & s2 & Hso & Hma & H1 & _).
  apply candidates_subset in H1.
  unfold slot_categories in Hc.
  rewrite !elem_of_cons, elem_of_nil in Hc.
  destruct Hc as [->|[->|[->|[]]]]; rewrite Hnil in *;
    by eapply elem_of_nil.
Qed.

Lemma make_plan_empty_category_witness :
  make_plan (λ _, mkDraws 0 0 0 0 false 0)
            [ mkMenu "미역국" "수프" 50 3 1 5 600;
              mkMenu "김치" "사이드" 20 1 0 3 500;
              mkMenu "시금치나물" "사이드" 30 2 1 4 200 ] = Raise ValueError.
Proof.
  apply (make_plan_empty_category _ _ "메인"); [by_computation|reflexivity].
Defined.

(** C3: with exactly one row in the side category make_plan does not leave
    사이드2 empty: the second [sample(1)] runs on the empty frame and the
    call raises ValueError, whatever the draws and the other categories. *)
Theorem make_plan_one_side_item (rnd : string → Draws) (menus : list Menu) :
  length (of_category "사이드" menus) = 1%nat →
  make_plan rnd menus = Raise ValueError.
Proof.
  intros Hlen.
  destruct (of_category "사이드" menus) as [|m [|m' l]] eqn:E;
    try discriminate.
  by eapply single_side_raises.
Qed.

Lemma make_plan_one_side_item_witness :
  length (of_category "사이드" catalog_one_side) = 1%nat ∧
  make_plan first_row catalog_one_side = Raise ValueError.
Proof.
  split; [reflexivity|].
  apply (make_plan_one_side_item first_row catalog_one_side). reflexivity.
Defined.

(** The menus marked as used after a day that was planned. *)
Lemma plan_day_Ok_used menus rnd day used dp used' :
  plan_day menus rnd day used = Ok (dp, used') →
  ∃ used_etc,
    used' = used_etc ∪ {[ soup dp ]} ∪ {[ main dp ]} ∪ {[ side1 dp ]}
                     ∪ {[ side2 dp ]} ∪ {[ "잡곡밥" ]} ∧
    (used_etc = used ∨
     ∃ m, m ∈ or_reuse (available_other used menus) (of_other menus) ∧
          used_etc = used ∪ {[ name m ]}).
Proof.
  unfold plan_day.
  destruct (sample (pick_soup rnd) _) as [so|]; [|discriminate].
  destruct (sample (pick_main rnd) _) as [ma|]; [|discriminate].
  destruct (sample (pick_side1 rnd) _) as [s1|]; [|discriminate].
  cbn.
  destruct (sample (pick_side2 rnd) _) as [s2|]; [|discriminate].
  cbn.
  destruct (or_reuse (available_other used menus) (of_other menus))
    as [|m0 ms] eqn:Hetc.
  { cbn. intros [= <- <-]. exists used. split; [done|by left]. }
  destruct (coin rnd); [|cbn; intros [= <- <-]; exists used; by auto].
  destruct (sample (pick_etc rnd) (m0 :: ms)) as [et|] eqn:Het;
    [|discriminate].
  cbn. intros [= <- <-]. exists (used ∪ {[ name et ]}).
  split; [done|]. right. exists et. split; [|done]. by eapply sample_Ok.
Qed.

Lemma plan_days_cons_Ok menus rnd d ds used plan :
  plan_days menus rnd (d :: ds) used = Ok plan →
  ∃ dp u p, plan_day menus (rnd d) d used = Ok (dp, u) ∧
            plan_days menus rnd ds u = Ok p ∧ plan = dp :: p.
Proof.
  simpl.
  destruct (plan_day menus (rnd d) d used) as [[dp u]|]; cbn; [|discriminate].
  destruct (plan_days menus rnd ds u) as [p|] eqn:Hp; cbn; [|discriminate].
  intros [= <-]. by exists dp, u, p.
Qed.

(** With the three sides of [catalog_three_sides] Monday takes two of them;
    on Tuesday one unused side is left, and the second side cannot be
    drawn: make_plan raises whatever the draws. *)
Lemma three_sides_raise rnd :
  make_plan rnd catalog_three_sides = Raise ValueError.
Proof.
  apply make_plan_not_Ok. intros plan Hplan.
  unfold make_plan, days in Hplan.
  apply plan_days_cons_Ok in Hplan as (mon & u & p & Hmon & Hp & _).
  apply plan_days_cons_Ok in Hp as (tue & u2 & _ & Htue & _).
  pose proof (plan_day_Ok _ _ _ _ _ _ Hmon)
    as (so & ma & s1 & s2 & Hso & Hma & H1 & H2 & _ & _ & Eso & Ema & E1 & E2).
  apply plan_day_Ok_used in Hmon as (ue & -> & [->|(m & Hm & _)]);
    [|eval_list_in Hm; by apply elem_of_nil in Hm].
  rewrite Eso, Ema, E1, E2 in Htue. clear Eso Ema E1 E2 mon.
  apply plan_day_Ok in Htue as (_ & _ & t1 & t2 & _ & _ & T1 & T2 & _).
  eval_list_in Hso. eval_list_in Hma.
  apply list_elem_of_singleton in Hso as ->, Hma as ->.
  rewrite available_unused, or_reuse_same in H1, H2.
  change (of_category "사이드" catalog_three_sides)
    with [ mkMenu "김치" "사이드" 20 1 0 3 500;
           mkMenu "시금치나물" "사이드" 30 2 1 4 200;
           mkMenu "멸치볶음" "사이드" 90 8 4 6 700 ] in H1, H2.
  rewrite !elem_of_cons, elem_of_nil in H1.
  destruct H1 as [->|[->|[->|[]]]];
    eval_list_in H2; rewrite !elem_of_cons, elem_of_nil in H2;
    destruct H2 as [->|[->|[]]];
    eval_list_in T1; apply list_elem_of_singleton in T1 as ->;
    eval_list_in T2; by apply elem_of_nil in T2.
Qed.

(** C6: two catalogs with a row in each of the categories soup, main and
    side for which make_plan returns no plan, whatever the draws: with one
    side it raises on Monday, with three sides on Tuesday. *)
Theorem make_plan_fails_on_full_catalog :
  (∀ c, c ∈ slot_categories →
        of_category c catalog_one_side ≠ [] ∧
        of_category c catalog_three_sides ≠ []) ∧
  (∀ rnd, make_plan rnd catalog_one_side = Raise ValueError) ∧
  (∀ rnd, make_plan rnd catalog_three_sides = Raise ValueError).
Proof.
  split; [|split].
  - intros c Hc. unfold slot_categories in Hc.
    rewrite !elem_of_cons, elem_of_nil in Hc.
    destruct Hc as [->|[->|[->|[]]]]; by vm_compute.
  - intros rnd. by eapply single_side_raises.
  - apply three_sides_raise.
Qed.

Lemma plan_days_Forall menus rnd ds used plan (P : DayPlan → Prop) :
  (∀ d day u dp u', plan_day menus d day u = Ok (dp, u') → P dp) →
  plan_days menus rnd ds used = Ok plan → Forall P plan.
Proof.
  intros HP. revert used plan.
  induction ds as [|d ds IH]; intros used plan; simpl.
  - intros [= <-]. constructor.
  - destruct (plan_day menus (rnd d) d used) as [[dp u]|] eqn:Hd; cbn;
      [|discriminate].
    destruct (plan_days menus rnd ds u) as [p|] eqn:Hp; cbn; [|discriminate].
    intros [= <-]. constructor; eauto.
Qed.

Lemma plan_days_weekdays menus rnd ds used plan :
  plan_days menus rnd ds used = Ok plan → map weekday plan = ds.
Proof.
  revert used plan. induction ds as [|d ds IH]; intros used plan; simpl.
  - by intros [= <-].
  - destruct (plan_day menus (rnd d) d used) as [[dp u]|] eqn:Hd; cbn;
      [|discriminate].
    destruct (plan_days menus rnd ds u) as [p|] eqn:Hp; cbn; [|discriminate].
    intros [= <-]. simpl. f_equal; [|by eapply IH].
    by apply plan_day_Ok in Hd as (? & ? & ? & ? & _ & _ & _ & _ & -> & _).
Qed.

(** A plan that make_plan returns has the five weekdays in order, and every
    day has the fixed rice, a soup of the soup category and a main of the
    main category. *)
Lemma make_plan_shape rnd menus plan :
  make_plan rnd menus = Ok plan →
  map weekday plan = days ∧
  Forall (λ d, rice d = "잡곡밥" ∧
               (∃ m, m ∈ of_category "수프" menus ∧ soup d = name m) ∧
               (∃ m, m ∈ of_category "메인" menus ∧ main d = name m)) plan.
Proof.
  intros H. split; [by eapply plan_days_weekdays|].
  eapply plan_days_Forall; [|exact H].
  intros d day u dp u' Hd.
  apply plan_day_Ok in Hd
    as (so & ma & s1 & s2 & Hso & Hma & _ & _ & _ & -> & -> & -> & _).
  split; [done|]. split; [by exists so|by exists ma].
Qed.

(** C7: when the side category has two rows with different names, every day
    of a plan that make_plan returns has different menus as 사이드1 and
    사이드2: the second side is drawn among the rows whose name differs from
    the first. *)
Theorem make_plan_sides_differ (rnd : string → Draws) (menus : list Menu)
    (plan : list DayPlan) :
  (∃ a b, a ∈ of_category "사이드" menus ∧ b ∈ of_category "사이드" menus ∧
          name a ≠ name b) →
  make_plan rnd menus = Ok plan →
  Forall (λ d, side1 d ≠ side2 d) plan.
Proof.
  intros _ H. eapply plan_days_Forall; [|exact H].
  intros d day u dp u' Hd.
  apply plan_day_Ok in Hd
    as (so & ma & s1 & s2 & _ & _ & _ & H2 & _ & _ & _ & _ & -> & ->).
  apply list_elem_of_filter in H2 as [Hne _]. congruence.
Qed.

Lemma make_plan_sides_differ_witness :
  ∃ plan, make_plan first_row catalog_two_sides = Ok plan ∧
          length plan = 5%nat ∧
          Forall (λ d, side1 d ≠ side2 d) plan.
Proof.
  eexists. split; [vm_compute; reflexivity|]. split; [reflexivity|].
  apply (make_plan_sides_differ first_row catalog_two_sides).
  - exists (mkMenu "김치" "사이드" 20 1 0 3 500),
           (mkMenu "시금치나물" "사이드" 30 2 1 4 200).
    split; [|split]; by_computation.
  - vm_compute. reflexivity.
Defined.

(** ** Plan normalizer *)

Lemma filter_none {A} (P : A → Prop) `{!∀ x, Decision (P x)} (l : list A) :
  (∀ x, x ∈ l → ¬ P x) → filter P l = [].
Proof.
  induction l as [|x l IH]; intros Hn; [done|].
  rewrite filter_cons_False by (apply Hn; left).
  apply IH. intros y Hy. apply Hn. by right.
Qed.


Lemma find_sheet_lunch sh rest : find_sheet (("점심", sh) :: rest) = Some sh.
Proof. reflexivity. Qed.

Lemma find_sheet_dinner sh rest : find_sheet (("저녁", sh) :: rest) = Some sh.
Proof. reflexivity. Qed.

(** The sheet of a weekly plan: one row of cells per slot. *)
Lemma transposed_weekly plan :
  WeeklyPlan plan →
  transposed (DataFrame plan) =
  Ok {| sheet_index := row_order; sheet_columns := days;
        sheet_values :=
          map (λ f, map (λ d, Some (f d)) plan)
              [rice; soup; main; side1; side2; etc] |}.
Proof.
  unfold WeeklyPlan, days.
  destruct plan as [|[w1 ? ? ? ? ? ?] [|[w2 ? ? ? ? ? ?] [|[w3 ? ? ? ? ? ?]
    [|[w4 ? ? ? ? ? ?] [|[w5 ? ? ? ? ? ?] [|? ?]]]]]]; try discriminate.
  simpl. intros [= -> -> -> -> ->]. reflexivity.
Qed.

(** Reading a sheet with the six slot rows and the five weekday columns. *)
Lemma normalize_plan_sheet v1 v2 v3 v4 v5 v6 :
  normalize {| sheet_index := row_order; sheet_columns := days;
               sheet_values := [v1; v2; v3; v4; v5; v6] |} =
  {| columns := "요일" :: row_order;
     rows := imap (λ j d, Some d :: map (λ v : list cell, mjoin (v !! j))
                                        [v1; v2; v3; v4; v5; v6]) days |}.
Proof. vm_compute. reflexivity. Qed.





(** Without a weekday among the trimmed column labels of its sheet the
    import handler goes on to the preview, with a frame that has no row. *)
Lemma import_without_weekday_proceeds :
  (∀ sh c, find_sheet workbook_english = Some sh →
           c ∈ sheet_columns sh → Str.strip c ∉ days) ∧
  import_plan workbook_english =
    Preview {| columns := ["요일"; "잡곡밥"; "국/수프"; "메인"]; rows := [] |}.
Proof.
  split; [|vm_compute; reflexivity].
  intros sh c [= <-]. cbn [sheet_columns].
  rewrite !elem_of_cons, elem_of_nil.
  intros [->|[->|[]]]; by_computation.
Qed.

(** The guard of the import block of meal_ai.py never fires: the transposed
    frame always has a column 요일, whatever the labels of the sheet. *)
Lemma main_guard_never_fires df cols :
  main_columns df = Ok cols → "요일" ∈ cols.
Proof.
  unfold main_columns.
  destruct (decide ("index" ∈ map Str.strip (sheet_index df))) as [Hin|Hin].
  - destruct (decide ("level_0" ∈ _)); [discriminate|]. intros [= <-].
    right. by apply (list_elem_of_fmap_2' _ _ "index").
  - destruct (decide ("index" ∈ _)); [discriminate|]. intros [= <-]. left.
Qed.

(** C5: when no trimmed column label of the selected sheet is a weekday
    label, the import handler of app.py does not fail: it shows the preview
    of a frame without rows. *)
Theorem import_without_weekday_columns (xl : Workbook) (df : Sheet) :
  find_sheet xl = Some df →
  (∀ c, c ∈ sheet_columns df → Str.strip c ∉ days) →
  ∃ df_t, import_plan xl = Preview df_t ∧ rows df_t = [].
Proof.
  intros Hfind Hcols. unfold import_plan. rewrite Hfind.
  eexists. split; [reflexivity|].
  unfold normalize. cbn [rows].
  apply filter_none. intros row Hrow.
  apply elem_of_lookup_imap in Hrow as (j & c & -> & Hc).
  cbn [lookup list_lookup mjoin option_join].
  apply list_lookup_fmap_Some in Hc as (c0 & -> & Hc0).
  intros Hin. apply list_elem_of_fmap in Hin as (d & [= <-] & Hd).
  eapply Hcols; [|exact Hd]. by eapply list_elem_of_lookup_2.
Qed.

Lemma import_without_weekday_columns_witness :
  ∃ df_t, import_plan workbook_english = Preview df_t ∧ rows df_t = [].
Proof.
  apply (import_without_weekday_columns workbook_english
           (snd (hd ("", mkSheet [] [] []) workbook_english))).
  - reflexivity.
  - intros c. cbn [workbook_english hd snd sheet_columns].
    rewrite !elem_of_cons, elem_of_nil.
    intros [->|[->|[]]]; by_computation.
Defined.

(** ** Sorting *)

Section StableSort.
Context {A : Type} (le : A → A → bool).

Lemma insert_sorted_perm x l : insert_sorted le x l ≡ₚ x :: l.
Proof.
  induction l as [|y l IH]; simpl; [done|].
  destruct (le x y); [done|]. rewrite IH. apply Permutation_swap.
Qed.

Lemma stable_sort_perm l : stable_sort le l ≡ₚ l.
Proof.
  induction l as [|x l IH]; simpl; [done|].
  rewrite insert_sorted_perm. by f_equiv.
Qed.

Hypothesis le_total : ∀ x y, le x y = true ∨ le y x = true.

Lemma insert_sorted_HdRel a x l :
  le a x = true → HdRel (λ u v, le u v = true) a l →
  HdRel (λ u v, le u v = true) a (insert_sorted le x l).
Proof.
  intros Hax Hal. destruct l as [|y l]; simpl; [by constructor|].
  destruct (le x y); constructor; [done|]. by inversion Hal.
Qed.

Lemma insert_sorted_Sorted x l :
  Sorted (λ u v, le u v = true) l →
  Sorted (λ u v, le u v = true) (insert_sorted le x l).
Proof.
  induction 1 as [|y l Hl IH Hy]; simpl; [by repeat constructor|].
  destruct (le x y) eqn:Hxy.
  - repeat constructor; done.
  - constructor; [done|]. apply insert_sorted_HdRel; [|done].
    destruct (le_total x y); congruence.
Qed.

Lemma stable_sort_Sorted l : Sorted (λ u v, le u v = true) (stable_sort le l).
Proof.
  induction l as [|x l IH]; simpl; [constructor|].
  by apply insert_sorted_Sorted.
Qed.

End StableSort.

Lemma Sorted_weaken {A} (R R' : A → A → Prop) (P : A → Prop) l :
  (∀ a b, P a → P b → R a b → R' a b) →
  Forall P l → Sorted R l → Sorted R' l.
Proof.
  intros HR HP Hs. induction Hs as [|a l Hl IH Ha]; [constructor|].
  apply Forall_cons in HP as [Pa Pl].
  constructor; [by apply IH|].
  destruct Ha as [|b l' Hab]; constructor.
  apply Forall_cons in Pl as [Pb _]. by apply HR.
Qed.

(** ** Nutrition analyzer: the order of the records *)

Lemma column_position_lt s labels i :
  column_position s labels = Some i → (i < length labels)%nat.
Proof.
  unfold column_position. intros H.
  apply fmap_Some in H as ([j x] & Hf & ->).
  apply list_find_Some in Hf as (Hl & _). simpl.
  by eapply lookup_lt_Some.
Qed.

Lemma rank_lt_spec a b :
  rank_lt (day_order a) (day_order b) = true ↔
  (default 5 (day_order a) < default 5 (day_order b))%nat.
Proof.
  destruct (day_order a) as [i|] eqn:Ha, (day_order b) as [j|] eqn:Hb; simpl.
  - apply Nat.ltb_lt.
  - split; [|done]. intros _. destruct a as [s|]; [|done].
    by apply column_position_lt in Ha.
  - split; [done|]. destruct b as [s|]; [|done].
    apply column_position_lt in Hb. simpl in Hb. lia.
  - split; [done|lia].
Qed.

Lemma record_le_total r1 r2 : record_le r1 r2 = true ∨ record_le r2 r1 = true.
Proof.
  unfold record_le.
  destruct (rank_lt (day_order (r_day r1)) (day_order (r_day r2))) eqn:H12;
    [by left|].
  destruct (rank_lt (day_order (r_day r2)) (day_order (r_day r1))) eqn:H21;
    [by right|].
  apply String.leb_total.
Qed.

(** What [record_le] compares: the weekday, then the text of the slot. *)
Lemma record_le_spec r1 r2 :
  record_le r1 r2 = true →
  (day_rank r1 < day_rank r2)%nat ∨
  (day_rank r1 = day_rank r2 ∧ String.leb (r_slot r1) (r_slot r2) = true).
Proof.
  unfold record_le, day_rank.
  destruct (rank_lt (day_order (r_day r1)) (day_order (r_day r2))) eqn:H12.
  { left. by apply rank_lt_spec. }
  destruct (rank_lt (day_order (r_day r2)) (day_order (r_day r1))) eqn:H21;
    [discriminate|].
  intros Hs. right. split; [|done].
  apply not_true_iff_false in H12, H21. rewrite rank_lt_spec in H12, H21. lia.
Qed.

(** On the five slot labels the order of the texts is the order of
    [slots_by_text]. *)
Lemma slot_text_order s1 s2 :
  s1 ∈ meal_types → s2 ∈ meal_types → String.leb s1 s2 = true →
  (position s1 slots_by_text ≤ position s2 slots_by_text)%nat.
Proof.
  unfold meal_types. rewrite !elem_of_cons, !elem_of_nil.
  intros [->|[->|[->|[->|[->|[]]]]]] [->|[->|[->|[->|[->|[]]]]]];
    vm_compute; first [discriminate | intros _ Hle; exact (Hle eq_refl)
                      | intros _; by_computation ].
Qed.

(** ** Nutrition analyzer: the loop *)

Section AnalyzerProofs.
Variable classify : string → result (string * (Z * Z * Z * Z * Z)).
Variable insert_ok : Menu → bool.

Local Abbreviation resolve := (Analyzer.resolve classify insert_ok).
Local Abbreviation analyze_cell := (Analyzer.analyze_cell classify insert_ok).
Local Abbreviation analyze_row := (Analyzer.analyze_row classify insert_ok).
Local Abbreviation analyze_menu_plan :=
  (Analyzer.analyze_menu_plan classify insert_ok).

(** An invariant of the locals and the world is kept by the loop. *)
Lemma for_each_Ok {X S} (I : S → World → Prop) (l : list X)
    (body : X → S → M S) s w s' w' :
  (∀ x s w s' w', x ∈ l → I s w → body x s w = (Ok s', w') → I s' w') →
  I s w → for_each l body s w = (Ok s', w') → I s' w'.
Proof.
  revert s w. induction l as [|x l IH]; intros s w Hbody Hs; simpl.
  - unfold ret. by intros [= <- <-].
  - unfold bind. destruct (body x s w) as [[s1|e] w1] eqn:Hx; [|discriminate].
    apply IH.
    + intros y ? ? ? ? Hy. apply Hbody. by right.
    + eapply Hbody; [left|exact Hs|exact Hx].
Qed.

(** An exception of the loop is an exception of its body. *)
Lemma for_each_Raise {X S} (E : exn → Prop) (l : list X)
    (body : X → S → M S) s w e w' :
  (∀ x s w e w', x ∈ l → body x s w = (Raise e, w') → E e) →
  for_each l body s w = (Raise e, w') → E e.
Proof.
  revert s w. induction l as [|x l IH]; intros s w Hbody; simpl.
  - unfold ret. discriminate.
  - unfold bind. destruct (body x s w) as [[s1|e1] w1] eqn:Hx.
    + apply IH. intros y ? ? ? ? Hy. apply Hbody. by right.
    + intros [= <- <-]. eapply Hbody; [left|exact Hx].
Qed.

(** The three ways out of the lookup of a menu name: known; classified and
    inserted; skipped after a failure.  It never raises. *)
Lemma resolve_eq menu_name l w :
  resolve menu_name l w =
  if decide (menu_name ∈ existing_menus l) then (Ok (Some l), w)
  else
    let calls := (classify_calls w ++ [menu_name])%list in
    match classify menu_name with
    | Raise _ => (Ok None, {| db := db w; classify_calls := calls |})
    | Ok (cat, (cal, pro, fa, car, sod)) =>
        let row := mkMenu menu_name cat cal pro fa car sod in
        if insert_ok row
        then (Ok (Some {| menus := (db w ++ [row])%list;
                          existing_menus := existing_menus l ∪ {[ menu_name ]};
                          nutrition_data := nutrition_data l |}),
              {| db := (db w ++ [row])%list; classify_calls := calls |})
        else (Ok None, {| db := db w; classify_calls := calls |})
    end.
Proof.
  unfold Analyzer.resolve. destruct (decide _); [done|].
  unfold try_except, bind, classify_menu, add_menu, get_all_menus, ret.
  destruct (classify menu_name) as [[cat [[[[cal pro] fa] car] sod]]|e];
    [|done].
  simpl. by destruct (insert_ok _).
Qed.

Lemma resolve_total menu_name l w :
  ∃ o w', resolve menu_name l w = (Ok o, w').
Proof.
  rewrite resolve_eq. destruct (decide _); [eauto|]. simpl.
  destruct (classify menu_name) as [[cat [[[[cal pro] fa] car] sod]]|e];
    [|eauto].
  destruct (insert_ok _); eauto.
Qed.

Lemma row_get_in_columns plan_df row c :
  c ∈ columns plan_df → ∃ v, row_get plan_df row c = Ok v.
Proof.
  intros Hc. unfold row_get, column_position.
  destruct (list_find (λ c', c' = c) (columns plan_df)) as [[i x]|] eqn:Hf;
    simpl; [eauto|].
  exfalso. eapply list_find_None in Hf.
  rewrite Forall_forall in Hf. by eapply Hf.
Qed.

(** A cell without a menu leaves everything as it is. *)
Lemma analyze_cell_blank plan_df row meal_type l w :
  menu_of_cell plan_df row meal_type = None →
  analyze_cell plan_df row meal_type l w = (Ok l, w).
Proof.
  unfold menu_of_cell, Analyzer.analyze_cell.
  destruct (decide (meal_type ∈ columns plan_df)) as [Hc|]; [|done].
  destruct (row_get_in_columns plan_df row _ Hc) as [v ->].
  unfold bind, lift, ret. destruct v as [text|]; [|done].
  by destruct (decide (Str.strip text = "")).
Qed.

(** A cell with a menu: the lookup, then one record when the refreshed
    catalog has the name. *)
Lemma analyze_cell_menu plan_df row meal_type menu_name l w :
  menu_of_cell plan_df row meal_type = Some menu_name →
  analyze_cell plan_df row meal_type l w =
  match resolve menu_name l w with
  | (Ok None, w') => (Ok l, w')
  | (Ok (Some l'), w') =>
      match filter (λ m, name m = menu_name) (menus l') with
      | [] => (Ok l', w')
      | menu_info :: _ =>
          match row_get plan_df row "요일" with
          | Raise e => (Raise e, w')
          | Ok day =>
              (Ok {| menus := menus l';
                     existing_menus := existing_menus l';
                     nutrition_data :=
                       (nutrition_data l' ++
                        [ {| r_day := day; r_slot := meal_type;
                             r_menu := menu_name;
                             r_calories := calories menu_info;
                             r_protein := protein menu_info;
                             r_fat := fat menu_info;
                             r_carbs := carbs menu_info;
                             r_sodium := sodium menu_info |} ])%list |}, w')
          end
      end
  | (Raise e, w') => (Raise e, w')
  end.
Proof.
  unfold menu_of_cell, Analyzer.analyze_cell.
  destruct (decide (meal_type ∈ columns plan_df)) as [Hc|]; [|done].
  destruct (row_get_in_columns plan_df row _ Hc) as [v ->].
  unfold bind, lift, ret. destruct v as [text|]; [|done].
  destruct (decide (Str.strip text = "")); [done|]. intros [= <-].
  destruct (resolve (Str.strip text) l w) as [[[l'|]|e] w']; try done.
  destruct (filter _ (menus l')); [done|].
  by destruct (row_get plan_df row "요일").
Qed.

(** A cell adds at most one record, for its own slot, at the end. *)
Lemma analyze_cell_Ok plan_df row meal_type l w l' w' :
  analyze_cell plan_df row meal_type l w = (Ok l', w') →
  nutrition_data l' = nutrition_data l ∨
  ∃ r, nutrition_data l' = (nutrition_data l ++ [r])%list ∧
       r_slot r = meal_type.
Proof.
  destruct (menu_of_cell plan_df row meal_type) as [menu_name|] eqn:Hcell.
  - rewrite (analyze_cell_menu _ _ _ _ _ _ Hcell), resolve_eq.
    destruct (decide (menu_name ∈ existing_menus l)).
    + destruct (filter _ (menus l)); [intros [= <- <-]; by left|].
      destruct (row_get plan_df row "요일"); [|discriminate].
      intros [= <- <-]. right. eexists. split; [reflexivity|done].
    + cbv zeta.
      destruct (classify menu_name) as [[cat [[[[cal pro] fa] car] sod]]|e];
        [|intros [= <- <-]; by left].
      destruct (insert_ok _); [|intros [= <- <-]; by left].
      cbn [menus]. destruct (filter _ _); [intros [= <- <-]; by left|].
      destruct (row_get plan_df row "요일"); [|discriminate].
      intros [= <- <-]. right. eexists. split; [reflexivity|done].
  - rewrite (analyze_cell_blank _ _ _ _ _ Hcell). intros [= <- <-]. by left.
Qed.

(** The exceptions of the classification service and of the insertion never
    leave the loop: a cell can only raise the KeyError of a missing 요일
    column. *)
Lemma analyze_cell_Raise plan_df row meal_type l w e w' :
  analyze_cell plan_df row meal_type l w = (Raise e, w') → e = KeyError.
Proof.
  assert (Hget : ∀ e', row_get plan_df row "요일" = Raise e' → e' = KeyError).
  { unfold row_get. destruct (column_position _ _); [discriminate|].
    by intros ? [= <-]. }
  destruct (menu_of_cell plan_df row meal_type) as [menu_name|] eqn:Hcell.
  - rewrite (analyze_cell_menu _ _ _ _ _ _ Hcell).
    destruct (resolve_total menu_name l w) as (o & w1 & ->).
    destruct o as [l1|]; [|discriminate].
    destruct (filter _ (menus l1)); [discriminate|].
    destruct (row_get plan_df row "요일") eqn:Hd; [discriminate|].
    intros [= <- <-]. by apply Hget.
  - by rewrite (analyze_cell_blank _ _ _ _ _ Hcell).
Qed.

Lemma analyze_row_slots plan_df row l w l' w' :
  Forall (λ r, r_slot r ∈ meal_types) (nutrition_data l) →
  analyze_row plan_df row l w = (Ok l', w') →
  Forall (λ r, r_slot r ∈ meal_types) (nutrition_data l').
Proof.
  intros Hl. unfold Analyzer.analyze_row.
  apply (for_each_Ok
           (λ s _, Forall (λ r, r_slot r ∈ meal_types) (nutrition_data s)));
    [|done].
  intros mt s1 w1 s2 w2 Hmt Hs1 Hcell.
  apply analyze_cell_Ok in Hcell as [->|(r & -> & Hr)]; [done|].
  apply Forall_app. split; [done|]. constructor; [by rewrite Hr|constructor].
Qed.

(** The result of the analysis is the sorted list of the records that the
    loop has collected, which is not empty. *)
Lemma analyze_menu_plan_Ok plan_df w recs w' :
  analyze_menu_plan plan_df w = (Ok recs, w') →
  ∃ l, for_each (rows plan_df) (analyze_row plan_df)
         {| menus := db w;
            existing_menus := list_to_set (map name (db w));
            nutrition_data := [] |} w = (Ok l, w') ∧
       nutrition_data l ≠ [] ∧
       recs = stable_sort record_le (nutrition_data l).
Proof.
  unfold Analyzer.analyze_menu_plan, bind, get_all_menus, lift.
  destruct (for_each _ _ _ w) as [[l|e] w1] eqn:Hloop; [|discriminate].
  unfold sort_records. destruct (nutrition_data l) as [|r rs] eqn:Hdata;
    [discriminate|].
  intros [= <- <-]. exists l. by rewrite Hdata.
Qed.

Lemma analyze_menu_plan_slots plan_df w recs w' :
  analyze_menu_plan plan_df w = (Ok recs, w') →
  Forall (λ r, r_slot r ∈ meal_types) recs.
Proof.
  intros (l & Hloop & _ & ->)%analyze_menu_plan_Ok.
  rewrite stable_sort_perm.
  revert Hloop.
  apply (for_each_Ok
           (λ s _, Forall (λ r, r_slot r ∈ meal_types) (nutrition_data s)));
    [|constructor].
  intros row s1 w1 s2 w2 _ Hs1 Hrow. by eapply analyze_row_slots.
Qed.

(** C2 (amended): the records that analyze_menu_plan returns are sorted by
    weekday in the order 월 < 화 < 수 < 목 < 금 and, within a weekday, by the
    text of the slot label, which puts the slots in the order 국/수프, 기타,
    메인, 사이드1, 사이드2. *)
Theorem analyze_sorted_by_day_then_label (plan_df : PlanFrame) (w w' : World)
    (recs : list NutritionRecord) :
  analyze_menu_plan plan_df w = (Ok recs, w') →
  sorted_by_day_then slots_by_text recs.
Proof.
  intros H. pose proof (analyze_menu_plan_slots _ _ _ _ H) as Hslots.
  apply analyze_menu_plan_Ok in H as (l & _ & _ & ->).
  unfold sorted_by_day_then.
  eapply Sorted_weaken;
    [|exact Hslots|apply stable_sort_Sorted, record_le_total].
  intros a b Ha Hb Hab. cbv beta in *.
  apply record_le_spec in Hab as [Hlt|[Heq Hle]]; [by left|].
  right. split; [done|]. by apply slot_text_order.
Qed.

End AnalyzerProofs.

(** C2, as stated, fails: on Monday the record of 기타 comes before the record
    of 메인, against the enumeration order 국/수프, 메인, 사이드1, 사이드2,
    기타. *)
Lemma analyze_not_in_enumeration_order :
  ∃ recs w',
    analyze_menu_plan service_down (λ _, true) plan_main_and_other
      world_two_sides = (Ok recs, w') ∧
    map r_slot recs = ["기타"; "메인"] ∧
    ¬ sorted_by_day_then meal_types recs.
Proof.
  eexists _, _. split; [vm_compute; reflexivity|]. split; [reflexivity|].
  intros Hs. apply Sorted_inv in Hs as [_ Hhd]. apply HdRel_inv in Hhd.
  vm_compute in Hhd. lia.
Qed.

Lemma analyze_sorted_by_day_then_label_witness :
  ∃ recs w',
    analyze_menu_plan service_down (λ _, true) plan_main_and_other
      world_two_sides = (Ok recs, w') ∧
    sorted_by_day_then slots_by_text recs.
Proof.
  eexists _, _. split; [vm_compute; reflexivity|].
  eapply (analyze_sorted_by_day_then_label service_down (λ _, true)
            plan_main_and_other world_two_sides).
  vm_compute. reflexivity.
Defined.

(** C8: the only menu of the plan cannot be classified, or cannot be
    inserted: the failure is caught and the cell skipped, but then no record
    is left and the analysis raises KeyError instead of returning. *)
Theorem analyze_fails_when_every_cell_is_skipped :
  analyze_menu_plan service_down (λ _, true) plan_unknown_main world_two_sides
    = (Raise KeyError,
       {| db := catalog_two_sides; classify_calls := ["닭갈비"] |}) ∧
  analyze_menu_plan service_up (λ _, false) plan_unknown_main world_two_sides
    = (Raise KeyError,
       {| db := catalog_two_sides; classify_calls := ["닭갈비"] |}).
Proof. split; vm_compute; reflexivity. Qed.

(** ** Nutrition analyzer: plans that refer to known menus only *)

Lemma flat_map_option_list {X Y} (g : X → option Y) (l : list X) :
  flat_map (λ x, option_list (g x)) l = omap g l.
Proof.
  induction l as [|x l IH]; simpl; [done|].
  rewrite IH. by destruct (g x).
Qed.

(** A loop whose body leaves the world alone and appends [f x] to an output
    of the locals. *)
Lemma for_each_collect {X S Y} (I : S → Prop) (out : S → list Y)
    (f : X → list Y) (l : list X) (body : X → S → M S) (w : World) s :
  (∀ x s, x ∈ l → I s →
     ∃ s', body x s w = (Ok s', w) ∧ I s' ∧ out s' = (out s ++ f x)%list) →
  I s →
  ∃ s', for_each l body s w = (Ok s', w) ∧ I s' ∧
        out s' = (out s ++ flat_map f l)%list.
Proof.
  revert s. induction l as [|x l IH]; intros s Hbody Hs; simpl.
  - exists s. by rewrite app_nil_r.
  - destruct (Hbody x s) as (s1 & Hx & Hs1 & Hout1); [left|done|].
    destruct (IH s1) as (s2 & Hl & Hs2 & Hout2); [|done|].
    { intros y s' Hy. apply Hbody. by right. }
    exists s2. unfold bind. rewrite Hx, Hl, Hout2, Hout1, <- app_assoc. done.
Qed.

Section KnownMenus.
Variable classify : string → result (string * (Z * Z * Z * Z * Z)).
Variable insert_ok : Menu → bool.
Variable plan_df : PlanFrame.
Variable w : World.

(** Every menu cell of the plan holds a name of the catalog, and the plan
    has its 요일 column. *)
Hypothesis known :
  ∀ n, n ∈ menu_cells plan_df →
       n ∈ map name (db w) ∧ "요일" ∈ columns plan_df.

Lemma analyze_cell_known row meal_type l :
  row ∈ rows plan_df → meal_type ∈ meal_types → untouched w l →
  ∃ l', analyze_cell classify insert_ok plan_df row meal_type l w = (Ok l', w) ∧
        untouched w l' ∧
        map r_menu (nutrition_data l') =
        (map r_menu (nutrition_data l)
           ++ option_list (menu_of_cell plan_df row meal_type))%list.
Proof.
  intros Hrow Hmt [Hmenus Hexisting].
  destruct (menu_of_cell plan_df row meal_type) as [n|] eqn:Hcell.
  - destruct (known n) as [Hn Hday].
    { unfold menu_cells. apply list_elem_of_In, in_flat_map.
      exists row. split; [by apply list_elem_of_In|].
      apply list_elem_of_In, list_elem_of_omap. eauto. }
    rewrite (analyze_cell_menu _ _ _ _ _ _ _ _ Hcell), resolve_eq.
    rewrite decide_True by (rewrite Hexisting; by apply elem_of_list_to_set).
    rewrite Hmenus.
    destruct (filter (λ m, name m = n) (db w)) as [|info ?] eqn:Hinfo.
    { apply list_elem_of_fmap in Hn as (m & -> & Hm).
      exfalso. eapply filter_nil_not_elem_of; [exact Hinfo| |exact Hm]. done. }
    destruct (row_get_in_columns plan_df row _ Hday) as [day ->].
    eexists. split; [reflexivity|]. split; [done|].
    cbn [nutrition_data]. by rewrite map_app.
  - rewrite (analyze_cell_blank _ _ _ _ _ _ _ Hcell).
    exists l. by rewrite app_nil_r.
Qed.

(** The loop classifies nothing and collects one record per menu cell, in
    the order of the cells. *)
Lemma analyze_loop_known :
  ∃ l, for_each (rows plan_df) (analyze_row classify insert_ok plan_df)
         {| menus := db w;
            existing_menus := list_to_set (map name (db w));
            nutrition_data := [] |} w = (Ok l, w) ∧
       map r_menu (nutrition_data l) = menu_cells plan_df.
Proof.
  destruct (for_each_collect (untouched w) (λ l, map r_menu (nutrition_data l))
              (λ row, omap (menu_of_cell plan_df row) meal_types)
              (rows plan_df) (analyze_row classify insert_ok plan_df) w
              {| menus := db w;
                 existing_menus := list_to_set (map name (db w));
                 nutrition_data := [] |})
    as (l & Hloop & _ & Hout); [|split; reflexivity|].
  - intros row l Hrow Hl. unfold analyze_row.
    rewrite <- flat_map_option_list.
    apply (for_each_collect (untouched w) (λ l, map r_menu (nutrition_data l))
             (λ mt, option_list (menu_of_cell plan_df row mt))); [|done].
    intros mt l1 Hmt Hl1. by apply analyze_cell_known.
  - exists l. split; [exact Hloop|exact Hout].
Qed.

End KnownMenus.

(** When every menu cell holds a name of the catalog and there is at least
    one such cell, the analysis classifies nothing (the world is unchanged)
    and returns one record per menu cell. *)
Lemma analyze_known_menus classify insert_ok plan_df w :
  "요일" ∈ columns plan_df →
  (∀ n, n ∈ menu_cells plan_df → n ∈ map name (db w)) →
  menu_cells plan_df ≠ [] →
  ∃ recs, analyze_menu_plan classify insert_ok plan_df w = (Ok recs, w) ∧
          map r_menu recs ≡ₚ menu_cells plan_df ∧
          length recs = length (menu_cells plan_df).
Proof.
  intros Hday Hknown Hcells.
  destruct (analyze_loop_known classify insert_ok plan_df w)
    as (l & Hloop & Hout); [by auto|].
  unfold analyze_menu_plan, bind, get_all_menus, lift. rewrite Hloop.
  unfold sort_records.
  destruct (nutrition_data l) as [|r rs] eqn:Hdata;
    [by rewrite <- Hout in Hcells|].
  eexists. split; [reflexivity|].
  assert (Hperm : map r_menu (stable_sort record_le (r :: rs))
                  ≡ₚ menu_cells plan_df).
  { rewrite <- Hout. apply Permutation_map, stable_sort_perm. }
  split; [exact Hperm|].
  apply Permutation_length in Hperm. by rewrite length_map in Hperm.
Qed.

(** C9: a plan without any menu cell (only rice, blank or missing cells, or
    no row at all) refers to known menus only, and nothing is classified;
    but the analysis does not return the empty sequence of records: it
    raises KeyError. *)
Theorem analyze_fails_without_menu_cell
    (classify : string → result (string * (Z * Z * Z * Z * Z)))
    (insert_ok : Menu → bool) (plan_df : PlanFrame) (w : World) :
  menu_cells plan_df = [] →
  analyze_menu_plan classify insert_ok plan_df w = (Raise KeyError, w).
Proof.
  intros Hcells.
  destruct (analyze_loop_known classify insert_ok plan_df w)
    as (l & Hloop & Hout).
  { intros n. rewrite Hcells. by intros ?%elem_of_nil. }
  unfold analyze_menu_plan, bind, get_all_menus, lift. rewrite Hloop.
  rewrite Hcells in Hout. by destruct (nutrition_data l).
Qed.

Lemma analyze_fails_without_menu_cell_witness :
  menu_cells plan_rice_only = [] ∧
  analyze_menu_plan service_up (λ _, true) plan_rice_only world_two_sides
    = (Raise KeyError, world_two_sides).
Proof.
  split; [reflexivity|].
  apply (analyze_fails_without_menu_cell service_up (λ _, true)
           plan_rice_only world_two_sides).
  reflexivity.
Defined.

(** ** Daily totals *)

Lemma on_day_cons d r rs :
  on_day d (r :: rs) =
  if decide (r_day r = Some d) then r :: on_day d rs else on_day d rs.
Proof. unfold on_day. by rewrite filter_cons. Qed.




(** The group of a weekday after the rows [rs]: the group it had, extended
    by the rows of the weekday. *)
Lemma add_rows_lookup groups rs d :
  foldl add_row groups rs !! d =
  match on_day d rs with
  | [] => groups !! d
  | g => Some (foldl add_to (default no_sums (groups !! d)) g)
  end.
Proof.
  revert groups. induction rs as [|r rs IH]; intros groups; [done|].
  simpl foldl. rewrite IH, on_day_cons. unfold add_row.
  destruct (r_day r) as [d'|] eqn:Hr.
  - destruct (decide (d' = d)) as [->|Hne].
    + rewrite decide_True by done.
      rewrite lookup_insert_eq. simpl. by destruct (on_day d rs).
    + rewrite decide_False by congruence.
      rewrite lookup_insert_ne by done. done.
  - rewrite decide_False by done. done.
Qed.

Lemma groupby_sum_lookup rs d :
  groupby_sum rs !! d =
  match on_day d rs with
  | [] => None
  | g => Some (foldl add_to no_sums g)
  end.
Proof. unfold groupby_sum. by rewrite add_rows_lookup, lookup_empty. Qed.

Lemma on_day_nil d rs :
  on_day d rs = [] ↔ ¬ ∃ r, r ∈ rs ∧ r_day r = Some d.
Proof.
  unfold on_day. split.
  - intros Hnil (r & Hr & Hd).
    exact (filter_nil_not_elem_of _ _ r Hnil Hd Hr).
  - intros Hno. apply filter_none. intros r Hr Hd. apply Hno. eauto.
Qed.



Lemma daily_totals_days rs :
  map t_day (daily_totals rs) ≡ₚ (map_to_list (groupby_sum rs)).*1.
Proof.
  unfold daily_totals. rewrite map_map. simpl.
  apply Permutation_map, stable_sort_perm.
Qed.




(** ** Export *)

(** When export_plan returns, the nutrition sheet is not empty and the
    totals sheet holds its daily totals; when the analysis raises, so does
    the export. *)
Lemma export_plan_Ok classify insert_ok plan_df filename w e w' :
  export_plan classify insert_ok plan_df filename w = (Ok e, w') →
  analyze_menu_plan classify insert_ok plan_df w = (Ok (nutrition_sheet e), w') ∧
  nutrition_sheet e ≠ [] ∧
  daily_totals_sheet e = Some (daily_totals (nutrition_sheet e)).
Proof.
  unfold export_plan, bind, lift, ret.
  destruct (Normalizer.plan_sheets plan_df filename) as [sheets|];
    [|discriminate].
  destruct (analyze_menu_plan classify insert_ok plan_df w) as [[recs|] w1]
    eqn:Ha; [|discriminate].
  intros [= <- <-]. cbn [nutrition_sheet daily_totals_sheet].
  apply analyze_menu_plan_Ok in Ha as (l & _ & Hne & Hrecs).
  assert (Hnil : recs ≠ []).
  { intros ->. apply Hne.
    pose proof (stable_sort_perm record_le (nutrition_data l)) as Hp.
    rewrite <- Hrecs in Hp. by apply Permutation_nil in Hp. }
  split; [done|]. split; [done|]. by destruct recs.
Qed.

(** * Further properties *)

(** ** Plan generator: what a returned plan is made of *)

Lemma sample_nonempty k df : df ≠ [] → ∃ m, sample k df = Ok m.
Proof. destruct df; [done|]. unfold sample. eauto. Qed.

Lemma available_filter c used menus :
  available c used menus =
  filter (λ m, name m ∉ used) (of_category c menus).
Proof.
  unfold available, of_category. rewrite list_filter_filter.
  apply list_filter_iff. intros m. tauto.
Qed.

Lemma other_candidates_subset used menus m :
  m ∈ or_reuse (available_other used menus) (of_other menus) →
  m ∈ of_other menus.
Proof.
  unfold or_reuse.
  destruct (available_other used menus) as [|m0 l] eqn:E; [done|].
  rewrite <- E. unfold available_other, of_other.
  rewrite !list_elem_of_filter. tauto.
Qed.

(** Everything that a planned day determines: the four rows drawn, the
    optional menu, the dictionary and the new set of used menus. *)
Lemma plan_day_inv menus rnd day used dp used' :
  plan_day menus rnd day used = Ok (dp, used') →
  ∃ so ma s1 s2 e used_etc,
    let cand c := or_reuse (available c used menus) (of_category c menus) in
    so ∈ cand "수프" ∧ ma ∈ cand "메인" ∧ s1 ∈ cand "사이드" ∧
    s2 ∈ filter (λ m, name m ≠ name s1) (cand "사이드") ∧
    ((e = "" ∧ used_etc = used) ∨
     (∃ m, m ∈ or_reuse (available_other used menus) (of_other menus) ∧
           e = name m ∧ used_etc = used ∪ {[ name m ]})) ∧
    dp = {| weekday := day; rice := "잡곡밥"; soup := name so;
            main := name ma; side1 := name s1; side2 := name s2;
            etc := e |} ∧
    used' = used_etc ∪ {[ name so ]} ∪ {[ name ma ]} ∪ {[ name s1 ]}
                     ∪ {[ name s2 ]} ∪ {[ "잡곡밥" ]}.
Proof.
  unfold plan_day.
  destruct (sample (pick_soup rnd) _) as [so|] eqn:Hso; [|discriminate].
  destruct (sample (pick_main rnd) _) as [ma|] eqn:Hma; [|discriminate].
  destruct (sample (pick_side1 rnd) _) as [s1|] eqn:Hs1; [|discriminate].
  cbn.
  destruct (sample (pick_side2 rnd) _) as [s2|] eqn:Hs2; [|discriminate].
  cbn.
  apply sample_Ok in Hso, Hma, Hs1, Hs2.
  destruct (or_reuse (available_other used menus) (of_other menus))
    as [|m0 ms] eqn:Hetc.
  { cbn. intros [= <- <-]. exists so, ma, s1, s2, "", used. cbn.
    repeat split; try done. by left. }
  destruct (coin rnd).
  - destruct (sample (pick_etc rnd) (m0 :: ms)) as [et|] eqn:Het;
      [|discriminate].
    cbn. intros [= <- <-].
    exists so, ma, s1, s2, (name et), (used ∪ {[ name et ]}). cbn.
    repeat split; try done. right. exists et. split; [|done].
    by eapply sample_Ok.
  - cbn. intros [= <- <-]. exists so, ma, s1, s2, "", used. cbn.
    repeat split; try done. by left.
Qed.

(** The slots of every day of a returned plan. *)
Lemma make_plan_slots rnd menus plan :
  make_plan rnd menus = Ok plan →
  Forall (λ d,
    rice d = "잡곡밥" ∧
    soup d ∈ map name (of_category "수프" menus) ∧
    main d ∈ map name (of_category "메인" menus) ∧
    side1 d ∈ map name (of_category "사이드" menus) ∧
    side2 d ∈ map name (of_category "사이드" menus) ∧
    side1 d ≠ side2 d ∧
    (etc d = "" ∨ etc d ∈ map name (of_other menus))) plan.
Proof.
  intros H. eapply plan_days_Forall; [|exact H].
  intros r day u dp u' Hd.
  apply plan_day_inv in Hd
    as (so & ma & s1 & s2 & e & ue & Hso & Hma & H1 & H2 & He & -> & _).
  apply list_elem_of_filter in H2 as [Hne H2].
  apply candidates_subset in Hso, Hma, H1, H2. cbn.
  split; [done|].
  repeat (split; [by apply list_elem_of_fmap_2|]).
  split; [congruence|].
  destruct He as [[-> _]|(m & Hm & -> & _)]; [by left|right].
  apply list_elem_of_fmap_2. by eapply other_candidates_subset.
Qed.

(** X1: a plan that make_plan returns has the five weekdays in order; every
    day has the fixed rice, a soup of the soup category, a main of the main
    category, two sides of the side category with different names, and in
    the optional slot nothing or a menu outside the three categories. *)
Theorem make_plan_returns_week (rnd : string → Draws) (menus : list Menu)
    (plan : list DayPlan) :
  make_plan rnd menus = Ok plan →
  map weekday plan = days ∧
  Forall (λ d,
    rice d = "잡곡밥" ∧
    soup d ∈ map name (of_category "수프" menus) ∧
    main d ∈ map name (of_category "메인" menus) ∧
    side1 d ∈ map name (of_category "사이드" menus) ∧
    side2 d ∈ map name (of_category "사이드" menus) ∧
    side1 d ≠ side2 d ∧
    (etc d = "" ∨ etc d ∈ map name (of_other menus))) plan.
Proof.
  intros H. split; [by eapply plan_days_weekdays|by eapply make_plan_slots].
Qed.

Lemma make_plan_returns_week_witness :
  ∃ plan, make_plan first_row catalog_two_sides = Ok plan ∧
          map weekday plan = days.
Proof.
  exists plan_two_sides. split; [vm_compute; reflexivity|].
  apply (make_plan_returns_week first_row catalog_two_sides plan_two_sides).
  vm_compute. reflexivity.
Defined.

(** ** Plan generator: used menus are avoided while unused ones remain *)

(** When the category has a row whose name is unused, every candidate of
    the day is unused. *)
Lemma candidates_unused c used menus m x :
  m ∈ of_category c menus → name m ∉ used →
  x ∈ or_reuse (available c used menus) (of_category c menus) →
  name x ∉ used.
Proof.
  intros Hm Hfree. unfold or_reuse.
  destruct (available c used menus) as [|m0 l] eqn:E.
  - exfalso. rewrite available_filter in E.
    exact (filter_nil_not_elem_of _ _ m E Hfree Hm).
  - rewrite <- E, available_filter, list_elem_of_filter. tauto.
Qed.

(** The set of used menus on the day that plans [dp]: it holds the fixed
    picks of the earlier days, and nothing but the texts of the earlier
    days and what was used at the start. *)
Lemma plan_days_split menus rnd ds used plan p1 dp p2 :
  plan_days menus rnd ds used = Ok plan →
  plan = (p1 ++ dp :: p2)%list →
  ∃ d U U',
    plan_day menus (rnd d) d U = Ok (dp, U') ∧
    (∀ n, n ∈ U → n ∈ used ∨ n ∈ flat_map picks p1) ∧
    (∀ n, n ∈ used ∨ n ∈ flat_map fixed_picks p1 → n ∈ U).
Proof.
  revert used plan p1. induction ds as [|d ds IH]; intros used plan p1 Hplan.
  { injection Hplan as <-. by destruct p1. }
  apply plan_days_cons_Ok in Hplan as (d0 & u0 & p & Hd0 & Hp & ->).
  destruct p1 as [|d1 p1]; simpl.
  - intros [= <- <-]. exists d, used, u0. split; [done|].
    split; intros n; simpl; rewrite ?elem_of_nil; tauto.
  - intros [= <- ->].
    destruct (IH _ _ _ Hp eq_refl) as (d' & U & U' & Hday & Hup & Hlow).
    exists d', U, U'. split; [done|].
    apply plan_day_inv in Hd0
      as (so & ma & s1 & s2 & e & ue & _ & _ & _ & _ & He & -> & ->).
    unfold picks, fixed_picks. cbn. split.
    + intros n Hn. apply Hup in Hn as [Hn|Hn].
      * rewrite !elem_of_union, !elem_of_singleton in Hn.
        rewrite !elem_of_cons.
        destruct He as [[-> ->]|(m & _ & -> & ->)];
          [|rewrite elem_of_union, elem_of_singleton in Hn]; tauto.
      * right. rewrite !elem_of_cons. tauto.
    + intros n Hn. apply Hlow.
      rewrite !elem_of_cons in Hn.
      rewrite !elem_of_union, !elem_of_singleton.
      destruct He as [[-> ->]|(m & _ & -> & ->)];
        [|rewrite elem_of_union]; tauto.
Qed.

(** X2: in a plan that make_plan returns, a slot of a category does not
    repeat a soup, main, side or rice of an earlier day, as long as the
    category has a menu whose name occurs nowhere in the earlier days. *)
Theorem make_plan_avoids_repeats (rnd : string → Draws) (menus : list Menu)
    (p1 : list DayPlan) (dp : DayPlan) (p2 : list DayPlan) (c : string) :
  make_plan rnd menus = Ok (p1 ++ dp :: p2)%list →
  (∃ m, m ∈ of_category c menus ∧ name m ∉ flat_map picks p1) →
  ∀ x, x ∈ slots_of_category c dp → x ∉ flat_map fixed_picks p1.
Proof.
  intros Hplan (m & Hm & Hfree) x Hx Hrep.
  destruct (plan_days_split _ _ _ _ _ _ _ _ Hplan eq_refl)
    as (d & U & U' & Hday & Hup & Hlow).
  assert (HmU : name m ∉ U).
  { intros Hin. apply Hup in Hin as [Hin|Hin]; [set_solver|done]. }
  assert (HxU : x ∈ U) by (apply Hlow; by right).
  apply plan_day_inv in Hday
    as (so & ma & s1 & s2 & e & ue & Hso & Hma & H1 & H2 & _ & -> & _).
  apply list_elem_of_filter in H2 as [_ H2].
  pose proof (λ y, candidates_unused c U menus m y Hm HmU) as Hfresh.
  unfold slots_of_category in Hx. cbn in Hx.
  repeat case_decide; subst;
    rewrite ?elem_of_cons, ?elem_of_nil in Hx.
  - destruct Hx as [->|[]]. exact (Hfresh so Hso HxU).
  - destruct Hx as [->|[]]. exact (Hfresh ma Hma HxU).
  - destruct Hx as [->|[->|[]]];
      [exact (Hfresh s1 H1 HxU)|exact (Hfresh s2 H2 HxU)].
  - done.
Qed.

Lemma make_plan_avoids_repeats_witness :
  ∃ mon tue rest,
    make_plan first_row catalog_two_soups = Ok ([mon] ++ tue :: rest)%list ∧
    soup tue ≠ soup mon.
Proof.
  eexists _, _, _. split; [vm_compute; reflexivity|].
  intros Heq.
  eapply (make_plan_avoids_repeats first_row catalog_two_soups
            [_] _ _ "수프").
  - vm_compute. reflexivity.
  - exists (mkMenu "된장국" "수프" 60 4 2 6 900). split; by_computation.
  - left.
  - rewrite Heq. by_computation.
Defined.

(** ** Plan generator: catalogs for which a plan is always returned *)

Section TwoSides.
Variables (menus : list Menu) (a b : Menu).
Hypothesis soups : of_category "수프" menus ≠ [].
Hypothesis mains : of_category "메인" menus ≠ [].
Hypothesis sides : of_category "사이드" menus = [a; b].
Hypothesis different : name a ≠ name b.

Lemma or_reuse_nonempty l fallback : fallback ≠ [] → or_reuse l fallback ≠ [].
Proof. by destruct l. Qed.

(** Both sides are unused (on Monday) or both are used (afterwards): the
    candidates are the two sides either way. *)
Lemma two_sides_candidates used :
  used = ∅ ∨ (name a ∈ used ∧ name b ∈ used) →
  or_reuse (available "사이드" used menus) (of_category "사이드" menus)
  = [a; b].
Proof.
  intros [->|[Ha Hb]].
  - by rewrite available_unused, or_reuse_same.
  - rewrite available_filter, sides.
    rewrite filter_cons_False by (intros Hn; by apply Hn).
    rewrite filter_cons_False by (intros Hn; by apply Hn).
    done.
Qed.

(** The two sides are among the names added to [used_menus]. *)
Ltac used_two_sides :=
  split; rewrite !elem_of_union, !elem_of_singleton; tauto.

Lemma two_sides_day rnd day used :
  used = ∅ ∨ (name a ∈ used ∧ name b ∈ used) →
  ∃ dp used', plan_day menus rnd day used = Ok (dp, used') ∧
              name a ∈ used' ∧ name b ∈ used'.
Proof.
  intros Hused. unfold plan_day.
  destruct (sample_nonempty (pick_soup rnd)
              (or_reuse (available "수프" used menus)
                        (of_category "수프" menus)))
    as [so ->]; [by apply or_reuse_nonempty|].
  destruct (sample_nonempty (pick_main rnd)
              (or_reuse (available "메인" used menus)
                        (of_category "메인" menus)))
    as [ma ->]; [by apply or_reuse_nonempty|].
  rewrite (two_sides_candidates used Hused). cbn -[sample filter].
  destruct (sample_nonempty (pick_side1 rnd) [a; b]) as [s1 Hs1]; [done|].
  rewrite Hs1. cbn -[sample filter]. apply sample_Ok in Hs1.
  assert (Hs2 : ∃ s2, sample (pick_side2 rnd)
                        (filter (λ m, name m ≠ name s1) [a; b]) = Ok s2 ∧
                      (name a = name s1 ∨ name a = name s2) ∧
                      (name b = name s1 ∨ name b = name s2)).
  { rewrite !elem_of_cons, elem_of_nil in Hs1.
    destruct Hs1 as [->|[->|[]]].
    - rewrite filter_cons_False by (intros Hn; by apply Hn).
      rewrite filter_cons_True by done. rewrite filter_nil.
      exists b. split; [apply sample_singleton|tauto].
    - rewrite filter_cons_True by done.
      rewrite filter_cons_False by (intros Hn; by apply Hn).
      rewrite filter_nil.
      exists a. split; [apply sample_singleton|tauto]. }
  destruct Hs2 as (s2 & -> & Ha & Hb). cbn -[sample filter].
  destruct (or_reuse (available_other used menus) (of_other menus))
    as [|m0 ms] eqn:Hetc; cbn -[sample filter].
  { eexists _, _. split; [reflexivity|]. used_two_sides. }
  destruct (coin rnd); cbn -[sample filter].
  - destruct (sample_nonempty (pick_etc rnd) (m0 :: ms)) as [et ->]; [done|].
    cbn. eexists _, _. split; [reflexivity|]. used_two_sides.
  - eexists _, _. split; [reflexivity|]. used_two_sides.
Qed.

Lemma two_sides_days rnd ds used :
  used = ∅ ∨ (name a ∈ used ∧ name b ∈ used) →
  ∃ plan, plan_days menus rnd ds used = Ok plan.
Proof.
  revert used. induction ds as [|d ds IH]; intros used Hused; simpl;
    [by eexists|].
  destruct (two_sides_day (rnd d) d used Hused) as (dp & u & -> & Ha & Hb).
  cbn. destruct (IH u) as [plan ->]; [by right|]. cbn. by eexists.
Qed.

End TwoSides.

(** X3: with at least one soup, at least one main and exactly two sides with
    different names, make_plan returns a plan of five days whatever the
    draws. *)
Theorem make_plan_with_two_sides (rnd : string → Draws) (menus : list Menu)
    (a b : Menu) :
  of_category "수프" menus ≠ [] →
  of_category "메인" menus ≠ [] →
  of_category "사이드" menus = [a; b] →
  name a ≠ name b →
  ∃ plan, make_plan rnd menus = Ok plan ∧ length plan = 5%nat.
Proof.
  intros Hso Hma Hsides Hab.
  destruct (two_sides_days menus a b Hso Hma Hsides Hab rnd days ∅)
    as [plan Hplan]; [by left|].
  exists plan. split; [done|].
  apply plan_days_weekdays in Hplan.
  by rewrite <- (length_map weekday), Hplan.
Qed.

Lemma make_plan_with_two_sides_witness :
  ∃ plan, make_plan first_row catalog_two_sides = Ok plan ∧
          length plan = 5%nat.
Proof.
  apply (make_plan_with_two_sides first_row catalog_two_sides
           (mkMenu "김치" "사이드" 20 1 0 3 500)
           (mkMenu "시금치나물" "사이드" 30 2 1 4 200));
    [by vm_compute|by vm_compute|reflexivity|by vm_compute].
Defined.

(** ** Plan generator: the nutrients play no part *)

Lemma filter_same_menu (P : Menu → Prop) `{!∀ m, Decision (P m)} l l' :
  (∀ m m', same_menu m m' → (P m ↔ P m')) →
  Forall2 same_menu l l' →
  Forall2 same_menu (filter P l) (filter P l').
Proof.
  intros HP. induction 1 as [|m m' l l' Hm Hl IH]; [constructor|].
  rewrite !filter_cons. specialize (HP m m' Hm).
  destruct (decide (P m)), (decide (P m')); try tauto. by constructor.
Qed.

Lemma or_reuse_same_menu l l' f f' :
  Forall2 same_menu l l' → Forall2 same_menu f f' →
  Forall2 same_menu (or_reuse l f) (or_reuse l' f').
Proof.
  intros Hl Hf. destruct Hl as [|m m' l l' Hm Hl]; [done|].
  simpl. by constructor.
Qed.

Lemma candidates_same_menu c used menus menus' :
  Forall2 same_menu menus menus' →
  Forall2 same_menu
    (or_reuse (available c used menus) (of_category c menus))
    (or_reuse (available c used menus') (of_category c menus')).
Proof.
  intros H. apply or_reuse_same_menu; apply filter_same_menu; try done;
    intros m m' [Hn Hc]; cbv beta; by rewrite ?Hn, ?Hc.
Qed.

Lemma other_candidates_same_menu used menus menus' :
  Forall2 same_menu menus menus' →
  Forall2 same_menu
    (or_reuse (available_other used menus) (of_other menus))
    (or_reuse (available_other used menus') (of_other menus')).
Proof.
  intros H. apply or_reuse_same_menu; apply filter_same_menu; try done;
    intros m m' [Hn Hc]; cbv beta; by rewrite ?Hn, ?Hc.
Qed.

(** The same draw on two frames with the same names and categories raises
    on both or takes rows with the same name. *)
Lemma sample_same_menu k l l' :
  Forall2 same_menu l l' → name <$> sample k l = name <$> sample k l'.
Proof.
  intros H. pose proof (Forall2_length _ _ _ H) as Hlen.
  destruct H as [|m m' l l' Hm Hl]; [done|].
  unfold sample. rewrite <- Hlen. cbn [fmap result_fmap]. f_equal.
  rewrite !nth_lookup.
  destruct ((m :: l) !! (k mod length (m :: l))%nat) as [x|] eqn:Hx.
  - destruct (Forall2_lookup_l same_menu (m :: l) (m' :: l') _ x
                ltac:(by constructor) Hx) as (y & -> & [Hxy _]).
    done.
  - exfalso. apply lookup_ge_None in Hx.
    pose proof (Nat.mod_upper_bound k (length (m :: l))). simpl in *. lia.
Qed.

(** A draw, as far as the generator looks at it: the name of the row. *)
Lemma sample_name_cases k l :
  (∃ m, sample k l = Ok m) ∨ sample k l = Raise ValueError.
Proof. destruct l; [by right|left]. unfold sample. eauto. Qed.

Lemma plan_day_same_menu menus menus' rnd day used :
  Forall2 same_menu menus menus' →
  plan_day menus rnd day used = plan_day menus' rnd day used.
Proof.
  intros H. unfold plan_day.
  pose proof (sample_same_menu (pick_soup rnd) _ _
                (candidates_same_menu "수프" used _ _ H)) as Hso.
  pose proof (sample_same_menu (pick_main rnd) _ _
                (candidates_same_menu "메인" used _ _ H)) as Hma.
  pose proof (sample_same_menu (pick_side1 rnd) _ _
                (candidates_same_menu "사이드" used _ _ H)) as Hs1.
  pose proof (sample_same_menu (pick_etc rnd) _ _
                (other_candidates_same_menu used _ _ H)) as Het.
  pose proof (other_candidates_same_menu used _ _ H) as Hoth.
  pose proof (candidates_same_menu "사이드" used _ _ H) as Hside.
  destruct (sample (pick_soup rnd) (or_reuse (available "수프" used menus) _))
    as [so|], (sample (pick_soup rnd)
                 (or_reuse (available "수프" used menus') _)) as [so'|];
    try discriminate; cbn -[sample filter] in *;
    [|by injection Hso as ->].
  injection Hso as Hso.
  destruct (sample (pick_main rnd) (or_reuse (available "메인" used menus) _))
    as [ma|], (sample (pick_main rnd)
                 (or_reuse (available "메인" used menus') _)) as [ma'|];
    try discriminate; cbn -[sample filter] in *;
    [|by injection Hma as ->].
  injection Hma as Hma.
  destruct (sample (pick_side1 rnd)
              (or_reuse (available "사이드" used menus) _))
    as [s1|], (sample (pick_side1 rnd)
                 (or_reuse (available "사이드" used menus') _)) as [s1'|];
    try discriminate; cbn -[sample filter] in *;
    [|by injection Hs1 as ->].
  injection Hs1 as Hs1. rewrite <- Hso, <- Hma, <- Hs1.
  pose proof (sample_same_menu (pick_side2 rnd) _ _
                (filter_same_menu (λ m, name m ≠ name s1) _ _
                   ltac:(by intros m m' [-> _]) Hside)) as Hs2.
  destruct (sample (pick_side2 rnd) (filter _ (or_reuse
              (available "사이드" used menus) _)))
    as [s2|], (sample (pick_side2 rnd) (filter _ (or_reuse
              (available "사이드" used menus') _))) as [s2'|];
    try discriminate; cbn -[sample filter] in *;
    [|by injection Hs2 as ->].
  injection Hs2 as Hs2. rewrite <- Hs2.
  destruct Hoth as [|o o' os os' Ho Hos]; [done|].
  destruct (coin rnd); [|done].
  destruct (sample (pick_etc rnd) (o :: os)) as [et|],
           (sample (pick_etc rnd) (o' :: os')) as [et'|];
    try discriminate; cbn -[sample filter] in *;
    [|by injection Het as ->].
  injection Het as Het. by rewrite <- Het.
Qed.

Lemma make_plan_same_menu (rnd : string → Draws) (menus menus' : list Menu) :
  Forall2 same_menu menus menus' →
  make_plan rnd menus = make_plan rnd menus'.
Proof.
  intros H. unfold make_plan. generalize (∅ : gset string).
  induction days as [|d ds IH]; intros used; simpl; [done|].
  rewrite (plan_day_same_menu menus menus' (rnd d) d used H).
  destruct (plan_day menus' (rnd d) d used) as [[dp u]|]; cbn; [|done].
  by rewrite IH.
Qed.

(** X4: make_plan reads the names and the categories of the catalog only:
    two catalogs that differ in the nutrients alone give the same plan, or
    both raise, for the same draws. *)
Theorem make_plan_ignores_nutrients (rnd : string → Draws)
    (menus menus' : list Menu) :
  Forall2 same_menu menus menus' →
  make_plan rnd menus = make_plan rnd menus'.
Proof. apply make_plan_same_menu. Qed.

Lemma make_plan_ignores_nutrients_witness :
  make_plan first_row catalog_two_sides =
  make_plan first_row
    (map (λ m, mkMenu (name m) (category m) 0 0 0 0 0) catalog_two_sides).
Proof.
  apply (make_plan_ignores_nutrients first_row).
  repeat constructor.
Defined.

(** ** Export: the plan sheet is always complete *)

Lemma collect_Ok {X Y} (f : X → result Y) l ys :
  collect f l = Ok ys → Forall2 (λ x y, f x = Ok y) l ys.
Proof.
  revert ys. induction l as [|x l IH]; intros ys; simpl.
  - intros [= <-]. constructor.
  - destruct (f x) as [y|] eqn:Hx; cbn; [|discriminate].
    destruct (collect f l) as [ys'|]; cbn; [|discriminate].
    intros [= <-]. constructor; [done|]. by apply IH.
Qed.

Lemma collect_total {X Y} (f : X → result Y) l :
  (∀ x, x ∈ l → ∃ y, f x = Ok y) → ∃ ys, collect f l = Ok ys.
Proof.
  induction l as [|x l IH]; intros Hf; simpl; [by eexists|].
  destruct (Hf x) as [y ->]; [left|]. cbn.
  destruct IH as [ys ->]; [intros ? ?; apply Hf; by right|]. cbn.
  by eexists.
Qed.

(** With a 요일 column every entry of the sheet is defined. *)
Lemma plan_value_total plan_df row_name day :
  "요일" ∈ columns plan_df → ∃ v, plan_value plan_df row_name day = Ok v.
Proof.
  intros Hday. unfold plan_value.
  destruct (decide (row_name ∈ columns plan_df)) as [Hc|]; [|by eexists].
  destruct (row_get_in_columns plan_df [] "요일" Hday) as [v Hv].
  unfold row_get in Hv.
  destruct (column_position "요일" (columns plan_df)); [|discriminate].
  destruct (filter _ (rows plan_df)) as [|row ?]; [by eexists|].
  by apply row_get_in_columns.
Qed.

Lemma plan_value_missing_column plan_df row_name day :
  row_name ∉ columns plan_df →
  plan_value plan_df row_name day = Ok (Some "").
Proof. intros Hc. unfold plan_value. by case_decide. Qed.

(** The sheet of a frame, when it is written, has the six slot rows and the
    five weekday columns. *)
Lemma transposed_Ok plan_df sh :
  transposed plan_df = Ok sh →
  sheet_index sh = row_order ∧ sheet_columns sh = days ∧
  ∃ v1 v2 v3 v4 v5 v6,
    sheet_values sh = [v1; v2; v3; v4; v5; v6] ∧
    Forall (λ v, length v = 5%nat) [v1; v2; v3; v4; v5; v6].
Proof.
  unfold transposed.
  destruct (collect _ row_order) as [vals|] eqn:Hvals; cbn; [|discriminate].
  intros [= <-]. cbn. split; [done|]. split; [done|].
  apply collect_Ok in Hvals.
  assert (Hrows : Forall (λ v : list cell, length v = 5%nat) vals).
  { apply Forall_forall. intros v Hv.
    apply list_elem_of_lookup in Hv as [i Hv].
    destruct (Forall2_lookup_r _ _ _ _ _ Hvals Hv) as (slot & _ & Hslot).
    apply collect_Ok, Forall2_length in Hslot. by rewrite <- Hslot. }
  apply Forall2_length in Hvals. unfold row_order in Hvals. simpl in Hvals.
  destruct vals as [|v1 [|v2 [|v3 [|v4 [|v5 [|v6 [|? ?]]]]]]];
    try discriminate.
  by exists v1, v2, v3, v4, v5, v6.
Qed.

Lemma transposed_total plan_df :
  "요일" ∈ columns plan_df → ∃ sh, transposed plan_df = Ok sh.
Proof.
  intros Hday.
  destruct (collect_total
              (λ row_name, collect (λ day, plan_value plan_df row_name day)
                             days) row_order) as [vals Hvals].
  { intros slot _. apply collect_total. intros day _.
    by apply plan_value_total. }
  eexists. unfold transposed. by rewrite Hvals.
Qed.

(** X5: for a frame with a 요일 column the plan sheet of export_plan is
    always written in full: the six slot rows in the order of row_order, the
    five weekday columns, five cells in every row; and the row of a slot
    that the frame has no column for is filled with empty texts. *)
Theorem transposed_is_complete (plan_df : PlanFrame) :
  "요일" ∈ columns plan_df →
  ∃ sh, transposed plan_df = Ok sh ∧
        sheet_index sh = row_order ∧ sheet_columns sh = days ∧
        length (sheet_values sh) = 6%nat ∧
        Forall (λ v, length v = 5%nat) (sheet_values sh) ∧
        ∀ i slot, row_order !! i = Some slot → slot ∉ columns plan_df →
                  sheet_values sh !! i = Some (replicate 5 (Some "")).
Proof.
  intros Hday.
  destruct (collect_total
              (λ row_name, collect (λ day, plan_value plan_df row_name day)
                             days) row_order) as [vals Hvals].
  { intros slot _. apply collect_total. intros day _.
    by apply plan_value_total. }
  exists {| sheet_index := row_order; sheet_columns := days;
            sheet_values := vals |}.
  assert (Ht : transposed plan_df =
               Ok {| sheet_index := row_order; sheet_columns := days;
                     sheet_values := vals |})
    by (unfold transposed; by rewrite Hvals).
  split; [done|].
  destruct (transposed_Ok _ _ Ht)
    as (_ & _ & v1 & v2 & v3 & v4 & v5 & v6 & Hv & Hlen).
  cbn in Hv. subst vals. cbn [sheet_index sheet_columns sheet_values].
  repeat (split; [done|]).
  intros i slot Hi Hslot.
  apply collect_Ok in Hvals.
  destruct (Forall2_lookup_l _ _ _ _ _ Hvals Hi) as (v & Hv & Hcells).
  etrans; [exact Hv|]. f_equal.
  unfold days in Hcells. cbn [collect] in Hcells.
  rewrite !(plan_value_missing_column _ _ _ Hslot) in Hcells.
  cbn in Hcells. by injection Hcells as <-.
Qed.

Lemma transposed_is_complete_witness :
  ∃ sh, transposed plan_unknown_main = Ok sh ∧
        sheet_values sh !! 1%nat = Some (replicate 5 (Some "")).
Proof.
  destruct (transposed_is_complete plan_unknown_main ltac:(by_computation))
    as (sh & Hsh & _ & _ & _ & _ & Hfill).
  exists sh. split; [done|].
  apply (Hfill 1%nat "국/수프"); [reflexivity|by_computation].
Defined.

(** X6: a frame without a 요일 column cannot be exported as soon as it has
    one of the six slot columns: the sheet raises KeyError. *)
Theorem transposed_without_weekday_column (plan_df : PlanFrame) :
  "요일" ∉ columns plan_df →
  (∃ slot, slot ∈ row_order ∧ slot ∈ columns plan_df) →
  transposed plan_df = Raise KeyError.
Proof.
  intros Hday (slot & Hslot & Hcol).
  assert (Hpos : column_position "요일" (columns plan_df) = None).
  { unfold column_position.
    destruct (list_find _ (columns plan_df)) as [[i c]|] eqn:Hf; [|done].
    apply list_find_Some in Hf as (Hi & -> & _).
    exfalso. apply Hday. by eapply list_elem_of_lookup_2. }
  assert (Hval : ∀ s d, plan_value plan_df s d =
                        if decide (s ∈ columns plan_df) then Raise KeyError
                        else Ok (Some "")).
  { intros s d. unfold plan_value. by rewrite Hpos. }
  unfold transposed, row_order, days in *. cbn [collect].
  rewrite !Hval. rewrite !elem_of_cons, elem_of_nil in Hslot.
  destruct Hslot as [->|[->|[->|[->|[->|[->|[]]]]]]];
    repeat (case_decide; cbn; try done).
Qed.

Lemma transposed_without_weekday_column_witness :
  transposed {| columns := ["메인"]; rows := [ [Some "불고기"] ] |}
  = Raise KeyError.
Proof.
  apply transposed_without_weekday_column; [by_computation|].
  exists "메인". split; by_computation.
Defined.

(** ** Export followed by import *)

(** X7: whatever rows and columns a frame with a 요일 column has, the plan
    sheet that export_plan writes for it comes back from the import handler
    as the canonical frame: the columns 요일 and the six slots, and exactly
    one row for each of the five weekdays, in order. *)
Theorem export_then_import_is_canonical (plan_df : PlanFrame)
    (filename : string) (others : Workbook) :
  "요일" ∈ columns plan_df →
  ∃ sheets df_t,
    Normalizer.plan_sheets plan_df filename = Ok sheets ∧
    import_plan (map (prod_map id read_back) sheets ++ others)%list
      = Preview df_t ∧
    columns df_t = "요일" :: row_order ∧
    map (λ row : list cell, row !! 0%nat) (rows df_t)
      = map (λ d, Some (Some d)) days ∧
    Forall (λ row : list cell, length row = 7%nat) (rows df_t).
Proof.
  intros Hday.
  destruct (transposed_total plan_df Hday) as (sh & Ht).
  destruct (transposed_Ok _ _ Ht)
    as (Hi & Hc & v1 & v2 & v3 & v4 & v5 & v6 & Hv & _).
  destruct sh as [idx cols vals]. cbn in Hi, Hc, Hv. subst idx cols vals.
  assert (Hn : normalize
                 (read_back {| sheet_index := row_order;
                               sheet_columns := days;
                               sheet_values := [v1; v2; v3; v4; v5; v6] |})
               = {| columns := "요일" :: row_order;
                    rows := imap (λ j d, Some d ::
                              map (λ v : list cell, mjoin (v !! j))
                                  (map (map read_cell)
                                       [v1; v2; v3; v4; v5; v6])) days |})
    by apply normalize_plan_sheet.
  unfold Normalizer.plan_sheets. rewrite Ht.
  destruct (Str.contains "점심" filename), (Str.contains "저녁" filename);
    cbn -[normalize read_back];
    eexists _, (normalize (read_back {| sheet_index := row_order;
                                        sheet_columns := days;
                                        sheet_values :=
                                          [v1; v2; v3; v4; v5; v6] |}));
    (split; [reflexivity|]);
    (split; [reflexivity|]);
    rewrite Hn; cbn; repeat split; repeat constructor.
Qed.

Lemma export_then_import_is_canonical_witness :
  ∃ sheets df_t,
    Normalizer.plan_sheets plan_unknown_main "plan_저녁.xlsx" = Ok sheets ∧
    import_plan (map (prod_map id read_back) sheets ++ [])%list
      = Preview df_t ∧
    columns df_t = "요일" :: row_order ∧
    map (λ row : list cell, row !! 0%nat) (rows df_t)
      = map (λ d, Some (Some d)) days ∧
    Forall (λ row : list cell, length row = 7%nat) (rows df_t).
Proof.
  apply (export_then_import_is_canonical plan_unknown_main "plan_저녁.xlsx" []).
  by_computation.
Defined.

(** ** Import *)

(** X8: the import handler reports a missing sheet exactly when no sheet
    name of the workbook, trimmed, is 점심 or 저녁; otherwise it previews the
    first such sheet, whatever comes before or after it. *)
Theorem import_selects_first_sheet (xl : Workbook) :
  (import_plan xl = NoSheet ↔
   ∀ s, s ∈ xl → Str.strip s.1 ∉ ["점심"; "저녁"]) ∧
  (∀ before s after,
     xl = (before ++ s :: after)%list →
     (∀ s', s' ∈ before → Str.strip s'.1 ∉ ["점심"; "저녁"]) →
     Str.strip s.1 ∈ ["점심"; "저녁"] →
     import_plan xl = Preview (normalize s.2)).
Proof.
  unfold import_plan, find_sheet. split.
  - destruct (list_find _ xl) as [[i s]|] eqn:Hf; cbn.
    + split; [discriminate|]. intros Hnone.
      apply list_find_Some in Hf as (Hi & Hs & _).
      exfalso. eapply Hnone; [|exact Hs]. by eapply list_elem_of_lookup_2.
    + split; [|done]. intros _ s Hs.
      apply list_find_None in Hf. rewrite Forall_forall in Hf. by apply Hf.
  - intros before s after -> Hbefore Hs.
    assert (Hf : list_find (λ s0 : string * Sheet,
                    Str.strip s0.1 ∈ ["점심"; "저녁"])
                   (before ++ s :: after) = Some (length before, s)).
    { apply list_find_Some. split; [|split; [done|]].
      - by rewrite lookup_app_r, Nat.sub_diag by lia.
      - intros j y Hj Hlt. apply Hbefore.
        rewrite lookup_app_l in Hj by done.
        by eapply list_elem_of_lookup_2. }
    by rewrite Hf.
Qed.

(** X9: the frame of the import handler is well formed whatever the sheet
    holds: its first column is 요일, the other columns are slot labels of
    row_order, every row has one cell per column and starts with one of the
    five weekday labels. *)
Theorem normalize_is_well_formed (df : Sheet) :
  ∃ slots,
    columns (normalize df) = "요일" :: slots ∧
    Forall (λ c, c ∈ row_order) slots ∧
    Forall (λ row : list cell,
              length row = length (columns (normalize df)) ∧
              ∃ d, d ∈ days ∧ row !! 0%nat = Some (Some d))
           (rows (normalize df)).
Proof.
  unfold normalize. cbn [columns rows]. eexists. split; [reflexivity|].
  split.
  - apply Forall_forall. intros c Hc.
    apply list_elem_of_fmap in Hc as ([c' row] & -> & Hin).
    apply list_elem_of_In, in_flat_map in Hin as (r & Hr & Hin).
    apply list_elem_of_In, list_elem_of_filter in Hin as [Heq _].
    apply list_elem_of_In, list_elem_of_filter in Hr as [_ Hr].
    cbn in *. by subst.
  - apply Forall_forall. intros row Hrow.
    apply list_elem_of_filter in Hrow as [Hday Hrow].
    apply elem_of_lookup_imap in Hrow as (j & c & -> & _).
    split; [cbn; by rewrite !length_map|].
    cbn [lookup list_lookup mjoin option_join] in Hday.
    apply list_elem_of_fmap in Hday as (d & [= ->] & Hd). by exists d.
Qed.

(** ** Nutrition analyzer: what a run does to the catalog *)

Lemma first_named_app n db rows m :
  first_named n db = Some m → first_named n (db ++ rows) = Some m.
Proof.
  unfold first_named. rewrite filter_app.
  by destruct (filter _ db).
Qed.


Section Run.
Variable classify : string → result (string * (Z * Z * Z * Z * Z)).
Variable insert_ok : Menu → bool.
Variable w0 : World.

Local Abbreviation run_inv := (Analyzer.run_inv classify insert_ok w0).

Lemma record_ok_app db rows r : record_ok db r → record_ok (db ++ rows) r.
Proof.
  intros (Hs & Hn & m & Hm & Hv). repeat split; try done.
  exists m. split; [by apply first_named_app|done].
Qed.

Lemma run_inv_start :
  run_inv {| menus := db w0;
             existing_menus := list_to_set (map name (db w0));
             nutrition_data := [] |} w0.
Proof.
  split; [done|]. split; [done|]. split; [constructor|].
  exists []. rewrite !app_nil_r. repeat split; constructor.
Qed.

(** The lookup of a name keeps the invariant, and leaves the named row in
    the catalog when it does not skip the cell. *)
Lemma resolve_inv n l w o w' :
  run_inv l w →
  resolve classify insert_ok n l w = (Ok o, w') →
  match o with
  | Some l' => run_inv l' w' ∧ n ∈ map name (db w') ∧
               nutrition_data l' = nutrition_data l
  | None => run_inv l w'
  end.
Proof.
  intros (Hmenus & Hex & Hrec & new & Hcalls & Hnew & Hdup & Hdb).
  rewrite resolve_eq.
  destruct (decide (n ∈ existing_menus l)) as [Hin|Hout].
  { intros [= <- <-]. split; [|split; [|done]].
    - repeat split; try done. by exists new.
    - rewrite Hex in Hin. by apply elem_of_list_to_set in Hin. }
  assert (Hfresh : n ∉ map name (db w)).
  { intros Hn. apply Hout. rewrite Hex. by apply elem_of_list_to_set. }
  assert (Hfresh0 : n ∉ map name (db w0)).
  { intros Hn. apply Hfresh. rewrite Hdb, map_app.
    apply elem_of_app. by left. }
  assert (Hnew' : Forall (λ n, n ∉ map name (db w0)) (new ++ [n])).
  { apply Forall_app. split; [done|]. by repeat constructor. }
  assert (Hrej : accepted classify insert_ok n = false →
                 run_inv l {| db := db w;
                              classify_calls := classify_calls w ++ [n] |}).
  { intros Hacc. repeat split; try done. exists (new ++ [n])%list.
    cbn [db classify_calls]. rewrite Hcalls, <- app_assoc.
    rewrite filter_app, filter_cons_False, filter_nil, app_nil_r
      by (rewrite Hacc; discriminate).
    done. }
  cbv zeta. unfold accepted, classified_row in Hrej.
  destruct (classify n) as [[cat [[[[cal pro] fa] car] sod]]|e] eqn:Hc;
    [|intros [= <- <-]; by apply Hrej].
  destruct (insert_ok _) eqn:Hins; [|intros [= <- <-]; by apply Hrej].
  intros [= <- <-]. cbn [nutrition_data db]. split; [|split; [|done]].
  - split; [done|]. split.
    { cbn [existing_menus db]. rewrite Hex, map_app, list_to_set_app_L.
      cbn. by rewrite union_empty_r_L. }
    split.
    { cbn [nutrition_data db].
      eapply Forall_impl; [exact Hrec|]. intros r. apply record_ok_app. }
    exists (new ++ [n])%list. cbn [db classify_calls].
    assert (Hacc : accepted classify insert_ok n = true)
      by (unfold accepted, classified_row; by rewrite Hc).
    rewrite Hcalls, <- app_assoc, filter_app.
    rewrite filter_cons_True, filter_nil by done.
    rewrite omap_app. cbn [omap list_omap]. unfold classified_row at 2.
    rewrite Hc, Hdb, <- app_assoc. repeat split; try done.
    apply NoDup_app. split; [done|]. split; [|apply NoDup_singleton].
    intros x Hx ->%list_elem_of_singleton. apply Hfresh.
    rewrite Hdb, map_app. apply elem_of_app. right.
    apply list_elem_of_fmap.
    unfold accepted in Hx.
    apply list_elem_of_filter in Hx as [Hx Hin].
    destruct (classified_row classify n) as [row|] eqn:Hrow; [|discriminate].
    exists row. split.
    + unfold classified_row in Hrow.
      destruct (classify n) as [[? [[[[? ?] ?] ?] ?]]|]; [|discriminate].
      by injection Hrow as <-.
    + apply list_elem_of_omap. exists n. split; [|done].
      apply list_elem_of_filter. split; [|done].
      unfold accepted. by rewrite Hrow.
  - rewrite map_app. apply elem_of_app. right. cbn. left.
Qed.

Lemma menu_of_cell_nonempty plan_df row meal_type n :
  menu_of_cell plan_df row meal_type = Some n → n ≠ "".
Proof.
  unfold menu_of_cell. case_decide; [|discriminate].
  destruct (row_get plan_df row meal_type) as [[text|]|]; try discriminate.
  case_decide; [discriminate|]. by intros [= <-].
Qed.

(** The part of the invariant that speaks of the world alone. *)
Lemma run_inv_world l w :
  run_inv l w →
  ∃ new,
    classify_calls w = (classify_calls w0 ++ new)%list ∧
    Forall (λ n, n ∉ map name (db w0)) new ∧
    NoDup (filter (λ n, accepted classify insert_ok n = true) new) ∧
    db w = (db w0 ++ omap (classified_row classify)
              (filter (λ n, accepted classify insert_ok n = true) new))%list.
Proof. by intros (_ & _ & _ & H). Qed.

(** One cell keeps the invariant; when it raises, the world still is one
    that the invariant allows. *)
Lemma analyze_cell_inv plan_df row meal_type l w res w' :
  meal_type ∈ meal_types → run_inv l w →
  analyze_cell classify insert_ok plan_df row meal_type l w = (res, w') →
  match res with
  | Ok l' => run_inv l' w'
  | Raise _ => ∃ l', run_inv l' w'
  end.
Proof.
  intros Hmt Hinv.
  destruct (menu_of_cell plan_df row meal_type) as [n|] eqn:Hcell.
  2:{ rewrite (analyze_cell_blank _ _ _ _ _ _ _ Hcell). by intros [= <- <-]. }
  rewrite (analyze_cell_menu _ _ _ _ _ _ _ _ Hcell).
  destruct (resolve_total classify insert_ok n l w) as (o & w1 & Hres).
  rewrite Hres. pose proof (resolve_inv _ _ _ _ _ Hinv Hres) as Ho.
  destruct o as [l1|]; [|by intros [= <- <-]].
  destruct Ho as (Hinv1 & Hn & Hdata).
  destruct (filter (λ m, name m = n) (menus l1)) as [|info rest] eqn:Hinfo;
    [by intros [= <- <-]|].
  destruct (row_get plan_df row "요일") as [day|e];
    [|intros [= <- <-]; by exists l1].
  intros [= <- <-].
  destruct Hinv1 as (Hmenus & Hex & Hrec & Hworld).
  split; [done|]. split; [done|]. split; [|done].
  cbn [nutrition_data]. apply Forall_app. split; [done|].
  constructor; [|constructor].
  split; [done|]. split; [by eapply menu_of_cell_nonempty|].
  exists info. cbn. unfold first_named. rewrite <- Hmenus, Hinfo. done.
Qed.

(** A loop whose body keeps an invariant, also when it raises. *)
Lemma for_each_inv {X S} (I : S → World → Prop) (l : list X)
    (body : X → S → M S) s w res w' :
  (∀ x s w res w', x ∈ l → I s w → body x s w = (res, w') →
     match res with Ok s' => I s' w' | Raise _ => ∃ s', I s' w' end) →
  I s w → for_each l body s w = (res, w') →
  match res with Ok s' => I s' w' | Raise _ => ∃ s', I s' w' end.
Proof.
  revert s w. induction l as [|x l IH]; intros s w Hbody Hs; simpl.
  - unfold ret. by intros [= <- <-].
  - unfold bind. destruct (body x s w) as [[s1|e] w1] eqn:Hx.
    + apply IH.
      * intros y ? ? ? ? Hy. apply Hbody. by right.
      * exact (Hbody x s w (Ok s1) w1 ltac:(left) Hs Hx).
    + intros [= <- <-].
      exact (Hbody x s w (Raise e) w1 ltac:(left) Hs Hx).
Qed.

Lemma analyze_loop_inv plan_df res w' :
  for_each (rows plan_df) (analyze_row classify insert_ok plan_df)
    {| menus := db w0;
       existing_menus := list_to_set (map name (db w0));
       nutrition_data := [] |} w0 = (res, w') →
  match res with Ok l => run_inv l w' | Raise _ => ∃ l, run_inv l w' end.
Proof.
  apply (for_each_inv run_inv); [|apply run_inv_start].
  intros row l w res1 w1 _ Hl. unfold analyze_row.
  apply (for_each_inv run_inv); [|done].
  intros mt l2 w2 res2 w3 Hmt Hl2. by apply analyze_cell_inv.
Qed.

(** Whatever the outcome of analyze_menu_plan, the world it leaves is one
    that the invariant allows. *)
Lemma analyze_menu_plan_world plan_df res w' :
  analyze_menu_plan classify insert_ok plan_df w0 = (res, w') →
  ∃ l, run_inv l w' ∧
       match res with
       | Ok recs => recs ≡ₚ nutrition_data l
       | Raise _ => True
       end.
Proof.
  unfold analyze_menu_plan, bind, get_all_menus, lift.
  destruct (for_each _ _ _ w0) as [[l|e] w1] eqn:Hloop.
  - apply analyze_loop_inv in Hloop. unfold sort_records.
    destruct (nutrition_data l) as [|r rs] eqn:Hdata.
    + intros [= <- <-]. by exists l.
    + intros [= <- <-]. exists l. split; [done|].
      rewrite Hdata. apply (stable_sort_perm record_le (r :: rs)).
  - apply analyze_loop_inv in Hloop as [l Hl].
    intros [= <- <-]. by exists l.
Qed.

End Run.

(** X10: whatever the plan, the collaborators and the outcome (records or
    an exception), analyze_menu_plan only appends to the catalog: every
    name it sends to the classification service is absent from the catalog
    it started with, and the rows it appends are, in order, the rows of the
    answers that were inserted.  No row is changed or removed. *)
Theorem analyze_only_appends (classify : string → result _)
    (insert_ok : Menu → bool) (plan_df : PlanFrame) (w0 : World) :
  let w' := (analyze_menu_plan classify insert_ok plan_df w0).2 in
  ∃ new,
    classify_calls w' = (classify_calls w0 ++ new)%list ∧
    Forall (λ n, n ∉ map name (db w0)) new ∧
    db w' = (db w0 ++ omap (classified_row classify)
               (filter (λ n, accepted classify insert_ok n = true) new))%list.
Proof.
  destruct (analyze_menu_plan classify insert_ok plan_df w0) as [res w']
    eqn:Hrun.
  destruct (analyze_menu_plan_world _ _ _ _ _ _ Hrun) as (l & Hinv & _).
  destruct (run_inv_world _ _ _ _ _ Hinv) as (new & H1 & H2 & _ & H4).
  by exists new.
Qed.



Lemma analyze_menu_plan_Raise classify insert_ok plan_df w w' e :
  analyze_menu_plan classify insert_ok plan_df w = (Raise e, w') →
  e = KeyError.
Proof.
  unfold analyze_menu_plan, bind, get_all_menus, lift.
  destruct (for_each _ _ _ w) as [[l|e1] w1] eqn:Hloop.
  - unfold sort_records. destruct (nutrition_data l); [|discriminate].
    by intros [= <- <-].
  - intros [= <- <-]. revert Hloop.
    apply (for_each_Raise (λ e, e = KeyError)).
    intros row l w2 e2 w3 _. unfold analyze_row.
    apply (for_each_Raise (λ e, e = KeyError)).
    intros mt l2 w4 e3 w5 _. apply analyze_cell_Raise.
Qed.

(** X12: on a frame with distinct column labels the exceptions of the
    classification service and of the insertion never leave
    analyze_menu_plan; the only exception it raises is KeyError.  (With a
    slot label that occurs twice [row[meal_type]] is a Series and the
    condition of the loop raises ValueError.) *)
Theorem analyze_raises_only_KeyError (classify : string → result _)
    (insert_ok : Menu → bool) (plan_df : PlanFrame) (w w' : World) (e : exn) :
  NoDup (columns plan_df) →
  analyze_menu_plan classify insert_ok plan_df w = (Raise e, w') →
  e = KeyError.
Proof. intros _. apply analyze_menu_plan_Raise. Qed.

Lemma analyze_raises_only_KeyError_witness :
  NoDup (columns plan_unknown_main) ∧
  ∃ e w', analyze_menu_plan service_down (λ _, true) plan_unknown_main
            world_two_sides = (Raise e, w') ∧ e = KeyError.
Proof.
  split; [by_computation|].
  eexists _, _. split; [vm_compute; reflexivity|].
  eapply (analyze_raises_only_KeyError service_down (λ _, true)
            plan_unknown_main world_two_sides).
  - by_computation.
  - vm_compute. reflexivity.
Defined.

(** X13: every record that analyze_menu_plan returns belongs to one of the
    five slots 국/수프, 메인, 사이드1, 사이드2, 기타 (never to the rice column),
    names a menu that is not the empty text, and carries the nutrients of
    the first row of that name in the catalog as the run leaves it. *)
Theorem records_agree_with_catalog (classify : string → result _)
    (insert_ok : Menu → bool) (plan_df : PlanFrame) (w w' : World)
    (recs : list NutritionRecord) :
  analyze_menu_plan classify insert_ok plan_df w = (Ok recs, w') →
  Forall (λ r,
    r_slot r ∈ meal_types ∧ r_menu r ≠ "" ∧
    ∃ m, first_named (r_menu r) (db w') = Some m ∧
         record_nutrients r = menu_nutrients m) recs.
Proof.
  intros Hrun.
  destruct (analyze_menu_plan_world _ _ _ _ _ _ Hrun)
    as (l & (_ & _ & Hrec & _) & Hperm).
  by rewrite Hperm.
Qed.

Lemma records_agree_with_catalog_witness :
  ∃ recs w',
    analyze_menu_plan service_up (λ _, true) plan_unknown_twice
      world_two_sides = (Ok recs, w') ∧
    Forall (λ r,
      r_slot r ∈ meal_types ∧ r_menu r ≠ "" ∧
      ∃ m, first_named (r_menu r) (db w') = Some m ∧
           record_nutrients r = menu_nutrients m) recs.
Proof.
  eexists _, _. split; [vm_compute; reflexivity|].
  apply (records_agree_with_catalog service_up (λ _, true)
           plan_unknown_twice world_two_sides).
  vm_compute. reflexivity.
Defined.



(** ** Nutrition analyzer: at most one record per menu cell *)

Lemma for_each_bound {X S} (size : S → nat) (cost : X → nat) (l : list X)
    (body : X → S → M S) s w s' w' :
  (∀ x s w s' w', body x s w = (Ok s', w') →
                  (size s' ≤ size s + cost x)%nat) →
  for_each l body s w = (Ok s', w') →
  (size s' ≤ size s + sum_list (map cost l))%nat.
Proof.
  intros Hbody. revert s w. induction l as [|x l IH]; intros s w; simpl.
  - unfold ret. intros [= <- <-]. lia.
  - unfold bind. destruct (body x s w) as [[s1|e] w1] eqn:Hx; [|discriminate].
    intros Hl. apply IH in Hl. apply Hbody in Hx. lia.
Qed.

Lemma sum_list_flat_map {X Y} (f : X → list Y) (l : list X) :
  sum_list (map (λ x, length (f x)) l) = length (flat_map f l).
Proof.
  induction l as [|x l IH]; simpl; [done|]. by rewrite length_app, IH.
Qed.

(** X15: analyze_menu_plan returns at most one record per menu cell of the
    plan (a non-blank cell of one of the five slot columns); cells whose
    menu could not be resolved give none. *)
Theorem records_bounded_by_cells (classify : string → result _)
    (insert_ok : Menu → bool) (plan_df : PlanFrame) (w w' : World)
    (recs : list NutritionRecord) :
  analyze_menu_plan classify insert_ok plan_df w = (Ok recs, w') →
  (0 < length recs ≤ length (menu_cells plan_df))%nat.
Proof.
  intros Hrun.
  apply analyze_menu_plan_Ok in Hrun as (l & Hloop & Hne & ->).
  rewrite (Permutation_length (stable_sort_perm record_le _)).
  split; [destruct (nutrition_data l); [done|simpl; lia]|].
  assert (Hcell : ∀ row mt l1 w1 l2 w2,
            analyze_cell classify insert_ok plan_df row mt l1 w1 = (Ok l2, w2) →
            (length (nutrition_data l2) ≤ length (nutrition_data l1)
               + length (option_list (menu_of_cell plan_df row mt)))%nat).
  { intros row mt l1 w1 l2 w2 Hcell.
    destruct (menu_of_cell plan_df row mt) as [n|] eqn:Hn.
    - apply analyze_cell_Ok in Hcell as [->|(r & -> & _)];
        [simpl; lia|rewrite length_app; simpl; lia].
    - rewrite (analyze_cell_blank _ _ _ _ _ _ _ Hn) in Hcell.
      injection Hcell as <- <-. simpl. lia. }
  assert (Hrow : ∀ row l1 w1 l2 w2,
            analyze_row classify insert_ok plan_df row l1 w1 = (Ok l2, w2) →
            (length (nutrition_data l2) ≤ length (nutrition_data l1)
               + length (omap (menu_of_cell plan_df row) meal_types))%nat).
  { intros row l1 w1 l2 w2 Hrow. unfold analyze_row in Hrow.
    pose proof (for_each_bound (λ l, length (nutrition_data l))
                  (λ mt, length (option_list (menu_of_cell plan_df row mt)))
                  _ _ _ _ _ _ (Hcell row) Hrow) as Hb.
    by rewrite (sum_list_flat_map
                  (λ mt, option_list (menu_of_cell plan_df row mt))),
      flat_map_option_list in Hb. }
  pose proof (for_each_bound (λ l, length (nutrition_data l))
                (λ row, length (omap (menu_of_cell plan_df row) meal_types))
                _ _ _ _ _ _ Hrow Hloop) as Hb.
  unfold menu_cells. rewrite <- sum_list_flat_map. exact Hb.
Qed.

Lemma records_bounded_by_cells_witness :
  ∃ recs w',
    analyze_menu_plan service_up (λ _, true) plan_unknown_twice
      world_two_sides = (Ok recs, w') ∧
    (0 < length recs ≤ length (menu_cells plan_unknown_twice))%nat.
Proof.
  eexists _, _. split; [vm_compute; reflexivity|].
  eapply (records_bounded_by_cells service_up (λ _, true)
            plan_unknown_twice world_two_sides).
  vm_compute. reflexivity.
Defined.

(** ** Nutrition analyzer: a plan of known menus is a pure lookup *)

Section KnownRecords.
Variable classify : string → result (string * (Z * Z * Z * Z * Z)).
Variable insert_ok : Menu → bool.
Variable plan_df : PlanFrame.
Variable w : World.
Hypothesis known :
  ∀ n, n ∈ menu_cells plan_df →
       n ∈ map name (db w) ∧ "요일" ∈ columns plan_df.

Lemma analyze_cell_lookup row meal_type l :
  row ∈ rows plan_df → meal_type ∈ meal_types → untouched w l →
  ∃ l', analyze_cell classify insert_ok plan_df row meal_type l w = (Ok l', w) ∧
        untouched w l' ∧
        nutrition_data l' =
        (nutrition_data l
           ++ option_list (lookup_record (db w) plan_df row meal_type))%list.
Proof.
  intros Hrow Hmt [Hmenus Hexisting]. unfold lookup_record.
  destruct (menu_of_cell plan_df row meal_type) as [n|] eqn:Hcell.
  - destruct (known n) as [Hn Hday].
    { unfold menu_cells. apply list_elem_of_In, in_flat_map.
      exists row. split; [by apply list_elem_of_In|].
      apply list_elem_of_In, list_elem_of_omap. eauto. }
    rewrite (analyze_cell_menu _ _ _ _ _ _ _ _ Hcell), resolve_eq.
    rewrite decide_True by (rewrite Hexisting; by apply elem_of_list_to_set).
    rewrite Hmenus. unfold first_named.
    destruct (filter (λ m, name m = n) (db w)) as [|info ?] eqn:Hinfo.
    { apply list_elem_of_fmap in Hn as (m & -> & Hm).
      exfalso. eapply filter_nil_not_elem_of; [exact Hinfo| |exact Hm]. done. }
    destruct (row_get_in_columns plan_df row _ Hday) as [day ->].
    eexists. split; [reflexivity|]. split; [done|]. done.
  - rewrite (analyze_cell_blank _ _ _ _ _ _ _ Hcell).
    exists l. by rewrite app_nil_r.
Qed.

Lemma analyze_loop_lookup :
  ∃ l, for_each (rows plan_df) (analyze_row classify insert_ok plan_df)
         {| menus := db w;
            existing_menus := list_to_set (map name (db w));
            nutrition_data := [] |} w = (Ok l, w) ∧
       nutrition_data l = lookup_records (db w) plan_df.
Proof.
  destruct (for_each_collect (untouched w) nutrition_data
              (λ row, omap (lookup_record (db w) plan_df row) meal_types)
              (rows plan_df) (analyze_row classify insert_ok plan_df) w
              {| menus := db w;
                 existing_menus := list_to_set (map name (db w));
                 nutrition_data := [] |})
    as (l & Hloop & _ & Hout); [|split; reflexivity|].
  - intros row l Hrow Hl. unfold analyze_row.
    rewrite <- flat_map_option_list.
    apply (for_each_collect (untouched w) nutrition_data
             (λ mt, option_list (lookup_record (db w) plan_df row mt)));
      [|done].
    intros mt l1 Hmt Hl1. by apply analyze_cell_lookup.
  - exists l. split; [exact Hloop|exact Hout].
Qed.

Lemma analyze_lookup :
  analyze_menu_plan classify insert_ok plan_df w =
  (sort_records (lookup_records (db w) plan_df), w).
Proof.
  destruct analyze_loop_lookup as (l & Hloop & Hout).
  unfold analyze_menu_plan, bind, get_all_menus, lift.
  by rewrite Hloop, Hout.
Qed.

End KnownRecords.

Lemma lookup_records_menus
    (classify : string → result (string * (Z * Z * Z * Z * Z)))
    (insert_ok : Menu → bool) plan_df w :
  (∀ n, n ∈ menu_cells plan_df →
        n ∈ map name (db w) ∧ "요일" ∈ columns plan_df) →
  map r_menu (lookup_records (db w) plan_df) = menu_cells plan_df.
Proof.
  intros Hknown.
  destruct (analyze_loop_known classify insert_ok plan_df w Hknown)
    as (l & Hloop & Hout).
  destruct (analyze_loop_lookup classify insert_ok plan_df w Hknown)
    as (l' & Hloop' & Hout').
  rewrite Hloop in Hloop'. injection Hloop' as <-.
  by rewrite <- Hout', Hout.
Qed.

(** X16: when the column labels of the plan are distinct and every menu
    cell names a row of the catalog (and the plan has its 요일 column),
    analyze_menu_plan is a pure lookup: it sends nothing to the
    classification service, leaves the catalog as it is, and its records
    are the sorted list of the lookups, one per menu cell; without any menu
    cell it raises KeyError. *)
Theorem analyze_known_plan_is_lookup (classify : string → result _)
    (insert_ok : Menu → bool) (plan_df : PlanFrame) (w : World) :
  NoDup (columns plan_df) →
  (∀ n, n ∈ menu_cells plan_df →
        n ∈ map name (db w) ∧ "요일" ∈ columns plan_df) →
  analyze_menu_plan classify insert_ok plan_df w =
    (match lookup_records (db w) plan_df with
     | [] => Raise KeyError
     | recs => Ok (stable_sort record_le recs)
     end, w) ∧
  map r_menu (lookup_records (db w) plan_df) = menu_cells plan_df.
Proof.
  intros _ Hknown. split.
  - rewrite (analyze_lookup classify insert_ok plan_df w Hknown).
    unfold sort_records. by destruct (lookup_records _ _).
  - by apply (lookup_records_menus classify insert_ok).
Qed.

Lemma analyze_known_plan_is_lookup_witness :
  NoDup (columns plan_main_and_other) ∧
  analyze_menu_plan service_down (λ _, false) plan_main_and_other
    world_two_sides =
    (match lookup_records (db world_two_sides) plan_main_and_other with
     | [] => Raise KeyError
     | recs => Ok (stable_sort record_le recs)
     end, world_two_sides) ∧
  map r_menu (lookup_records (db world_two_sides) plan_main_and_other)
    = ["불고기"; "과일"].
Proof.
  split; [by_computation|].
  apply (analyze_known_plan_is_lookup service_down (λ _, false)
           plan_main_and_other world_two_sides); [by_computation|].
  intros n Hn. change (menu_cells plan_main_and_other)
    with ["불고기"; "과일"] in Hn.
  rewrite !elem_of_cons, elem_of_nil in Hn.
  destruct Hn as [->|[->|[]]]; split; by_computation.
Defined.

(** ** From the generator to the analyzer and the export *)

(** The menu cells of the row of a generated day. *)
Lemma menu_cells_generated_row plan wd r so ma s1 s2 e :
  omap (menu_of_cell (DataFrame plan) (map Some [wd; r; so; ma; s1; s2; e]))
       meal_types =
  omap (λ x, if decide (Str.strip x = "") then None else Some (Str.strip x))
       [so; ma; s1; s2; e].
Proof. reflexivity. Qed.

Lemma name_of_category c menus x :
  x ∈ map name (of_category c menus) → x ∈ map name menus.
Proof.
  intros (m & -> & Hm)%list_elem_of_fmap.
  apply list_elem_of_filter in Hm as [_ Hm]. by apply list_elem_of_fmap_2.
Qed.

Lemma name_of_other menus x :
  x ∈ map name (of_other menus) → x ∈ map name menus.
Proof.
  intros (m & -> & Hm)%list_elem_of_fmap.
  apply list_elem_of_filter in Hm as [_ Hm]. by apply list_elem_of_fmap_2.
Qed.

Lemma trimmed_name menus x :
  trimmed_names menus → x ∈ map name menus → Str.strip x = x ∧ x ≠ "".
Proof.
  intros Ht (m & -> & Hm)%list_elem_of_fmap.
  unfold trimmed_names in Ht. rewrite Forall_forall in Ht. by apply Ht.
Qed.

Lemma first_named_exists n db :
  n ∈ map name db → ∃ m, first_named n db = Some m.
Proof.
  intros (m & -> & Hm)%list_elem_of_fmap. unfold first_named.
  destruct (filter (λ m', name m' = name m) db) as [|m' l] eqn:Hf;
    [|by eexists].
  exfalso. exact (filter_nil_not_elem_of _ _ m Hf eq_refl Hm).
Qed.

(** The menu cells of a generated day are its menus, all of the catalog. *)
Lemma generated_day menus plan d :
  trimmed_names menus →
  soup d ∈ map name menus → main d ∈ map name menus →
  side1 d ∈ map name menus → side2 d ∈ map name menus →
  etc d = "" ∨ etc d ∈ map name menus →
  omap (menu_of_cell (DataFrame plan)
          (map Some [weekday d; rice d; soup d; main d; side1 d; side2 d;
                     etc d])) meal_types = day_cells d ∧
  Forall (λ n, n ∈ map name menus) (day_cells d) ∧
  (4 ≤ length (day_cells d) ≤ 5)%nat.
Proof.
  intros Ht Hso Hma H1 H2 He. rewrite menu_cells_generated_row.
  destruct (trimmed_name _ _ Ht Hso) as [Eso Nso].
  destruct (trimmed_name _ _ Ht Hma) as [Ema Nma].
  destruct (trimmed_name _ _ Ht H1) as [E1 N1].
  destruct (trimmed_name _ _ Ht H2) as [E2 N2].
  unfold day_cells. cbn [omap list_omap].
  rewrite Eso, Ema, E1, E2. rewrite !decide_False by done.
  destruct He as [->|He].
  - change (Str.strip "") with "". rewrite !decide_True by done. cbn.
    split; [done|]. split; [|lia]. by repeat constructor.
  - destruct (trimmed_name _ _ Ht He) as [Ee Ne].
    rewrite Ee, !decide_False by done. cbn.
    split; [done|]. split; [|lia]. by repeat constructor.
Qed.

(** The soup of a generated day gives a record for its weekday. *)
Lemma soup_record_generated menus plan d :
  trimmed_names menus → soup d ∈ map name menus →
  ∃ r, lookup_record menus (DataFrame plan)
         (map Some [weekday d; rice d; soup d; main d; side1 d; side2 d;
                    etc d]) "국/수프" = Some r ∧
       r_day r = Some (weekday d).
Proof.
  intros Ht Hso. destruct (trimmed_name _ _ Ht Hso) as [Eso Nso].
  destruct (first_named_exists _ _ Hso) as [info Hinfo].
  unfold lookup_record.
  change (menu_of_cell _ _ "국/수프")
    with (if decide (Str.strip (soup d) = "") then None
          else Some (Str.strip (soup d))).
  change (row_get _ _ "요일") with (@Ok cell (Some (weekday d))).
  rewrite Eso, decide_False by done. rewrite Hinfo. by eexists.
Qed.

Lemma menu_cells_generated df plan :
  (∀ d, d ∈ plan →
        omap (menu_of_cell df
                (map Some [weekday d; rice d; soup d; main d; side1 d;
                           side2 d; etc d])) meal_types = day_cells d) →
  flat_map (λ row, omap (menu_of_cell df row) meal_types)
           (rows (DataFrame plan)) = flat_map day_cells plan.
Proof.
  cbn [DataFrame rows]. induction plan as [|d ds IH]; intros Hday; [done|].
  cbn [map flat_map]. f_equal; [exact (Hday d ltac:(left))|].
  apply IH. intros d' Hd'. apply Hday. by right.
Qed.

(** The analysis of a generated plan with the catalog it was drawn from. *)
Lemma generated_plan_analysis (rnd : string → Draws)
    (menus : list Menu) (plan : list DayPlan)
    (classify : string → result _) (insert_ok : Menu → bool)
    (calls : list string) :
  trimmed_names menus →
  make_plan rnd menus = Ok plan →
  let w := {| db := menus; classify_calls := calls |} in
  ∃ recs,
    analyze_menu_plan classify insert_ok (DataFrame plan) w = (Ok recs, w) ∧
    (20 ≤ length recs ≤ 25)%nat ∧
    (∀ d, d ∈ days → ∃ r, r ∈ recs ∧ r_day r = Some d) ∧
    Forall (λ r, ∀ d, r_day r = Some d → d ∈ days) recs.
Proof.
  intros Ht Hplan w.
  pose proof (make_plan_slots _ _ _ Hplan) as Hslots.
  pose proof (plan_days_weekdays _ _ _ _ _ Hplan) as Hdays.
  assert (Hday : ∀ d, d ∈ plan →
            omap (menu_of_cell (DataFrame plan)
                    (map Some [weekday d; rice d; soup d; main d; side1 d;
                               side2 d; etc d])) meal_types = day_cells d ∧
            Forall (λ n, n ∈ map name menus) (day_cells d) ∧
            (4 ≤ length (day_cells d) ≤ 5)%nat).
  { intros d Hd. rewrite Forall_forall in Hslots.
    destruct (Hslots d Hd) as (_ & Hso & Hma & H1 & H2 & _ & He).
    apply generated_day; eauto using name_of_category.
    destruct He as [He|He]; [by left|right]. by apply name_of_other. }
  assert (Hcells : menu_cells (DataFrame plan) = flat_map day_cells plan).
  { apply menu_cells_generated. intros d Hd. by apply Hday. }
  assert (Hknown : ∀ n, n ∈ menu_cells (DataFrame plan) →
            n ∈ map name (db w) ∧ "요일" ∈ columns (DataFrame plan)).
  { intros n Hn. split; [|by_computation].
    rewrite Hcells in Hn.
    apply list_elem_of_In, in_flat_map in Hn as (d & Hd & Hn).
    apply list_elem_of_In in Hd, Hn.
    destruct (Hday d Hd) as (_ & Hall & _).
    rewrite Forall_forall in Hall. by apply Hall. }
  pose proof (lookup_records_menus classify insert_ok _ _ Hknown) as Hmenus.
  assert (Hlen : (20 ≤ length (lookup_records (db w) (DataFrame plan)) ≤ 25)%nat).
  { rewrite <- (length_map r_menu), Hmenus, Hcells.
    assert (Hfive : length plan = 5%nat)
      by (by rewrite <- (length_map weekday), Hdays).
    destruct plan as [|d1 [|d2 [|d3 [|d4 [|d5 [|? ?]]]]]]; try discriminate.
    cbn [flat_map]. rewrite !length_app. cbn [length].
    destruct (Hday d1) as (_ & _ & ?); [left|].
    destruct (Hday d2) as (_ & _ & ?); [right; left|].
    destruct (Hday d3) as (_ & _ & ?); [do 2 right; left|].
    destruct (Hday d4) as (_ & _ & ?); [do 3 right; left|].
    destruct (Hday d5) as (_ & _ & ?); [do 4 right; left|].
    lia. }
  exists (stable_sort record_le (lookup_records (db w) (DataFrame plan))).
  split; [|split; [|split]].
  - rewrite (analyze_lookup classify insert_ok _ _ Hknown).
    unfold sort_records.
    destruct (lookup_records (db w) (DataFrame plan)); [simpl in Hlen; lia|].
    done.
  - by rewrite (Permutation_length (stable_sort_perm record_le _)).
  - intros d Hd. rewrite <- Hdays in Hd.
    apply list_elem_of_fmap in Hd as (dp & -> & Hdp).
    rewrite Forall_forall in Hslots.
    destruct (Hslots dp Hdp) as (_ & Hso & _).
    apply name_of_category in Hso.
    destruct (soup_record_generated menus plan dp Ht Hso) as (r & Hr & Hrd).
    exists r. split; [|done]. rewrite stable_sort_perm.
    unfold lookup_records. apply list_elem_of_In, in_flat_map.
    eexists. split.
    + apply list_elem_of_In. cbn [DataFrame rows].
      apply (list_elem_of_fmap_2 _ _ dp Hdp).
    + apply list_elem_of_In, list_elem_of_omap.
      exists "국/수프". split; [by_computation|exact Hr].
  - apply Forall_forall. intros r Hr d Hd.
    rewrite stable_sort_perm in Hr.
    unfold lookup_records in Hr.
    apply list_elem_of_In, in_flat_map in Hr as (row & Hrow & Hr).
    apply list_elem_of_In in Hrow, Hr.
    cbn [DataFrame rows] in Hrow.
    apply list_elem_of_fmap in Hrow as (dp & -> & Hdp).
    apply list_elem_of_omap in Hr as (mt & _ & Hr).
    unfold lookup_record in Hr.
    destruct (menu_of_cell _ _ mt); [|discriminate].
    change (row_get _ _ "요일") with (@Ok cell (Some (weekday dp))) in Hr.
    destruct (first_named _ _); [|discriminate].
    injection Hr as <-. cbn [r_day] in Hd. injection Hd as <-.
    rewrite <- Hdays. by apply list_elem_of_fmap_2.
Qed.

(** X17: a plan that make_plan returns for a catalog with trimmed, non-empty
    names is analysed without the classification service: with that catalog
    analyze_menu_plan returns, leaves the world as it is, and gives between
    20 and 25 records (four or five per day), at least one for each of the
    five weekdays. *)
Theorem generated_plan_is_analyzed (rnd : string → Draws)
    (menus : list Menu) (plan : list DayPlan)
    (classify : string → result _) (insert_ok : Menu → bool)
    (calls : list string) :
  trimmed_names menus →
  make_plan rnd menus = Ok plan →
  let w := {| db := menus; classify_calls := calls |} in
  ∃ recs,
    analyze_menu_plan classify insert_ok (DataFrame plan) w = (Ok recs, w) ∧
    (20 ≤ length recs ≤ 25)%nat ∧
    ∀ d, d ∈ days → ∃ r, r ∈ recs ∧ r_day r = Some d.
Proof.
  intros Ht Hplan w.
  destruct (generated_plan_analysis rnd menus plan classify insert_ok calls
              Ht Hplan) as (recs & Hrun & Hlen & Hall & _).
  eauto.
Qed.

Lemma generated_plan_is_analyzed_witness :
  ∃ recs,
    analyze_menu_plan service_down (λ _, false) (DataFrame plan_two_sides)
      world_two_sides = (Ok recs, world_two_sides) ∧
    (20 ≤ length recs ≤ 25)%nat ∧
    ∀ d, d ∈ days → ∃ r, r ∈ recs ∧ r_day r = Some d.
Proof.
  apply (generated_plan_is_analyzed first_row catalog_two_sides
           plan_two_sides service_down (λ _, false) []).
  - unfold trimmed_names, catalog_two_sides.
    repeat constructor; try by_computation.
  - vm_compute. reflexivity.
Defined.

(** ** Daily totals: order and conservation *)

(** The weekdays of the rows of the totals are those of the records. *)
Lemma daily_totals_day_iff rs d :
  d ∈ map t_day (daily_totals rs) ↔ ∃ r, r ∈ rs ∧ r_day r = Some d.
Proof.
  rewrite daily_totals_days, list_elem_of_fmap. split.
  - intros ([d' g] & -> & Hg). apply elem_of_map_to_list in Hg.
    rewrite groupby_sum_lookup in Hg. simpl in *.
    destruct (on_day d' rs) as [|r g'] eqn:Hday; [discriminate|].
    assert (Hr : r ∈ on_day d' rs) by (rewrite Hday; left).
    apply list_elem_of_filter in Hr as [Hd Hr]. eauto.
  - intros Hex. destruct (groupby_sum rs !! d) as [g|] eqn:Hg.
    + exists (d, g). split; [done|]. by apply elem_of_map_to_list.
    + rewrite groupby_sum_lookup in Hg.
      destruct (on_day d rs) eqn:Hday; [|discriminate].
      apply on_day_nil in Hday. done.
Qed.

Lemma daily_totals_NoDup rs : NoDup (map t_day (daily_totals rs)).
Proof. rewrite daily_totals_days. apply NoDup_fst_map_to_list. Qed.

Lemma daily_totals_Sorted rs :
  Sorted (λ a b, String.leb (t_day a) (t_day b) = true) (daily_totals rs).
Proof.
  unfold daily_totals.
  pose proof (stable_sort_Sorted key_le
                ltac:(intros x y; apply String.leb_total)
                (map_to_list (groupby_sum rs))) as Hs.
  induction Hs as [|g l Hl IH Hg]; [constructor|].
  cbn [map]. constructor; [done|].
  destruct Hg as [|g' l' Hgg']; constructor. exact Hgg'.
Qed.

(** On the five weekday labels the order of the texts is the order of
    [days_by_text]. *)
Lemma day_text_order d1 d2 :
  d1 ∈ days → d2 ∈ days → d1 ≠ d2 → String.leb d1 d2 = true →
  (position d1 days_by_text < position d2 days_by_text)%nat.
Proof.
  unfold days. rewrite !elem_of_cons, !elem_of_nil.
  intros [->|[->|[->|[->|[->|[]]]]]] [->|[->|[->|[->|[->|[]]]]]] Hne;
    try done; vm_compute;
    first [discriminate | intros _; by_computation].
Qed.

Lemma daily_totals_text_sorted (recs : list NutritionRecord) :
  Forall (λ r, ∀ d, r_day r = Some d → d ∈ days) recs →
  Sorted (λ a b, (position (t_day a) days_by_text
                    < position (t_day b) days_by_text)%nat)
         (daily_totals recs).
Proof.
  intros Hdays.
  assert (Hin : Forall (λ t, t_day t ∈ days) (daily_totals recs)).
  { apply Forall_forall. intros t Ht.
    apply (list_elem_of_fmap_2 t_day) in Ht.
    apply daily_totals_day_iff in Ht as (r & Hr & Hd).
    rewrite Forall_forall in Hdays. by eapply Hdays. }
  pose proof (daily_totals_NoDup recs) as Hnd.
  pose proof (daily_totals_Sorted recs) as Hs.
  induction Hs as [|t l Hl IH Ht]; [constructor|].
  apply Forall_cons in Hin as [Hin1 Hin2].
  cbn [map] in Hnd. apply NoDup_cons in Hnd as [Hnd1 Hnd2].
  constructor; [by apply IH|].
  destruct Ht as [|t' l' Htt']; constructor.
  apply Forall_cons in Hin2 as [Hin2 _].
  apply day_text_order; try done.
  intros Heq. apply Hnd1. rewrite Heq. cbn [map]. left.
Qed.

(** X18: the rows of the daily totals come in the order of the text of the
    weekday label, 금 < 목 < 수 < 월 < 화, not in the order of the week. *)
Theorem daily_totals_in_text_order (recs : list NutritionRecord) :
  Forall (λ r, ∀ d, r_day r = Some d → d ∈ days) recs →
  Sorted (λ a b, (position (t_day a) days_by_text
                    < position (t_day b) days_by_text)%nat)
         (daily_totals recs).
Proof. apply daily_totals_text_sorted. Qed.

Lemma daily_totals_in_text_order_witness :
  map t_day (daily_totals records_two_days) = ["금"; "월"] ∧
  Sorted (λ a b, (position (t_day a) days_by_text
                    < position (t_day b) days_by_text)%nat)
         (daily_totals records_two_days).
Proof.
  split; [vm_compute; reflexivity|].
  apply (daily_totals_in_text_order records_two_days).
  unfold records_two_days.
  repeat (apply Forall_cons; split); [..|constructor];
    cbn; intros d [= <-]; by_computation.
Defined.








(** ** Export: what a written workbook holds *)

(** The plan sheets of a file name: one or two, named 점심 or 저녁, all
    holding the transposed frame. *)
Lemma plan_sheets_Ok plan_df filename sheets :
  Normalizer.plan_sheets plan_df filename = Ok sheets →
  ∃ sh, transposed plan_df = Ok sh ∧
        (sheets = [("점심", sh)] ∨ sheets = [("저녁", sh)] ∨
         sheets = [("점심", sh); ("저녁", sh)]).
Proof.
  unfold Normalizer.plan_sheets.
  destruct (transposed plan_df) as [sh|] eqn:Ht.
  - destruct (Str.contains "점심" filename), (Str.contains "저녁" filename);
      cbn; intros [= <-]; exists sh; split; try done; tauto.
  - destruct (Str.contains "점심" filename), (Str.contains "저녁" filename);
      cbn; discriminate.
Qed.

(** X20: a workbook that export_plan writes always has its three kinds of
    sheet: one or two plan sheets (점심, 저녁 or both, holding the same
    table), a nutrition sheet that is not empty, and the daily totals sheet;
    the branch that leaves the totals out is never taken. *)
Theorem export_writes_every_sheet (classify : string → result _)
    (insert_ok : Menu → bool) (plan_df : PlanFrame) (filename : string)
    (w w' : World) (e : Export) :
  export_plan classify insert_ok plan_df filename w = (Ok e, w') →
  (∃ sh, transposed plan_df = Ok sh ∧
         (plan_sheets e = [("점심", sh)] ∨ plan_sheets e = [("저녁", sh)] ∨
          plan_sheets e = [("점심", sh); ("저녁", sh)])) ∧
  nutrition_sheet e ≠ [] ∧
  daily_totals_sheet e = Some (daily_totals (nutrition_sheet e)).
Proof.
  intros Hrun.
  destruct (export_plan_Ok _ _ _ _ _ _ _ Hrun) as (_ & Hne & Htot).
  split; [|done]. revert Hrun. unfold export_plan, bind, lift, ret.
  destruct (Normalizer.plan_sheets plan_df filename) as [sheets|] eqn:Hs;
    [|discriminate].
  destruct (analyze_menu_plan classify insert_ok plan_df w) as [[recs|] w1];
    [|discriminate].
  intros [= <- <-]. cbn [plan_sheets]. by apply (plan_sheets_Ok _ filename).
Qed.

Lemma export_writes_every_sheet_witness :
  ∃ e, export_plan service_down (λ _, false) (DataFrame plan_two_sides)
         "meal_plan_lunch.xlsx" world_two_sides = (Ok e, world_two_sides) ∧
       (∃ sh, transposed (DataFrame plan_two_sides) = Ok sh ∧
              (plan_sheets e = [("점심", sh)] ∨
               plan_sheets e = [("저녁", sh)] ∨
               plan_sheets e = [("점심", sh); ("저녁", sh)])) ∧
       nutrition_sheet e ≠ [] ∧
       daily_totals_sheet e = Some (daily_totals (nutrition_sheet e)).
Proof.
  eexists. split; [vm_compute; reflexivity|].
  eapply (export_writes_every_sheet service_down (λ _, false)
            (DataFrame plan_two_sides) "meal_plan_lunch.xlsx"
            world_two_sides world_two_sides).
  vm_compute. reflexivity.
Defined.

(** X22: when export_plan returns for a plan that make_plan returned, with
    the catalog the plan was drawn from (names trimmed and not empty), it
    has called no classification and left the catalog as it was; every plan
    sheet holds the menus of the plan, a row per slot and a column per
    weekday, and the totals sheet has one row for each of the five
    weekdays, in the order of the text of the labels. *)
Theorem export_of_generated_plan (rnd : string → Draws)
    (menus : list Menu) (plan : list DayPlan)
    (classify : string → result _) (insert_ok : Menu → bool)
    (calls : list string) (filename : string) (e : Export) (w' : World) :
  trimmed_names menus →
  make_plan rnd menus = Ok plan →
  let w := {| db := menus; classify_calls := calls |} in
  export_plan classify insert_ok (DataFrame plan) filename w = (Ok e, w') →
  w' = w ∧
  Forall (λ s, sheet_values s.2 =
                 map (λ f, map (λ d, Some (f d)) plan)
                     [rice; soup; main; side1; side2; etc])
         (plan_sheets e) ∧
  ∃ totals,
    daily_totals_sheet e = Some totals ∧
    map t_day totals ≡ₚ days ∧
    Sorted (λ a b, (position (t_day a) days_by_text
                      < position (t_day b) days_by_text)%nat) totals.
Proof.
  intros Ht Hplan w.
  destruct (generated_plan_analysis rnd menus plan classify insert_ok calls
              Ht Hplan) as (recs & Hrun & Hlen & Hall & Hdays).
  fold w in Hrun.
  pose proof (plan_days_weekdays _ _ _ _ _ Hplan) as Hweek.
  pose proof (transposed_weekly plan Hweek) as Htr.
  unfold export_plan, bind, lift, ret.
  destruct (Normalizer.plan_sheets (DataFrame plan) filename)
    as [sheets|] eqn:Hsheets; [|discriminate].
  rewrite Hrun. intros [= <- <-]. split; [done|]. split; [|exists (daily_totals recs); split; [|split]].
  - cbn [plan_sheets].
    destruct (plan_sheets_Ok _ _ _ Hsheets) as (sh' & Hsh' & Hcase).
    rewrite Htr in Hsh'. injection Hsh' as <-.
    destruct Hcase as [-> | [-> | ->]]; by repeat constructor.
  - cbn [daily_totals_sheet]. destruct recs; [simpl in Hlen; lia|done].
  - apply NoDup_Permutation.
    + apply daily_totals_NoDup.
    + by_computation.
    + intros d. rewrite daily_totals_day_iff. split.
      * intros (r & Hr & Hd). rewrite Forall_forall in Hdays.
        by apply (Hdays r Hr).
      * apply Hall.
  - by apply daily_totals_text_sorted.
Qed.

Lemma export_of_generated_plan_witness :
  ∃ e,
    export_plan service_down (λ _, false) (DataFrame plan_two_sides)
      "meal_plan_lunch.xlsx" world_two_sides = (Ok e, world_two_sides) ∧
    Forall (λ s, sheet_values s.2 =
                   map (λ f, map (λ d, Some (f d)) plan_two_sides)
                       [rice; soup; main; side1; side2; etc])
           (plan_sheets e) ∧
    ∃ totals,
      daily_totals_sheet e = Some totals ∧
      map t_day totals ≡ₚ days ∧
      Sorted (λ a b, (position (t_day a) days_by_text
                        < position (t_day b) days_by_text)%nat) totals.
Proof.
  eexists. split; [vm_compute; reflexivity|].
  eapply (export_of_generated_plan first_row catalog_two_sides
            plan_two_sides service_down (λ _, false) []
            "meal_plan_lunch.xlsx" _ world_two_sides).
  - unfold trimmed_names, catalog_two_sides.
    repeat constructor; try by_computation.
  - vm_compute. reflexivity.
  - vm_compute. reflexivity.
Defined.

(** ** Catalog maintenance: bulk_add *)

Lemma accepted_row classify insert_ok n :
  accepted classify insert_ok n = true →
  ∃ row, classified_row classify n = Some row ∧ name row = n ∧
         insert_ok row = true.
Proof.
  unfold accepted, classified_row.
  destruct (classify n) as [[cat [[[[cal pro] fa] car] sod]]|]; [|discriminate].
  intros H. eexists. split; [done|]. split; [done|exact H].
Qed.

Lemma accepted_names classify insert_ok names :
  Forall (λ n, accepted classify insert_ok n = true) names →
  map name (omap (classified_row classify) names) = names.
Proof.
  induction 1 as [|n names Hn _ IH]; [done|].
  destruct (accepted_row _ _ _ Hn) as (row & Hrow & Hname & _).
  cbn [omap list_omap]. rewrite Hrow. cbn [map]. fold (omap (classified_row classify) names).
  by rewrite Hname, IH.
Qed.

(** One turn of the loop of bulk_add. *)
Lemma bulk_add_step classify insert_ok n w :
  (let* menu_info := classify_menu classify n in
   add_menu insert_ok n menu_info) w =
  match classified_row classify n with
  | Some row =>
      if insert_ok row
      then (Ok (), {| db := db w ++ [row];
                      classify_calls := classify_calls w ++ [n] |})
      else (Raise DatabaseError,
            {| db := db w; classify_calls := classify_calls w ++ [n] |})
  | None =>
      (match classify n with Raise e => Raise e | Ok _ => Raise DatabaseError end,
       {| db := db w; classify_calls := classify_calls w ++ [n] |})
  end.
Proof.
  unfold bind, classify_menu, add_menu, classified_row.
  destruct (classify n) as [[cat [[[[cal pro] fa] car] sod]]|e]; [|done].
  cbn. by destruct (insert_ok _).
Qed.

(** What bulk_add has done when it ends, whatever the outcome: the names
    before the first one that fails have one row each, appended in order. *)
Lemma bulk_add_inv classify insert_ok names w res w' :
  bulk_add classify insert_ok names w = (res, w') →
  ∃ done,
    Forall (λ n, accepted classify insert_ok n = true) done ∧
    db w' = (db w ++ omap (classified_row classify) done)%list ∧
    match res with
    | Ok _ => done = names ∧
              classify_calls w' = (classify_calls w ++ names)%list
    | Raise e =>
        ∃ n rest, names = (done ++ n :: rest)%list ∧
                  accepted classify insert_ok n = false ∧
                  classify_calls w' = (classify_calls w ++ done ++ [n])%list ∧
                  e = match classify n with
                      | Raise e' => e'
                      | Ok _ => DatabaseError
                      end
    end.
Proof.
  unfold bulk_add. revert w. induction names as [|n names IH]; intros w.
  - cbn. unfold ret. intros [= <- <-]. exists []. cbn.
    by rewrite !app_nil_r.
  - cbn [for_each]. unfold bind at 1. rewrite bulk_add_step.
    destruct (classified_row classify n) as [row|] eqn:Hrow.
    + destruct (insert_ok row) eqn:Hins.
      * intros Hrest. apply IH in Hrest as (done & Hacc & Hdb & Hres).
        cbn [db classify_calls] in *.
        exists (n :: done). split; [|split].
        -- constructor; [|done]. unfold accepted. by rewrite Hrow.
        -- cbn [omap list_omap]. rewrite Hrow.
           by rewrite Hdb, <- app_assoc.
        -- destruct res as [u|e].
           ++ destruct Hres as [-> Hcalls]. split; [done|].
              by rewrite Hcalls, <- app_assoc.
           ++ destruct Hres as (n' & rest & -> & Hn' & Hcalls & He).
              exists n', rest. split; [done|]. split; [done|].
              split; [|done]. by rewrite Hcalls, <- !app_assoc.
      * intros [= <- <-]. exists []. cbn. rewrite app_nil_r.
        split; [done|]. split; [done|]. exists n, names.
        split; [done|]. split; [unfold accepted; by rewrite Hrow, Hins|].
        split; [done|]. unfold classified_row in Hrow.
        by destruct (classify n) as [[cat [[[[cal pro] fa] car] sod]]|].
    + intros Hres. exists []. cbn. rewrite app_nil_r.
      assert (Hn : accepted classify insert_ok n = false)
        by (unfold accepted; by rewrite Hrow).
      unfold classified_row in Hrow.
      destruct (classify n) as [[cat [[[[cal pro] fa] car] sod]]|e] eqn:Hc;
        [discriminate|].
      injection Hres as <- <-.
      split; [done|]. split; [done|]. exists n, names. cbn. rewrite Hc.
      by repeat split.
Qed.

(** X23: when bulk_add returns it has called the classification service once
    for every name of the list and appended one row per name, in the order
    of the list, also for a name that the catalog already has and for a name
    that the list has twice: nothing is skipped. *)
Theorem bulk_add_adds_every_name (classify : string → result _)
    (insert_ok : Menu → bool) (names : list string) (w w' : World) :
  bulk_add classify insert_ok names w = (Ok (), w') →
  db w' = (db w ++ omap (classified_row classify) names)%list ∧
  map name (db w') = (map name (db w) ++ names)%list ∧
  classify_calls w' = (classify_calls w ++ names)%list.
Proof.
  intros Hrun.
  apply bulk_add_inv in Hrun as (done & Hacc & Hdb & -> & Hcalls).
  split; [done|]. split; [|done].
  by rewrite Hdb, map_app, (accepted_names _ _ _ Hacc).
Qed.

Lemma bulk_add_adds_every_name_witness :
  ∃ w', bulk_add service_up (λ _, true) ["불고기"; "잡채"; "잡채"]
          world_two_sides = (Ok (), w') ∧
        db w' = (db world_two_sides
                   ++ omap (classified_row service_up)
                        ["불고기"; "잡채"; "잡채"])%list ∧
        map name (db w') = (map name (db world_two_sides)
                              ++ ["불고기"; "잡채"; "잡채"])%list ∧
        classify_calls w' = (classify_calls world_two_sides
                               ++ ["불고기"; "잡채"; "잡채"])%list.
Proof.
  eexists. split; [vm_compute; reflexivity|].
  apply (bulk_add_adds_every_name service_up (λ _, true)
           ["불고기"; "잡채"; "잡채"] world_two_sides).
  vm_compute. reflexivity.
Defined.

(** X24: bulk_add is not atomic.  When it raises, at the first name that the
    service does not classify or that cannot be inserted, the rows of the
    names before it stay in the catalog and the names after it are neither
    classified nor added; the exception is that of the service, or the
    database error of the insertion. *)
Theorem bulk_add_keeps_rows_on_failure (classify : string → result _)
    (insert_ok : Menu → bool) (names : list string) (w w' : World) (e : exn) :
  bulk_add classify insert_ok names w = (Raise e, w') →
  ∃ done n rest,
    names = (done ++ n :: rest)%list ∧
    Forall (λ n, accepted classify insert_ok n = true) done ∧
    accepted classify insert_ok n = false ∧
    map name (db w') = (map name (db w) ++ done)%list ∧
    classify_calls w' = (classify_calls w ++ done ++ [n])%list ∧
    e = match classify n with Raise e' => e' | Ok _ => DatabaseError end.
Proof.
  intros Hrun.
  apply bulk_add_inv in Hrun
    as (done & Hacc & Hdb & n & rest & -> & Hn & Hcalls & He).
  exists done, n, rest. repeat split; try done.
  by rewrite Hdb, map_app, (accepted_names _ _ _ Hacc).
Qed.

Lemma bulk_add_keeps_rows_on_failure_witness :
  ∃ e w' done n rest,
    bulk_add service_without_pizza (λ _, true) ["잡채"; "피자"; "냉면"]
      world_two_sides = (Raise e, w') ∧
    ["잡채"; "피자"; "냉면"] = (done ++ n :: rest)%list ∧
    Forall (λ n, accepted service_without_pizza (λ _, true) n = true) done ∧
    accepted service_without_pizza (λ _, true) n = false ∧
    map name (db w') = (map name (db world_two_sides) ++ done)%list ∧
    classify_calls w' = (classify_calls world_two_sides ++ done ++ [n])%list ∧
    e = match service_without_pizza n with
        | Raise e' => e'
        | Ok _ => DatabaseError
        end.
Proof.
  eexists _, _.
  destruct (bulk_add_keeps_rows_on_failure service_without_pizza (λ _, true)
              ["잡채"; "피자"; "냉면"] world_two_sides _ _
              ltac:(vm_compute; reflexivity))
    as (done & n & rest & H).
  exists done, n, rest. split; [vm_compute; reflexivity|exact H].
Defined.

(** ** Catalog maintenance: delete_menus *)

Lemma delete_menus_eq names w :
  delete_menus names w =
  (Ok (), {| db := filter (λ m, name m ∉ names) (db w);
             classify_calls := classify_calls w |}).
Proof.
  unfold delete_menus. revert w.
  induction names as [|n names IH]; intros w; cbn [for_each].
  - unfold ret. destruct w as [d c]. cbn. f_equal. f_equal.
    induction d as [|m d IHd]; [done|].
    rewrite filter_cons, decide_True by apply not_elem_of_nil.
    by rewrite <- IHd.
  - unfold bind, delete_menu. rewrite IH. cbn [db classify_calls].
    f_equal. f_equal. induction (db w) as [|m d IHd]; [done|].
    rewrite !filter_cons. destruct (decide (name m = n)) as [Heq|Hne].
    + rewrite decide_False by (intros H; by apply H).
      rewrite decide_False by (rewrite Heq; intros H; apply H; left).
      exact IHd.
    + rewrite decide_True by done. rewrite filter_cons.
      destruct (decide (name m ∈ names)) as [Hin|Hnin].
      * rewrite decide_False by (intros H; by apply H).
        rewrite decide_False by (intros H; apply H; by right).
        exact IHd.
      * rewrite decide_True by done.
        rewrite decide_True by (rewrite not_elem_of_cons; done).
        by rewrite IHd.
Qed.

Lemma filter_all_named (names : list string) (rows : list Menu) :
  Forall (λ m, name m ∈ names) rows →
  filter (λ m, name m ∉ names) rows = [].
Proof.
  induction 1 as [|m rows Hm _ IH]; [done|].
  rewrite filter_cons, decide_False by (intros H; by apply H). exact IH.
Qed.

Lemma filter_none_named (names : list string) (rows : list Menu) :
  Forall (λ n, n ∉ map name rows) names →
  filter (λ m, name m ∉ names) rows = rows.
Proof.
  intros Hfresh. induction rows as [|m rows IH]; [done|].
  rewrite filter_cons, decide_True.
  - f_equal. apply IH. eapply Forall_impl; [exact Hfresh|].
    cbn. intros n Hn Hin. apply Hn. by right.
  - intros Hin. rewrite Forall_forall in Hfresh.
    apply (Hfresh _ Hin). cbn. left.
Qed.

(** X25: delete_menus removes every row whose name is in the list and keeps
    the others in their order.  After bulk_add of the same list, however
    bulk_add ended, it leaves the catalog that bulk_add started from without
    the rows of those names; when none of the names was in the catalog, that
    is the catalog as it was. *)
Theorem delete_menus_undoes_bulk_add (classify : string → result _)
    (insert_ok : Menu → bool) (names : list string) (w w1 : World)
    (res : result unit) :
  bulk_add classify insert_ok names w = (res, w1) →
  ∃ w2, delete_menus names w1 = (Ok (), w2) ∧
        db w2 = filter (λ m, name m ∉ names) (db w) ∧
        (Forall (λ n, n ∉ map name (db w)) names → db w2 = db w).
Proof.
  intros Hrun. rewrite delete_menus_eq. eexists. split; [done|].
  cbn [db].
  apply bulk_add_inv in Hrun as (done & Hacc & Hdb & Hres).
  assert (Hsub : ∀ n, n ∈ done → n ∈ names).
  { destruct res as [u|e].
    - by destruct Hres as [-> _].
    - destruct Hres as (n' & rest & -> & _). intros n Hn.
      apply elem_of_app. by left. }
  assert (Hfilter : filter (λ m, name m ∉ names) (db w1)
                    = filter (λ m, name m ∉ names) (db w)).
  { rewrite Hdb, filter_app.
    rewrite (filter_all_named names (omap (classified_row classify) done));
      [by rewrite app_nil_r|].
    apply Forall_forall. intros m Hm. apply Hsub.
    rewrite <- (accepted_names _ _ _ Hacc). by apply list_elem_of_fmap_2. }
  split; [done|]. intros Hfresh. rewrite Hfilter.
  by apply filter_none_named.
Qed.

Lemma delete_menus_undoes_bulk_add_witness :
  ∃ res w1 w2,
    bulk_add service_without_pizza (λ _, true) ["잡채"; "피자"; "냉면"]
      world_two_sides = (res, w1) ∧
    db w1 ≠ db world_two_sides ∧
    delete_menus ["잡채"; "피자"; "냉면"] w1 = (Ok (), w2) ∧
    db w2 = filter (λ m, name m ∉ ["잡채"; "피자"; "냉면"])
              (db world_two_sides) ∧
    db w2 = db world_two_sides.
Proof.
  eexists _, _.
  destruct (delete_menus_undoes_bulk_add service_without_pizza (λ _, true)
              ["잡채"; "피자"; "냉면"] world_two_sides _ _
              ltac:(vm_compute; reflexivity))
    as (w2 & Hdel & Hdb & Hsame).
  exists w2. split; [vm_compute; reflexivity|].
  split; [vm_compute; discriminate|]. split; [exact Hdel|].
  split; [exact Hdb|]. apply Hsame. by_computation.
Defined.

(** ** Catalog maintenance: the updates *)

Lemma update_nutrition_same_menu n nut d :
  Forall2 same_menu
    (db (update_menu_nutrition n nut {| db := d; classify_calls := [] |}).2) d.
Proof.
  cbn. induction d as [|m d IH]; cbn; constructor; [|exact IH].
  case_decide; by split.
Qed.

Lemma same_menu_names l l' :
  Forall2 same_menu l l' →
  map name l = map name l' ∧ map category l = map category l'.
Proof.
  induction 1 as [|m m' d d' [Hn Hc] _ [IHn IHc]]; [done|].
  cbn [map]. by rewrite Hn, Hc, IHn, IHc.
Qed.

(** X26: update_menu_nutrition changes no name, no category and no row count,
    so it has no effect on the plans: make_plan gives the same plan, or the
    same exception, for the same draws before and after it. *)
Theorem update_nutrition_keeps_plans (rnd : string → Draws) (n : string)
    (nut : gmap string Z) (w : World) :
  map name (db (update_menu_nutrition n nut w).2) = map name (db w) ∧
  map category (db (update_menu_nutrition n nut w).2) = map category (db w) ∧
  make_plan rnd (db (update_menu_nutrition n nut w).2) = make_plan rnd (db w).
Proof.
  pose proof (update_nutrition_same_menu n nut (db w)) as Hsame.
  cbn [update_menu_nutrition snd db] in *.
  destruct (same_menu_names _ _ Hsame) as [Hn Hc].
  split; [done|]. split; [done|]. by apply make_plan_same_menu.
Qed.

Lemma first_named_updated n nut d :
  n ∈ map name d →
  ∃ m, first_named n
         (db (update_menu_nutrition n nut
                {| db := d; classify_calls := [] |}).2) = Some m ∧
       menu_nutrients m = updated_nutrients nut.
Proof.
  cbn. induction d as [|x d IH]; [by intros ?%elem_of_nil|].
  intros Hin. unfold first_named. cbn [map]. rewrite filter_cons.
  destruct (decide (name x = n)) as [Hx|Hx].
  - rewrite decide_True by done. cbn. eexists. by split.
  - rewrite decide_False by done.
    apply elem_of_cons in Hin as [->|Hin]; [done|]. by apply IH.
Qed.

(** X27: an update of the nutrients is what the next analysis reports: after
    update_menu_nutrition for a name of the catalog, every record that
    analyze_menu_plan returns for that name carries the new values (zero for
    a nutrient that the dictionary leaves out). *)
Theorem analysis_reports_updated_nutrients (classify : string → result _)
    (insert_ok : Menu → bool) (plan_df : PlanFrame) (n : string)
    (nut : gmap string Z) (w w' : World) (recs : list NutritionRecord) :
  n ∈ map name (db w) →
  analyze_menu_plan classify insert_ok plan_df
    (update_menu_nutrition n nut w).2 = (Ok recs, w') →
  Forall (λ r, r_menu r = n → record_nutrients r = updated_nutrients nut)
         recs.
Proof.
  intros Hn Hrun.
  destruct (analyze_menu_plan_world _ _ _ _ _ _ Hrun)
    as (l & (_ & _ & Hok & new & _ & _ & _ & Hdb) & Hperm).
  rewrite Hperm. eapply Forall_impl; [exact Hok|].
  intros r (_ & _ & m & Hm & Hnut) Hr. rewrite Hnut.
  destruct (first_named_updated n nut (db w) Hn) as (m' & Hm' & Hnut').
  rewrite Hr, Hdb in Hm.
  rewrite (first_named_app _ _ _ _ Hm') in Hm. injection Hm as <-.
  exact Hnut'.
Qed.

Lemma analysis_reports_updated_nutrients_witness :
  ∃ recs w',
    analyze_menu_plan service_down (λ _, false) plan_main_and_other
      (update_menu_nutrition "불고기" {[ "칼로리" := 123 ]}
         world_two_sides).2 = (Ok recs, w') ∧
    Forall (λ r, r_menu r = "불고기" →
                 record_nutrients r
                 = updated_nutrients {[ "칼로리" := 123 ]}) recs ∧
    updated_nutrients {[ "칼로리" := 123 ]} = (123, 0, 0, 0, 0).
Proof.
  eexists _, _. split; [vm_compute; reflexivity|]. split.
  - eapply (analysis_reports_updated_nutrients service_down (λ _, false)
              plan_main_and_other "불고기" {[ "칼로리" := 123 ]}
              world_two_sides).
    + by_computation.
    + vm_compute. reflexivity.
  - vm_compute. reflexivity.
Defined.

(** ** calculate_nutrition and the analysis *)






(** ** The save button of the menu table *)

Lemma save_edit_eq menus i r m w :
  menus !! i = Some m →
  save_edit menus (i, r) () w =
  (Ok (), {| db := saved m r (db w); classify_calls := classify_calls w |}).
Proof.
  intros Hm. unfold save_edit. cbn [fst snd]. rewrite Hm.
  unfold bind, update_menu_category, update_menu_nutrition, ret, saved,
    get_or_zero.
  destruct (decide (category r ≠ category m)) as [Hc|Hc];
    cbn [db classify_calls]; f_equal; f_equal; try done.
  rewrite map_map. apply map_ext. intros x.
  destruct (decide (name x = name m)) as [Hx|Hx]; cbn [name].
  - by rewrite decide_True.
  - by rewrite decide_False.
Qed.

Lemma saved_names m r d : map name (saved m r d) = map name d.
Proof.
  unfold saved. rewrite map_map. apply map_ext. intros x. by case_decide.
Qed.

(** X29: the save button changes categories and nutrients only: whatever the
    edited table holds and however the loop ends, the catalog keeps its rows
    and their names, so a row that was removed in the table is not removed
    from the catalog, and no row is added. *)
Theorem save_edits_keeps_rows (edited : list (nat * Menu)) (w w' : World)
    (res : result unit) :
  save_edits edited w = (res, w') →
  map name (db w') = map name (db w) ∧
  classify_calls w' = classify_calls w.
Proof.
  unfold save_edits, bind, get_all_menus.
  destruct (db w) as [|m0 d0] eqn:Hdb0;
    [unfold ret; intros [= <- <-]; by rewrite Hdb0|].
  rewrite <- Hdb0. clear Hdb0. intros Hrun.
  pose proof (for_each_inv
    (λ (_ : unit) w1, map name (db w1) = map name (db w) ∧
                      classify_calls w1 = classify_calls w)
    edited (save_edit (db w)) () w res w') as Hinv.
  cbv beta in Hinv.
  assert (Hgoal : match res with
                  | Ok _ => map name (db w') = map name (db w) ∧
                            classify_calls w' = classify_calls w
                  | Raise _ => ∃ _ : unit,
                            map name (db w') = map name (db w) ∧
                            classify_calls w' = classify_calls w
                  end).
  { apply Hinv; [|done|exact Hrun].
    intros [i r] [] w1 res1 w2 _ [Hn Hc]. unfold save_edit. cbn [fst snd].
    destruct (db w !! i) as [m|] eqn:Hm.
    - fold (save_edit (db w) (i, r) ()).
      pose proof (save_edit_eq (db w) i r m w1 Hm) as Heq.
      unfold save_edit in Heq. cbn [fst snd] in Heq. rewrite Hm in Heq.
      rewrite Heq. intros [= <- <-]. cbn. by rewrite saved_names.
    - unfold raise. intros [= <- <-]. by exists (). }
  destruct res; [done|]. by destruct Hgoal.
Qed.

Lemma save_edits_keeps_rows_witness :
  ∃ w', save_edits [(1%nat, mkMenu "" "메인" 1 2 3 4 5)] world_two_sides
          = (Ok (), w') ∧
        map name (db w') = map name (db world_two_sides) ∧
        classify_calls w' = classify_calls world_two_sides.
Proof.
  eexists. split; [vm_compute; reflexivity|].
  apply (save_edits_keeps_rows [(1%nat, mkMenu "" "메인" 1 2 3 4 5)]
           world_two_sides _ (Ok ())).
  vm_compute. reflexivity.
Defined.

Lemma saved_other m r d :
  name m ∉ map name d → saved m r d = d.
Proof.
  intros Hm. unfold saved. induction d as [|x d IH]; [done|].
  cbn [map] in *. rewrite not_elem_of_cons in Hm. destruct Hm as [Hx Hd].
  rewrite decide_False by done. f_equal. by apply IH.
Qed.

Lemma zip_with_names (pre rows : list Menu) :
  length rows = length pre →
  map name (zip_with edited_menu pre rows) = map name pre.
Proof.
  revert rows. induction pre as [|m pre IH]; intros [|r rows]; try done.
  cbn. intros [= Hlen]. by rewrite IH.
Qed.

Lemma save_loop menus pre suf rows_pre rows_suf w :
  menus = (pre ++ suf)%list →
  NoDup (map name menus) →
  length rows_pre = length pre →
  length rows_suf = length suf →
  db w = (zip_with edited_menu pre rows_pre ++ suf)%list →
  for_each (imap (λ i r, ((length pre + i)%nat, r)) rows_suf)
           (save_edit menus) () w =
  (Ok (), {| db := (zip_with edited_menu pre rows_pre
                      ++ zip_with edited_menu suf rows_suf)%list;
             classify_calls := classify_calls w |}).
Proof.
  revert pre rows_pre rows_suf w.
  induction suf as [|m suf IH]; intros pre rows_pre rows_suf w Hmenus Hnd
    Hlen1 Hlen2 Hdb.
  - destruct rows_suf; [|done]. cbn. unfold ret. destruct w as [d c].
    cbn in *. by rewrite Hdb.
  - destruct rows_suf as [|r rows_suf]; [done|]. injection Hlen2 as Hlen2.
    rewrite imap_cons. cbn [for_each]. unfold bind.
    assert (Hm : menus !! (length pre + 0)%nat = Some m).
    { rewrite Hmenus, Nat.add_0_r. by apply list_lookup_middle. }
    rewrite (save_edit_eq menus _ r m w Hm).
    assert (Hnames : NoDup (map name pre ++ name m :: map name suf)).
    { by rewrite Hmenus, map_app in Hnd. }
    apply NoDup_app in Hnames as (Hpre & Hcross & Hsuf).
    apply NoDup_cons in Hsuf as [Hm_suf Hsuf].
    assert (Hm_pre : name m ∉ map name pre).
    { intros Hin. apply (Hcross _ Hin). left. }
    assert (Hsaved : saved m r (db w)
                     = (zip_with edited_menu (pre ++ [m]) (rows_pre ++ [r])
                          ++ suf)%list).
    { rewrite Hdb, zip_with_app by done. unfold saved at 1.
      rewrite map_app. cbn [map zip_with]. rewrite decide_True by done.
      fold (saved m r (zip_with edited_menu pre rows_pre)).
      fold (saved m r suf).
      rewrite !saved_other; [| done | by rewrite zip_with_names].
      rewrite <- app_assoc. cbn. f_equal. f_equal. unfold edited_menu.
      f_equal. by case_decide. }
    rewrite (imap_ext _ (λ i r, ((length (pre ++ [m]) + i)%nat, r)));
      [|intros i x _; cbn; rewrite length_app; cbn; f_equal; lia].
    rewrite (IH (pre ++ [m])%list (rows_pre ++ [r])%list rows_suf).
    + cbn [db classify_calls]. f_equal. f_equal.
      rewrite zip_with_app by done. by rewrite <- app_assoc.
    + by rewrite Hmenus, <- app_assoc.
    + done.
    + rewrite !length_app. cbn. lia.
    + done.
    + exact Hsaved.
Qed.

(** X30: when the names of the catalog are distinct and the edited table has
    the rows of the catalog in their order, the save button makes the
    catalog equal to the edited table: every row takes the category and the
    nutrients of its edited row and keeps its name. *)
Theorem save_edits_stores_table (rows : list Menu) (w : World) :
  NoDup (map name (db w)) →
  length rows = length (db w) →
  save_edits (imap (λ i r, (i, r)) rows) w =
  (Ok (), {| db := zip_with edited_menu (db w) rows;
             classify_calls := classify_calls w |}).
Proof.
  intros Hnd Hlen. unfold save_edits, bind, get_all_menus.
  destruct (db w) as [|m0 d0] eqn:Hdb0.
  - destruct rows; [|done]. unfold ret. destruct w as [d c].
    cbn in *. by rewrite Hdb0.
  - rewrite <- Hdb0 in *.
    exact (save_loop (db w) [] (db w) [] rows w eq_refl Hnd eq_refl Hlen
             eq_refl).
Qed.

Lemma save_edits_stores_table_witness :
  save_edits
    (imap (λ i r, (i, r))
       (map (λ m, mkMenu (name m) "기타" 1 2 3 4 5) catalog_two_sides))
    world_two_sides =
  (Ok (), {| db := zip_with edited_menu (db world_two_sides)
                     (map (λ m, mkMenu (name m) "기타" 1 2 3 4 5)
                        catalog_two_sides);
             classify_calls := classify_calls world_two_sides |}).
Proof.
  apply (save_edits_stores_table
           (map (λ m, mkMenu (name m) "기타" 1 2 3 4 5) catalog_two_sides)
           world_two_sides).
  - by_computation.
  - reflexivity.
Defined.
